(** * Multi-agent orchestrator and audit recorder: a shallow embedding

    The development follows the Python sources under [backend/]:

    - [app/agents/supervisor_agent.py]  (planning, title, synthesis),
    - [app/agents/llm_agent.py]         (the free-text responder),
    - [app/agents/neo4j_agent.py]       (the graph responder's node export),
    - [app/orchestrator/orchestrator.py] (the execution engine),
    - [app/audit/neo4j_audit.py]        (the provenance recorder).

    Python text is [string]; a [dict] whose order is observable is an
    association list updated in place; exceptions and the outside world
    (language model, push channel, clock, graph store) are threaded through a
    small state-and-exception monad. *)

From Stdlib Require Import String Ascii List Bool Arith ZArith Lia.
From Stdlib Require Import DecimalString.
From Stdlib Require DecimalNat DecimalPos DecimalFacts Nnat.
Import ListNotations.
Local Open Scope list_scope.
Local Open Scope string_scope.

(* ===================================================================== *)
(** * Python built-ins used by the sources *)
(* ===================================================================== *)

Module Py.

(** ["\n"], ["\t"] and the double quote character. *)
Definition nl : string := String "010"%char EmptyString.
Definition tab : string := String "009"%char EmptyString.
Definition dq : string := String "034"%char EmptyString.

(** [quoted s] is [s] between double quotes. *)
Definition quoted (s : string) : string := dq ++ s ++ dq.

(** [str.isspace] on one ASCII character. *)
Definition is_space (c : ascii) : bool :=
  let n := nat_of_ascii c in
  (((9 <=? n) && (n <=? 13)) || ((28 <=? n) && (n <=? 32)))%nat.

Definition is_lower (c : ascii) : bool :=
  let n := nat_of_ascii c in ((97 <=? n) && (n <=? 122))%nat.

Definition is_upper (c : ascii) : bool :=
  let n := nat_of_ascii c in ((65 <=? n) && (n <=? 90))%nat.

Definition to_upper (c : ascii) : ascii :=
  if is_lower c then ascii_of_nat (nat_of_ascii c - 32) else c.

Definition to_lower (c : ascii) : ascii :=
  if is_upper c then ascii_of_nat (nat_of_ascii c + 32) else c.

Fixpoint map_chars (f : ascii -> ascii) (s : string) : string :=
  match s with
  | EmptyString => EmptyString
  | String c s' => String (f c) (map_chars f s')
  end.

(** [s.lower()] *)
Definition lower (s : string) : string := map_chars to_lower s.

(** [s.replace(old, new)] for one-character [old] and [new]. *)
Definition replace_char (old new : ascii) (s : string) : string :=
  map_chars (fun c => if Ascii.eqb c old then new else c) s.

(** [s.replace(old, new)] for a one-character [old]. *)
Fixpoint replace_char_by (old : ascii) (new : string) (s : string) : string :=
  match s with
  | EmptyString => EmptyString
  | String c s' =>
      if Ascii.eqb c old then new ++ replace_char_by old new s'
      else String c (replace_char_by old new s')
  end.

(** [s.title()] on ASCII text: a cased character is upper-cased when the
    character before it is not cased, and lower-cased otherwise. A byte
    above 127 is left as it is; Python maps such characters by their Unicode
    case, which may change the length of the text. *)
Fixpoint title_go (prev_cased : bool) (s : string) : string :=
  match s with
  | EmptyString => EmptyString
  | String c s' =>
      if is_lower c then
        String (if prev_cased then c else to_upper c) (title_go true s')
      else if is_upper c then
        String (if prev_cased then to_lower c else c) (title_go true s')
      else String c (title_go false s')
  end.

Definition title (s : string) : string := title_go false s.

(** [s.isascii()] *)
Definition is_ascii (s : string) : bool :=
  forallb (fun c => (nat_of_ascii c <? 128)%nat) (list_ascii_of_string s).

(** [s.lstrip()], [s.rstrip()], [s.strip()] *)
Fixpoint lstrip (s : string) : string :=
  match s with
  | EmptyString => EmptyString
  | String c s' => if is_space c then lstrip s' else s
  end.

Fixpoint rstrip (s : string) : string :=
  match s with
  | EmptyString => EmptyString
  | String c s' =>
      match rstrip s' with
      | EmptyString => if is_space c then EmptyString else String c EmptyString
      | r => String c r
      end
  end.

Definition strip (s : string) : string := rstrip (lstrip s).

(** [s.strip(chars)] for a set of characters given as a predicate. *)
Fixpoint lstrip_chars (p : ascii -> bool) (s : string) : string :=
  match s with
  | EmptyString => EmptyString
  | String c s' => if p c then lstrip_chars p s' else s
  end.

Fixpoint rstrip_chars (p : ascii -> bool) (s : string) : string :=
  match s with
  | EmptyString => EmptyString
  | String c s' =>
      match rstrip_chars p s' with
      | EmptyString => if p c then EmptyString else String c EmptyString
      | r => String c r
      end
  end.

Definition strip_chars (p : ascii -> bool) (s : string) : string :=
  rstrip_chars p (lstrip_chars p s).

(** [s.startswith(p)], [s.endswith(p)] *)
Definition startswith (p s : string) : bool := String.prefix p s.

Definition endswith (p s : string) : bool :=
  (String.length p <=? String.length s)%nat
  && String.eqb (substring (String.length s - String.length p) (String.length p) s) p.

(** [c in s] for a character [c]. *)
Fixpoint contains_char (c : ascii) (s : string) : bool :=
  match s with
  | EmptyString => false
  | String d s' => Ascii.eqb c d || contains_char c s'
  end.

(** [needle in s] for a non-empty substring. *)
Fixpoint contains (needle s : string) : bool :=
  String.prefix needle s
  || match s with
     | EmptyString => false
     | String _ s' => contains needle s'
     end.

Fixpoint rev_string (acc s : string) : string :=
  match s with
  | EmptyString => acc
  | String c s' => rev_string (String c acc) s'
  end.

(** [s.split(sep)] for a non-empty separator: [cur] holds the piece being
    read, reversed, and [skip] counts the characters of a separator still to
    pass over. *)
Fixpoint split_go (sep : string) (skip : nat) (cur : string) (s : string)
  : list string :=
  match s with
  | EmptyString => [rev_string EmptyString cur]
  | String c s' =>
      match skip with
      | S k => split_go sep k cur s'
      | O =>
          if String.prefix sep s
          then rev_string EmptyString cur
               :: split_go sep (String.length sep - 1) EmptyString s'
          else split_go sep 0 (String c cur) s'
      end
  end.

Definition split (sep s : string) : list string := split_go sep 0 EmptyString s.

(** [s.split()]: the maximal runs of non-blank characters. *)
Fixpoint words_go (cur : string) (s : string) : list string :=
  match s with
  | EmptyString =>
      match cur with
      | EmptyString => []
      | _ => [rev_string EmptyString cur]
      end
  | String c s' =>
      if is_space c then
        match cur with
        | EmptyString => words_go EmptyString s'
        | _ => rev_string EmptyString cur :: words_go EmptyString s'
        end
      else words_go (String c cur) s'
  end.

Definition words (s : string) : list string := words_go EmptyString s.

(** [sep.join(l)] *)
Definition join (sep : string) (l : list string) : string := String.concat sep l.

(** [s.replace(old, new)] for a non-empty [old]. *)
Definition replace_sub (old new s : string) : string := join new (split old s).

(** One hexadecimal digit, in lower case. *)
Definition hex_digit (n : nat) : ascii :=
  nth n ["0"; "1"; "2"; "3"; "4"; "5"; "6"; "7"; "8"; "9";
         "a"; "b"; "c"; "d"; "e"; "f"]%char "0"%char.

(** How [repr] writes one character of a text between the quotes [quote]:
    the quote and the backslash are escaped, tab, newline and carriage
    return have their letters, any other ASCII control character is written
    in hexadecimal. The bytes of a character outside ASCII are left as they
    are, which is what [repr] does for every printable character. *)
Definition repr_char (quote : ascii) (c : ascii) : string :=
  let n := nat_of_ascii c in
  if Ascii.eqb c quote || Ascii.eqb c "092"
  then String "092" (String c EmptyString)
  else if Ascii.eqb c "009" then String "092" "t"
  else if Ascii.eqb c "010" then String "092" "n"
  else if Ascii.eqb c "013" then String "092" "r"
  else if ((n <? 32) || (n =? 127))%nat
  then String "092" (String "x" (String (hex_digit (n / 16))
                                   (String (hex_digit (n mod 16)) EmptyString)))
  else String c EmptyString.

Fixpoint repr_chars (quote : ascii) (s : string) : string :=
  match s with
  | EmptyString => EmptyString
  | String c s' => repr_char quote c ++ repr_chars quote s'
  end.

(** [repr(s)]: between apostrophes, or between double quotes when the text
    holds an apostrophe and no double quote. *)
Definition str_repr (s : string) : string :=
  let quote :=
    if contains_char "'" s && negb (contains_char "034" s)
    then "034"%char else "'"%char in
  String quote (repr_chars quote s ++ String quote EmptyString).

(** [str(l)] for a list of strings. *)
Definition list_repr (l : list string) : string :=
  "[" ++ join ", " (map str_repr l) ++ "]".

(** A text that passes [if s:], that is, a non-empty one. *)
Definition nonempty (o : option string) : option string :=
  match o with
  | Some (String c s) => Some (String c s)
  | _ => None
  end.

(** [a or b] on optional texts. *)
Definition or_else (a b : option string) : option string :=
  match nonempty a with
  | Some s => Some s
  | None => b
  end.

(** [s[:n]] *)
Definition slice_to (n : nat) (s : string) : string := substring 0 n s.

(** [l[-n:]] *)
Definition last_n {A} (n : nat) (l : list A) : list A :=
  skipn (length l - n) l.

(** [str(n)] for a non-negative integer. *)
Definition str_of_nat (n : nat) : string :=
  NilZero.string_of_uint (Nat.to_uint n).

(** [str(z)] for an integer. *)
Definition str_of_Z (z : Z) : string :=
  NilZero.string_of_int (Z.to_int z).

(** [x in l] for strings. *)
Definition mem (x : string) (l : list string) : bool :=
  existsb (String.eqb x) l.

(** A [dict] with string keys, in insertion order. *)
Definition dict (V : Type) : Type := list (string * V).

Fixpoint dict_get {V} (k : string) (d : dict V) : option V :=
  match d with
  | [] => None
  | (k', v) :: d' => if String.eqb k k' then Some v else dict_get k d'
  end.

(** [d[k] = v]: an existing key keeps its place and takes the new value, a
    new key goes to the end. *)
Fixpoint dict_set {V} (k : string) (v : V) (d : dict V) : dict V :=
  match d with
  | [] => [(k, v)]
  | (k', v') :: d' =>
      if String.eqb k k' then (k', v) :: d' else (k', v') :: dict_set k v d'
  end.

Definition dict_mem {V} (k : string) (d : dict V) : bool :=
  match dict_get k d with Some _ => true | None => false end.

Definition keys {V} (d : dict V) : list string := map fst d.
Definition values {V} (d : dict V) : list V := map snd d.

(** [del d[k]] *)
Definition dict_del {V} (k : string) (d : dict V) : dict V :=
  filter (fun kv => negb (String.eqb k (fst kv))) d.

(** [{key(x): x for x in l}] *)
Definition dict_of_list {V} (key : V -> string) (l : list V) : dict V :=
  fold_left (fun d x => dict_set (key x) x d) l [].

End Py.

(* ===================================================================== *)
(** * Exceptions and the outside world *)
(* ===================================================================== *)

Module Eff.

(** An exception, of a class below [Exception], which is what the [except]
    clauses of the sources catch; it is represented by the text [str(e)]
    gives for it. *)
Definition exn : Type := string.

Inductive Outcome (A : Type) : Type :=
| Ret (a : A)
| Raise (e : exn).
Arguments Ret {A} a.
Arguments Raise {A} e.

(** A computation over a world [W]: the world after the call is kept also
    when the call raises. *)
Definition M (W A : Type) : Type := W -> Outcome A * W.

Definition ret {W A} (a : A) : M W A := fun w => (Ret a, w).

Definition raise {W A} (e : exn) : M W A := fun w => (Raise e, w).

Definition bind {W A B} (c : M W A) (k : A -> M W B) : M W B :=
  fun w =>
    match c w with
    | (Ret a, w') => k a w'
    | (Raise e, w') => (Raise e, w')
    end.

(** [try: c  except Exception as e: h e] *)
Definition try_except {W A} (c : M W A) (h : exn -> M W A) : M W A :=
  fun w =>
    match c w with
    | (Ret a, w') => (Ret a, w')
    | (Raise e, w') => h e w'
    end.

(** A call that cannot raise, such as reading the clock. *)
Definition total {W A} (c : W -> A * W) : M W A :=
  fun w => let (a, w') := c w in (Ret a, w').

(** A pure step that may raise. *)
Definition lift {W A} (r : exn + A) : M W A :=
  match r with
  | inl e => raise e
  | inr a => ret a
  end.

End Eff.

Import Eff.

Declare Scope eff_scope.
Delimit Scope eff_scope with eff.
Notation "x <- c ;; k" := (bind c (fun x => k))
  (at level 61, c at next level, right associativity) : eff_scope.
Notation "c ;;; k" := (bind c (fun _ => k))
  (at level 61, right associativity) : eff_scope.
Local Open Scope eff_scope.

(* ===================================================================== *)
(** * Data shared by the components *)
(* ===================================================================== *)

(** A parsed JSON document, as [json.loads] returns it; a number is kept as
    its source text. An object is a [dict]: its keys are distinct. *)
#[warnings="-register-all"]
Inductive json : Type :=
| JNull
| JBool (b : bool)
| JNum (text : string)
| JStr (s : string)
| JArr (items : list json)
| JObj (members : list (string * json)).

(** A value stored as a node or relationship property: [None], or a value
    represented by the text [str] gives for it. *)
Definition prop_value : Type := option string.

(** One retrieved node: a dict with the optional keys [elementId], [id],
    [labels] and [properties]. A missing or empty [elementId] is [None]. *)
Record NodeData : Type := mkNodeData {
  nd_elementId : option string;
  nd_id : option string;
  nd_labels : list string;
  nd_properties : Py.dict prop_value
}.

(** One retrieved relationship. *)
Record RelData : Type := mkRelData {
  rd_elementId : option string;
  rd_id : option string;
  rd_type : option string;
  rd_properties : Py.dict prop_value;
  rd_startNodeElementId : option string;
  rd_start_node : option string;
  rd_endNodeElementId : option string;
  rd_end_node : option string
}.

(** The sub-graph a graph-capable responder hands back
    ([search_with_context]'s [context_data]). *)
Record GraphData : Type := mkGraphData {
  gd_answer : string;
  gd_query : string;
  gd_executed_cypher : string;
  gd_retrieved_nodes : list NodeData;
  gd_retrieved_relationships : list RelData;
  gd_entity_nodes : list NodeData;
  gd_chunk_nodes : list NodeData;
  gd_document_nodes : list NodeData
}.

(** [models.Agent] *)
Record Agent : Type := mkAgent {
  agent_id : string;
  agent_name : string;
  agent_color : string;
  agent_tools : list string;
  agent_isEnabled : bool;
  agent_description : string;
  agent_priority : nat
}.

(** One turn of the conversation history, as [main.py] builds it. *)
Record HistoryMessage : Type := mkHistoryMessage {
  msg_role : string;
  msg_content : string
}.

(** The four values the [status] string of a task takes. *)
Inductive Status : Type := pending | running | completed | failed.

Definition status_eqb (a b : Status) : bool :=
  match a, b with
  | pending, pending | running, running
  | completed, completed | failed, failed => true
  | _, _ => false
  end.

(** [supervisor_agent.Task] *)
Record Task : Type := mkTask {
  id : string;
  description : string;
  agent : string;
  status : Status;
  result : string;
  created_at : string;
  started_at : option string;
  completed_at : option string;
  actual_input : option string;
  graph_data : option GraphData
}.

(** [supervisor_agent.AgentPlan] *)
Record AgentPlan : Type := mkAgentPlan {
  original_query : string;
  analysis : string;
  tasks : list Task;
  strategy : string;
  plan_created_at : string
}.

(** One item of [response.output] of the Responses API: its [content], when
    it has one, is a list of parts, each with or without a [text]. *)
Definition OutputItem : Type := option (list (option string)).

(** [models.AgentTask], the presentational summary of a task. *)
Record AgentTask : Type := mkAgentTask {
  at_id : string;
  at_agentId : string;
  at_agentName : string;
  at_agentColor : string;
  at_task : string;
  at_status : Status;
  at_startTime : option nat;
  at_endTime : option nat;
  at_result : option string;
  at_error : option string;
  at_progress : option nat;
  at_input : option string;
  at_graphData : option GraphData
}.

(** What goes over the push channel. *)
Inductive PushMessage : Type :=
| MultiTaskUpdate (sessionId : string) (tasks : list AgentTask)
| SessionTitleUpdate (sessionId : string) (title : string).

(** The external collaborators, over a world [W]. Calls that reach a service
    may raise; the library functions are pure. *)
Record Externals (W : Type) : Type := mkExternals {
  (** [ChatOpenAI.invoke([SystemMessage(prompt)]).content], the supervisor's
      Completion Service *)
  model_invoke : string -> M W string;
  (** [print] *)
  stdout_print : string -> M W unit;
  (** [json.loads] *)
  json_loads : string -> exn + json;
  (** [re.findall(explicit_data_pattern, query)]: the (label, number) pairs
      of the pattern word, optional blanks, [=] or [:], optional blanks,
      digits with an optional fraction *)
  re_findall_data : string -> list (string * string);
  (** [client.responses.create(model, input, text={}).output] *)
  responses_create : string -> string -> M W (list OutputItem);
  (** [client.chat.completions.create(...).choices[0].message.content] *)
  chat_create : string -> string -> M W (option string);
  (** the graph responder's [invoke]: the contents of the returned messages
      and the sub-graph its search tool left in the hand-over slot *)
  neo4j_invoke : string -> M W (list string * option GraphData);
  (** [datetime.now().isoformat()] *)
  now_iso : W -> string * W;
  (** [datetime.now().strftime("%Y-%m-%d %H:%M:%S")] *)
  now_strftime : W -> string * W;
  (** [time.time()], in milliseconds *)
  time_time : W -> nat * W;
  (** [str(v)] for a parsed JSON value, as an f-string formats it *)
  py_str : json -> string;
  (** [int(datetime.fromisoformat(s).timestamp() * 1000)], when [s] parses *)
  iso_to_millis : string -> option nat;
  (** one push on a throw-away thread; whatever happens there is swallowed *)
  push : PushMessage -> W -> W
}.

Arguments model_invoke {W}.
Arguments stdout_print {W}.
Arguments json_loads {W}.
Arguments re_findall_data {W}.
Arguments responses_create {W}.
Arguments chat_create {W}.
Arguments neo4j_invoke {W}.
Arguments now_iso {W}.
Arguments now_strftime {W}.
Arguments time_time {W}.
Arguments py_str {W}.
Arguments iso_to_millis {W}.
Arguments push {W}.

(** [Task(id=..., description=..., agent=...)] *)
Definition new_task {W} (X : Externals W) (i d a : string) : M W Task :=
  ts <- total (now_iso X) ;;
  ret (mkTask i d a pending EmptyString ts None None None None).

Definition set_status (s : Status) (t : Task) : Task :=
  mkTask (id t) (description t) (agent t) s (result t) (created_at t)
         (started_at t) (completed_at t) (actual_input t) (graph_data t).

Definition set_result (r : string) (t : Task) : Task :=
  mkTask (id t) (description t) (agent t) (status t) r (created_at t)
         (started_at t) (completed_at t) (actual_input t) (graph_data t).

Definition set_started_at (ts : string) (t : Task) : Task :=
  mkTask (id t) (description t) (agent t) (status t) (result t) (created_at t)
         (Some ts) (completed_at t) (actual_input t) (graph_data t).

Definition set_completed_at (ts : string) (t : Task) : Task :=
  mkTask (id t) (description t) (agent t) (status t) (result t) (created_at t)
         (started_at t) (Some ts) (actual_input t) (graph_data t).

Definition set_actual_input (s : string) (t : Task) : Task :=
  mkTask (id t) (description t) (agent t) (status t) (result t) (created_at t)
         (started_at t) (completed_at t) (Some s) (graph_data t).

Definition set_graph_data (g : GraphData) (t : Task) : Task :=
  mkTask (id t) (description t) (agent t) (status t) (result t) (created_at t)
         (started_at t) (completed_at t) (actual_input t) (Some g).

(** [agent.replace('_', ' ').title()] *)
Definition display_name (a : string) : string :=
  Py.title (Py.replace_char "_"%char " "%char a).

(* ===================================================================== *)
(** * The supervisor: [app/agents/supervisor_agent.py] *)
(* ===================================================================== *)

Module Supervisor.
Import Py.

(** ** Reading the planning reply *)

(** [j.get(key, default)]: only a dict has [get]. *)
Definition json_get (key : string) (default : json) (j : json) : exn + json :=
  match j with
  | JObj m => inr (match dict_get key m with Some v => v | None => default end)
  | JArr _ => inl "'list' object has no attribute 'get'"
  | JStr _ => inl "'str' object has no attribute 'get'"
  | JNum _ => inl "'int' object has no attribute 'get'"
  | JBool _ => inl "'bool' object has no attribute 'get'"
  | JNull => inl "'NoneType' object has no attribute 'get'"
  end.

(** [for x in j]: a list gives its items, a dict its keys, a string its
    characters; nothing else can be iterated. *)
Definition json_iter (j : json) : exn + list json :=
  match j with
  | JArr l => inr l
  | JObj m => inr (map JStr (keys m))
  | JStr s => inr (map (fun c => JStr (String c EmptyString)) (list_ascii_of_string s))
  | JNum _ => inl "'int' object is not iterable"
  | JBool _ => inl "'bool' object is not iterable"
  | JNull => inl "'NoneType' object is not iterable"
  end.

(** [j[key]] for a string key. *)
Definition json_item (key : string) (j : json) : exn + json :=
  match j with
  | JObj m =>
      match dict_get key m with
      | Some v => inr v
      | None => inl ("'" ++ key ++ "'")
      end
  | JArr _ => inl "list indices must be integers or slices, not str"
  | JStr _ => inl "string indices must be integers, not 'str'"
  | JNum _ => inl "'int' object is not subscriptable"
  | JBool _ => inl "'bool' object is not subscriptable"
  | JNull => inl "'NoneType' object is not subscriptable"
  end.

(** The dataclass declares [id], [description] and [agent] as [str], and the
    embedding keeps that typing: it covers the replies whose task entries
    hold texts under these three keys. Python stores whatever value the
    reply has there: for a [description] that cannot be sliced the logging
    loop of [create_plan] raises inside the same [try], as here, but a number
    or a list under [id] or [agent] is kept and the plan returned with it.
    Such a reply is outside the typed embedding, which reports a type error
    for it; [Spec.unreadable] does not count it among the replies that lead
    to the fallback. *)
Definition json_text (key : string) (j : json) : exn + string :=
  match j with
  | JStr s => inr s
  | _ => inl ("task field '" ++ key ++ "' is not a string")
  end.

Definition task_fields (task_data : json) : exn + (string * string * string) :=
  match json_item "id" task_data with
  | inl e => inl e
  | inr i =>
      match json_item "description" task_data with
      | inl e => inl e
      | inr d =>
          match json_item "agent" task_data with
          | inl e => inl e
          | inr a =>
              match json_text "id" i, json_text "description" d, json_text "agent" a with
              | inr i', inr d', inr a' => inr (i', d', a')
              | inl e, _, _ | _, inl e, _ | _, _, inl e => inl e
              end
          end
      end
  end.

(** The reply after [strip()], without its code fence. *)
Definition strip_code_fence (response_text : string) : string :=
  if startswith "```json" response_text then
    nth 0 (split "```" (nth 1 (split "```json" response_text) EmptyString)) EmptyString
  else if startswith "```" response_text then
    nth 0 (split "```" (nth 1 (split "```" response_text) EmptyString)) EmptyString
  else response_text.

Section WithWorld.
Context {W : Type} (X : Externals W).

Definition get_enabled_agents (agent_configs : dict Agent) : list Agent :=
  filter agent_isEnabled (values agent_configs).

(** ** [create_plan] *)

Definition agent_description_line (a : Agent) : string :=
  "- " ++ agent_id a ++ ": " ++ agent_description a
  ++ " (Tools: " ++ join ", " (agent_tools a) ++ ")".

Definition available_agents_text (enabled_agents : list Agent) : string :=
  match enabled_agents with
  | [] => "No agents are currently enabled."
  | _ => join nl (map agent_description_line enabled_agents)
  end.

Definition conversation_context (query : string)
  (conversation_history : list HistoryMessage) : string :=
  match conversation_history with
  | [] => EmptyString
  | _ =>
      nl ++ nl ++ "CONVERSATION HISTORY:" ++ nl
      ++ String.concat EmptyString
           (map (fun msg =>
                   (if String.eqb (msg_role msg) "user" then "Human" else "Assistant")
                   ++ ": " ++ msg_content msg ++ nl)
                (last_n 5 conversation_history))
      ++ nl ++ "Current Query: " ++ query ++ nl
      ++ nl ++ "IMPORTANT: Consider the conversation context when planning tasks. This may be a follow-up question or reference to previous discussion." ++ nl
  end.

Definition data_pairs (query : string) : list string :=
  map (fun lv => fst lv ++ "=" ++ snd lv) (re_findall_data X query).

Definition data_context (query : string) : string :=
  match data_pairs query with
  | [] => EmptyString
  | pairs =>
      nl ++ nl ++ "IMPORTANT: Original data from user query: " ++ join ", " pairs
  end.

Definition routing_text (enabled_agent_ids : list string) : string :=
  let routing_guidelines :=
    ((if mem "neo4j_agent" enabled_agent_ids
      then ["- For movie related questions ALWAYS use neo4j_agent for SHORT concise questions/answers. This is a graphRAG search agent."]
      else [])
     ++ (if mem "llm_agent" enabled_agent_ids
         then ["- For general knowledge, research, analysis, explanations, or information, use llm_agent"]
         else []))%list in
  match routing_guidelines with
  | [] => "No specific routing guidelines - use available agents as appropriate."
  | _ => join nl routing_guidelines
  end.

Definition planning_prompt (agent_configs : dict Agent) (query : string)
  (conversation_history : list HistoryMessage) : string :=
  let enabled_agents := get_enabled_agents agent_configs in
  let enabled_agent_ids := map agent_id enabled_agents in
  join nl
    [ EmptyString;
      "You are an expert supervisor that creates detailed execution plans for multi-agent systems.";
      conversation_context query conversation_history;
      "Analyze this user query: " ++ quoted query ++ data_context query;
      EmptyString;
      "Create a comprehensive plan that:";
      "1. Analyzes what information is needed";
      "2. Breaks down the query into specific, actionable tasks";
      "3. Assigns each task to the most appropriate specialist agent";
      "4. Ensures all necessary information will be gathered";
      "5. PRESERVES any explicit data values from the original query";
      "6. Consider conversation context - this may be a follow-up question or reference to previous discussion";
      EmptyString;
      "Available specialist agents:";
      available_agents_text enabled_agents;
      EmptyString;
      "Special routing guidelines:";
      routing_text enabled_agent_ids;
      EmptyString;
      "IMPORTANT: Only use agents that are listed as available above. Keep tasks focused and specific.";
      EmptyString;
      "For each task, specify:";
      "- Unique task ID (task_1, task_2, etc.)";
      "- Clear, specific task description  ";
      "- Which agent should handle it";
      "- What specific output is expected";
      EmptyString;
      "Return your response in this exact JSON format:";
      "{";
      "    " ++ quoted "analysis" ++ ": " ++ quoted "Your analysis of what needs to be done" ++ ",";
      "    " ++ quoted "strategy" ++ ": " ++ quoted "Your overall approach strategy" ++ ", ";
      "    " ++ quoted "tasks" ++ ": [";
      "        {";
      "            " ++ quoted "id" ++ ": " ++ quoted "task_1" ++ ",";
      "            " ++ quoted "description" ++ ": " ++ quoted "Specific task description" ++ ",";
      "            " ++ quoted "agent" ++ ": " ++ quoted "agent_name" ++ ",";
      "            " ++ quoted "expected_output" ++ ": " ++ quoted "What output format/content is expected";
      "        }";
      "    ]";
      "}";
      EmptyString ].

(** The agent of the fallback task: [llm_agent] when it is enabled, else the
    first enabled agent, else [llm_agent]. *)
Definition fallback_agent (enabled_agent_ids : list string) : string :=
  if mem "llm_agent" enabled_agent_ids then "llm_agent"
  else match enabled_agent_ids with
       | a :: _ => a
       | [] => "llm_agent"
       end.

Fixpoint build_tasks (entries : list json) : M W (list Task) :=
  match entries with
  | [] => ret []
  | task_data :: rest =>
      f <- lift (task_fields task_data) ;;
      task <- new_task X (fst (fst f)) (snd (fst f)) (snd f) ;;
      more <- build_tasks rest ;;
      ret (task :: more)
  end.

Definition text_or_str (j : json) : string :=
  match j with
  | JStr s => s
  | other => py_str X other
  end.

(** The body of the [try] of [create_plan]. *)
Definition plan_from_reply (query prompt : string) : M W AgentPlan :=
  response <- model_invoke X prompt ;;
  let response_text := strip_code_fence (strip response) in
  plan_data <- lift (json_loads X response_text) ;;
  task_list <- lift (json_get "tasks" (JArr []) plan_data) ;;
  entries <- lift (json_iter task_list) ;;
  tasks <- build_tasks entries ;;
  a <- lift (json_get "analysis" (JStr "Analysis not provided") plan_data) ;;
  s <- lift (json_get "strategy" (JStr "Strategy not provided") plan_data) ;;
  ts <- total (now_iso X) ;;
  ret (mkAgentPlan query (text_or_str a) tasks (text_or_str s) ts).

(** The [except] branch of [create_plan]. *)
Definition fallback_plan (agent_configs : dict Agent) (query : string)
  : M W AgentPlan :=
  let enabled_agent_ids := map agent_id (get_enabled_agents agent_configs) in
  fallback_task <- new_task X "task_1" ("Handle query: " ++ query)
                     (fallback_agent enabled_agent_ids) ;;
  ts <- total (now_iso X) ;;
  ret (mkAgentPlan query "Fallback analysis due to planning error"
         [fallback_task] "Direct delegation to available agent" ts).

(** The [print] of the explicit data found in the query; it stands before
    the [try]. *)
Definition announce_data (query : string) : M W unit :=
  match data_pairs query with
  | [] => ret tt
  | pairs =>
      stdout_print X
        ("🎯 Supervisor: Detected explicit data in query: " ++ list_repr pairs)
  end.

Definition create_plan (agent_configs : dict Agent) (query : string)
  (conversation_history : list HistoryMessage) : M W AgentPlan :=
  announce_data query ;;;
  try_except
    (plan_from_reply query (planning_prompt agent_configs query conversation_history))
    (fun _ => fallback_plan agent_configs query).

(** ** [generate_session_title] *)

Definition title_prompt (query : string) : string :=
  join nl
    [ EmptyString;
      "Generate a very short, concise title (max 6 words) for this user query:";
      quoted query;
      EmptyString;
      "The title should capture the main topic or intent. Be specific but brief.";
      "Examples:";
      "- " ++ quoted "Neo4j authentication setup";
      "- " ++ quoted "Python data visualization";
      "- " ++ quoted "React component optimization";
      EmptyString;
      "Return only the title, nothing else.";
      EmptyString ].

Definition is_quote (c : ascii) : bool :=
  Ascii.eqb c "034"%char || Ascii.eqb c "'"%char.

Definition generate_session_title (query : string) : M W string :=
  try_except
    (response <- model_invoke X (title_prompt query) ;;
     let title := strip_chars is_quote (strip response) in
     ret (if (50 <? String.length title)%nat
          then slice_to 47 title ++ "..."
          else title))
    (fun _ =>
       let ws := words query in
       ret (join " " (firstn 6 ws)
            ++ (if (6 <? length ws)%nat then "..." else EmptyString))).

(** ** [synthesize_results] *)

Definition is_completed (t : Task) : bool := status_eqb (status t) completed.

Definition result_line (t : Task) : string :=
  "**" ++ display_name (agent t) ++ "**: " ++ result t.

Definition synthesis_prompt (task_results : list string) (original_query : string)
  : string :=
  join nl
    [ EmptyString;
      "You are a synthesis expert. Combine the following task results into a comprehensive, well-structured answer to the original user query.";
      EmptyString;
      "Original Query: " ++ quoted original_query;
      EmptyString;
      "Task Results:";
      join nl task_results;
      EmptyString;
      "Instructions:";
      "1. Synthesize the information into a coherent, comprehensive response";
      "2. Maintain accuracy - only use information provided in the task results";
      "3. Structure the response logically with clear sections if appropriate";
      "4. If there are any charts or visual data, mention them appropriately";
      "5. Make the response engaging and directly address the user's query";
      "6. If task results contradict each other, acknowledge the discrepancy";
      EmptyString;
      "Provide a complete, well-formatted response:";
      EmptyString ].

Definition apology : string :=
  "I apologize, but I wasn't able to complete any tasks to answer your query.".

Definition synthesize_results (tasks : dict Task) (original_query : string)
  : M W string :=
  let completed_tasks := filter (fun kv => is_completed (snd kv)) tasks in
  match completed_tasks with
  | [] => ret apology
  | _ =>
      let task_results := map (fun kv => result_line (snd kv)) completed_tasks in
      try_except
        (response <- model_invoke X (synthesis_prompt task_results original_query) ;;
         ret (strip response))
        (fun _ => ret (join (nl ++ nl) (map result_line (values completed_tasks))))
  end.

End WithWorld.
End Supervisor.

(* ===================================================================== *)
(** * The free-text responder: [app/agents/llm_agent.py] *)
(* ===================================================================== *)

Module LLMAgent.
Import Py.

Definition fallback_model : string := "gpt-4o-mini".

Definition full_prompt (query context : string) : string :=
  join nl
    [ "You are an expert research agent with access to comprehensive knowledge.";
      "Your task is to provide detailed, accurate, and well-structured research responses.";
      EmptyString;
      "INSTRUCTIONS:";
      "- Provide factual, comprehensive information based on your knowledge";
      "- Include specific details, examples, and explanations when relevant";
      "- Structure your response clearly with sections if appropriate";
      "- If discussing technical topics, explain both concepts and practical applications";
      "- Be thorough but concise";
      "- Focus on accuracy and relevance to the specific query";
      "- If you're uncertain about recent developments, acknowledge this limitation";
      "- NEVER generate JSON with JavaScript comments (/* ... */) - this creates invalid JSON";
      "- If you need to create charts or data structures, use valid JSON format without comments";
      "- When referencing data structures, use placeholder values instead of comments";
      EmptyString;
      "Research Query: " ++ query;
      EmptyString;
      match context with
      | EmptyString => EmptyString
      | _ => "Additional Context: " ++ context
      end;
      EmptyString;
      "Please provide comprehensive research on this topic, including:";
      "1. Core concepts and definitions";
      "2. Key features or characteristics";
      "3. Practical applications or use cases";
      "4. Important considerations or limitations";
      "5. Current state or recent developments (if applicable)";
      EmptyString;
      "Structure your response clearly and focus on accuracy and usefulness." ].

(** The first part of a content list that has a [text]. *)
Fixpoint first_text (parts : list (option string)) : option string :=
  match parts with
  | [] => None
  | Some t :: _ => Some t
  | None :: rest => first_text rest
  end.

(** [if result:] *)
Definition truthy (result : option string) : bool :=
  match result with
  | Some (String _ _) => true
  | _ => false
  end.

(** The scan of [response.output]: items without content are passed over,
    and the scan stops at the first item that leaves a non-empty text. *)
Fixpoint scan_output (result : option string) (output : list OutputItem)
  : option string :=
  match output with
  | [] => result
  | item :: rest =>
      match item with
      | Some (p :: ps) =>
          let result' :=
            match first_text (p :: ps) with
            | Some t => Some t
            | None => result
            end in
          if truthy result' then result' else scan_output result' rest
      | _ => scan_output result rest
      end
  end.

(** [not result or result.strip() == ""] *)
Definition blank (result : option string) : bool :=
  match result with
  | None => true
  | Some s => match strip s with EmptyString => true | _ => false end
  end.

Definition text_of (result : option string) : string :=
  match result with Some s => s | None => EmptyString end.

Definition research_result (timestamp result model_used : string) : string :=
  join nl
    [ "**LLM Research Results** (Generated: " ++ timestamp ++ ")";
      EmptyString;
      result;
      EmptyString;
      "---";
      "*Research provided by " ++ model_used ++ "*";
      EmptyString ].

Section WithWorld.
Context {W : Type} (X : Externals W).

(** The inner [try] of [search]: the answer text and the model that gave it. *)
Definition ask_models (model prompt : string) : M W (option string * string) :=
  try_except
    (output <- responses_create X model prompt ;;
     let result := scan_output None output in
     if blank result then
       r <- chat_create X fallback_model prompt ;;
       ret (r, fallback_model)
     else ret (result, model))
    (fun api_error =>
       try_except
         (r <- chat_create X fallback_model prompt ;;
          ret (r, fallback_model))
         (fun fallback_error =>
            raise ("Both models failed - GPT-5: " ++ api_error
                   ++ ", GPT-4: " ++ fallback_error))).

(** [LLMAgent.search]; [model] is the agent's configured model name. *)
Definition search (model query context : string) : M W string :=
  try_except
    (rm <- ask_models model (full_prompt query context) ;;
     let result :=
       if blank (fst rm) then "Both gpt5 and gpt4 returned empty responses"
       else text_of (fst rm) in
     timestamp <- total (now_strftime X) ;;
     ret (research_result timestamp result (snd rm)))
    (fun e => ret ("LLM Agent Error: " ++ e)).

End WithWorld.
End LLMAgent.

(* ===================================================================== *)
(** * The execution engine: [app/orchestrator/orchestrator.py] *)
(* ===================================================================== *)

Module Orchestrator.
Import Py.

(** [models.MultiAgentResponse]; the two times are in milliseconds. *)
Record MultiAgentResponse : Type := mkResponse {
  r_query : string;
  r_response : string;
  r_agents_used : list string;
  r_processing_time : nat;
  r_synthesis_applied : bool;
  r_src : list string;
  r_agentTasks : list AgentTask;
  r_totalTime : option nat;
  r_sessionTitle : option string
}.

(** What [__init__] and [update_agent_configs] leave in the orchestrator. *)
Record Config : Type := mkConfig {
  agent_configs : dict Agent;
  connection_manager : bool;
  llm_model : string
}.

(** [update_agent_configs], for the orchestrator and the supervisor alike: a
    list of agents is turned into a dict keyed by id, a dict is taken as it
    is. *)
Definition update_agent_configs (new_configs : list Agent + dict Agent)
  : dict Agent :=
  match new_configs with
  | inl agents => dict_of_list agent_id agents
  | inr configs => configs
  end.

(** [get_enabled_agents] *)
Definition get_enabled_agents (cfg : Config) : list Agent :=
  filter agent_isEnabled (values (agent_configs cfg)).

(** The two entries of [agents_map]. *)
Inductive Responder : Type := LLM | Neo4j.

Definition agents_map_get (a : string) : option Responder :=
  if String.eqb a "llm_agent" then Some LLM
  else if String.eqb a "neo4j_agent" then Some Neo4j
  else None.

(** [_get_agent_color] *)
Definition get_agent_color (cfg : Config) (agent_name : string) : string :=
  match dict_get agent_name (agent_configs cfg) with
  | Some a => agent_color a
  | None =>
      if String.eqb agent_name "llm_agent" then "#3F51B5"
      else if String.eqb agent_name "neo4j_agent" then "#F44336"
      else if String.eqb agent_name "supervisor" then "#607D8B"
      else "#757575"
  end.

(** The numbered task lines appended to the plan details. *)
Fixpoint task_breakdown (i : nat) (ts : list Task) : string :=
  match ts with
  | [] => EmptyString
  | t :: rest =>
      nl ++ str_of_nat i ++ ". " ++ display_name (agent t) ++ ": " ++ description t
      ++ task_breakdown (S i) rest
  end.

(** [plan_details] as [_convert_tasks_to_agent_tasks] lays it out. *)
Definition plan_details_tabbed (plan : AgentPlan) : string :=
  let tabs := tab ++ tab ++ tab ++ tab ++ tab ++ tab ++ tab in
  "**Query Analysis**: " ++ analysis plan ++ nl
  ++ tabs ++ "**Strategy**: " ++ strategy plan ++ nl
  ++ tabs ++ "**Task Breakdown**:"
  ++ task_breakdown 1 (tasks plan).

(** [plan_details] as [_send_planner_completion_update] lays it out. *)
Definition plan_details_spaced (plan : AgentPlan) : string :=
  "**Query Analysis**: " ++ analysis plan ++ nl ++ nl
  ++ "**Strategy**: " ++ strategy plan ++ nl ++ nl
  ++ "**Task Breakdown**:"
  ++ task_breakdown 1 (tasks plan).

Definition planner_task (st : Status) (res input : string) : AgentTask :=
  mkAgentTask "supervisor_plan" "planner" "Planner" "#607D8B"
    "Planning and coordinating task execution" st None None (Some res) None None
    (Some input) None.

Section WithWorld.
Context {W : Type} (X : Externals W).

(** The start and end times of a task summary: a timestamp that does not
    parse ends the [try], and what was set before it stays. *)
Definition task_times (t : Task) : option nat * option nat :=
  let parse s := iso_to_millis X (replace_char_by "Z"%char "+00:00" s) in
  match nonempty (started_at t) with
  | Some s =>
      match parse s with
      | Some a =>
          match nonempty (completed_at t) with
          | Some c => (Some a, parse c)
          | None => (Some a, None)
          end
      | None => (None, None)
      end
  | None =>
      match nonempty (completed_at t) with
      | Some c => (None, parse c)
      | None => (None, None)
      end
  end.

Definition agent_task_of (cfg : Config) (t : Task) : AgentTask :=
  let times := task_times t in
  mkAgentTask (id t) (agent t) (display_name (agent t))
    (get_agent_color cfg (agent t)) (description t) (status t)
    (fst times) (snd times)
    (if status_eqb (status t) completed then Some (result t) else None)
    (if status_eqb (status t) failed then Some (result t) else None)
    (Some (if status_eqb (status t) completed then 100
           else if status_eqb (status t) running then 50 else 0))
    (actual_input t)
    (graph_data t).

(** [_convert_tasks_to_agent_tasks] *)
Definition convert_tasks_to_agent_tasks (cfg : Config) (planning_completed : bool)
  (tasks : dict Task) (plan : AgentPlan) : list AgentTask :=
  planner_task (if planning_completed then completed else running)
    (if planning_completed then plan_details_tabbed plan else EmptyString)
    (original_query plan)
  :: map (agent_task_of cfg) (values tasks).

(** The guard every [_send_*] helper starts with: a connection manager and a
    non-empty session id. *)
Definition session_of (cfg : Config) (current_session_id : option string)
  : option string :=
  if connection_manager cfg then nonempty current_session_id else None.

Definition send (cfg : Config) (sid : option string) (msg : string -> PushMessage)
  : M W unit :=
  fun w =>
    match session_of cfg sid with
    | Some s => (Ret tt, push X (msg s) w)
    | None => (Ret tt, w)
    end.

(** [_send_supervisor_status_sync] *)
Definition send_supervisor_status (cfg : Config) (sid : option string)
  (status_message : string) : M W unit :=
  send cfg sid (fun s =>
    MultiTaskUpdate s
      [ mkAgentTask "supervisor_status" "supervisor" "Supervisor" "#607D8B"
          status_message
          (if contains "Workflow completed successfully" status_message
           then completed else running)
          None None (Some EmptyString) None None (Some status_message) None ]).

(** [_send_planner_completion_update] *)
Definition send_planner_completion_update (cfg : Config) (sid : option string)
  (plan : AgentPlan) : M W unit :=
  send cfg sid (fun s =>
    MultiTaskUpdate s
      [ planner_task completed (plan_details_spaced plan) (original_query plan) ]).

(** [_send_websocket_update_sync] *)
Definition send_websocket_update (cfg : Config) (sid : option string)
  (planning_completed : bool) (tasks : dict Task) (plan : AgentPlan) : M W unit :=
  send cfg sid (fun s =>
    MultiTaskUpdate s (convert_tasks_to_agent_tasks cfg planning_completed tasks plan)).

(** [_send_session_title_update] *)
Definition send_session_title_update (cfg : Config) (sid : option string)
  (title : string) : M W unit :=
  send cfg sid (fun s => SessionTitleUpdate s title).

(** ** [_execute_task] *)

Definition context_from_previous_tasks (task : Task) (all_tasks : dict Task)
  : string :=
  String.concat EmptyString
    (map (fun kv =>
            nl ++ nl ++ "Previous result from " ++ agent (snd kv) ++ ": "
            ++ result (snd kv))
         (filter (fun kv =>
                    status_eqb (status (snd kv)) completed
                    && negb (String.eqb (fst kv) (id task)))
                 all_tasks)).

Definition enhanced_input (task : Task) (all_tasks : dict Task) : string :=
  match context_from_previous_tasks task all_tasks with
  | EmptyString => description task
  | ctx => description task ++ nl ++ nl ++ "Context from previous tasks:" ++ ctx
  end.

(** [_execute_task] writes [actual_input] (and, for the graph responder,
    [graph_data]) into the task before it returns or raises: the task as it
    is left comes back beside the outcome. *)
Definition execute_task (cfg : Config) (task : Task) (all_tasks : dict Task)
  : W -> (Task * Outcome string) * W :=
  fun w =>
    let input := enhanced_input task all_tasks in
    let task1 := set_actual_input input task in
    match agents_map_get (agent task) with
    | None => ((task1, Raise ("Agent " ++ agent task ++ " not found")), w)
    | Some LLM =>
        let (r, w') := LLMAgent.search X (llm_model cfg) input EmptyString w in
        ((task1, r), w')
    | Some Neo4j =>
        match neo4j_invoke X input w with
        | (Raise e, w') => ((task1, Raise e), w')
        | (Ret (messages, slot), w') =>
            match messages with
            | [] => ((task1, Ret "No response from Neo4j agent"), w')
            | m :: ms =>
                ((match slot with
                  | Some g => set_graph_data g task1
                  | None => task1
                  end,
                  Ret (List.last ms m)), w')
            end
        end
    end.

(** ** [process_query] *)

(** How a turn of the task loop leaves the task: the end of the inner [try]
    after a result, its [except] branch after an exception. *)
Definition finish_task (finished : string) (outcome : Outcome string)
  (task : Task) : Task :=
  match outcome with
  | Ret result =>
      set_completed_at finished (set_result result (set_status completed task))
  | Raise e =>
      set_completed_at finished
        (set_result ("Task failed: " ++ e) (set_status failed task))
  end.

(** One turn of the task loop, for the entry [(task_id, task)] of the task
    map, between the entries [before] and [after] it. *)
Definition run_task (cfg : Config) (sid : option string) (plan : AgentPlan)
  (before : dict Task) (task_id : string) (task : Task) (after : dict Task)
  : W -> Task * W :=
  fun w =>
    let all_with t := (before ++ (task_id, t) :: after)%list in
    let (started, w1) := now_iso X w in
    let task_r := set_started_at started (set_status running task) in
    let (_, w2) := send_websocket_update cfg sid true (all_with task_r) plan w1 in
    let '((task_x, outcome), w3) := execute_task cfg task_r (all_with task_r) w2 in
    let (finished, w4) := now_iso X w3 in
    let task_f := finish_task finished outcome task_x in
    let (_, w5) := send_websocket_update cfg sid true (all_with task_f) plan w4 in
    (task_f, w5).

(** [for task_id, task in tasks.items()]: the entries already visited and
    those still to visit; the tasks are changed in place, the map keeps its
    keys and their order. *)
Fixpoint run_tasks (cfg : Config) (sid : option string) (plan : AgentPlan)
  (visited todo : dict Task) : W -> dict Task * W :=
  fun w =>
    match todo with
    | [] => (visited, w)
    | (task_id, task) :: rest =>
        let (task', w') := run_task cfg sid plan visited task_id task rest w in
        run_tasks cfg sid plan (visited ++ [(task_id, task')])%list rest w'
    end.

(** The body of the outer [try] of [process_query]. *)
Definition process_query_body (cfg : Config) (start_time : nat)
  (query : string) (session_id : option string)
  (conversation_history : list HistoryMessage) : M W MultiAgentResponse :=
  send_supervisor_status cfg session_id "Analyzing query and planning tasks..." ;;;
  plan <- Supervisor.create_plan X (agent_configs cfg) query conversation_history ;;
  send_planner_completion_update cfg session_id plan ;;;
  let tasks0 := dict_of_list id (tasks plan) in
  send_websocket_update cfg session_id true tasks0 plan ;;;
  tasks1 <- total (run_tasks cfg session_id plan [] tasks0) ;;
  send_supervisor_status cfg session_id "All tasks completed, generating results..." ;;;
  final_answer <- Supervisor.synthesize_results X tasks1 query ;;
  session_title <- Supervisor.generate_session_title X query ;;
  send_session_title_update cfg session_id session_title ;;;
  send_supervisor_status cfg session_id "Workflow completed successfully" ;;;
  now <- total (time_time X) ;;
  let processing_time := now - start_time in
  let agent_tasks := convert_tasks_to_agent_tasks cfg true tasks1 plan in
  ret (mkResponse query final_answer (map agent (values tasks1)) processing_time
         true [] agent_tasks (Some processing_time) (Some session_title)).

(** The response of the outer [except] branch. *)
Definition error_response (query : string) (e : exn) (processing_time : nat)
  : MultiAgentResponse :=
  mkResponse query
    ("I apologize, but I encountered an error while processing your request: " ++ e)
    [] processing_time false [] [] (Some processing_time) None.

Definition process_query (cfg : Config) (query : string)
  (session_id : option string) (conversation_history : list HistoryMessage)
  : M W MultiAgentResponse :=
  start_time <- total (time_time X) ;;
  try_except
    (process_query_body cfg start_time query session_id conversation_history)
    (fun e =>
       now <- total (time_time X) ;;
       ret (error_response query e (now - start_time))).

End WithWorld.
End Orchestrator.

(* ===================================================================== *)
(** * The graph responder's node export: [app/agents/neo4j_agent.py] *)
(* ===================================================================== *)

Module Neo4jAgent.
Import Py.

(** A node of a result record; [rn_element_id] is [None] for a value without
    an [element_id] attribute. *)
Record RawNode : Type := mkRawNode {
  rn_element_id : option string;
  rn_labels : list string;
  rn_props : dict prop_value
}.

(** [if 'embedding' in node_props: node_props['embedding'] = None] *)
Definition null_embedding (node_props : dict prop_value) : dict prop_value :=
  if dict_mem "embedding" node_props
  then dict_set "embedding" None node_props
  else node_props.

(** The dict appended to [retrieved_nodes]. *)
Definition export_node (element_id : string) (node : RawNode) : NodeData :=
  mkNodeData None (Some element_id) (rn_labels node) (null_embedding (rn_props node)).

(** [if not node]: a missing value, and also a node without properties,
    whose length, and so its truth value, is that of its properties. *)
Definition falsy (candidate : option RawNode) : bool :=
  match candidate with
  | None => true
  | Some node => match rn_props node with [] => true | _ => false end
  end.

(** The node part of the loop of [_get_retrieved_graph_data], over the values
    found under the keys [a], [b], [d] of the records, in order: a value that
    is missing or falsy, or one without [element_id], is passed over, and so
    is a node whose [element_id] is already in [processed_nodes]. *)
Fixpoint collect_nodes (processed_nodes : list string)
  (candidates : list (option RawNode)) : list NodeData :=
  match candidates with
  | [] => []
  | candidate :: rest =>
      if falsy candidate then collect_nodes processed_nodes rest
      else
        match candidate with
        | None => collect_nodes processed_nodes rest
        | Some node =>
            match rn_element_id node with
            | None => collect_nodes processed_nodes rest
            | Some eid =>
                if mem eid processed_nodes then collect_nodes processed_nodes rest
                else export_node eid node
                     :: collect_nodes (eid :: processed_nodes) rest
            end
        end
  end.

(** A value met by [_flatten_list]: a list of such values, or anything
    else. *)
#[warnings="-register-all"]
Inductive Nested : Type :=
| Leaf (value : string)
| Branch (items : list Nested).

(** [_flatten_list]: the items of a list are taken in order, a list among
    them being flattened in turn; a value that is not a list gives the list
    of that one value. *)
Fixpoint flatten_list (nested_list : Nested) : list string :=
  match nested_list with
  | Leaf value => [value]
  | Branch items =>
      (fix over (items : list Nested) : list string :=
         match items with
         | [] => []
         | item :: rest =>
             match item with
             | Leaf value => (value :: over rest)%list
             | Branch _ => (flatten_list item ++ over rest)%list
             end
         end) items
  end.

End Neo4jAgent.

(* ===================================================================== *)
(** * The provenance recorder: [app/audit/neo4j_audit.py] *)
(* ===================================================================== *)

Module Audit.
Import Py.

(** A query parameter: a text, or [None]. *)
Definition param : Type := option string.

(** The statements the recorder sends with [session.run], one constructor
    per Cypher text of the source, with the parameters it binds. The two
    statements whose text is built at run time carry what goes into it: the
    label string and the property keys in the order they are appended. *)
Inductive StoreOp : Type :=
| CreateQuestion (question_id question timestamp response : string)
    (model : param) (processing_time : nat) (is_multi_agent : bool)
    (agents_count sources_count : nat)
| CreateOrchestrator (question_id orchestrator_id timestamp : string)
| CreateAgent (agent_id agent_name agent_type timestamp : string) (task_count : nat)
| LinkUseAgent (orchestrator_id agent_id : string)
| CreateTask (task_id : string) (task_description task_input : param)
    (timestamp : string) (order : nat)
| CreateResult (result_id : string) (task_result : param)
    (agent_name timestamp : string) (order : nat)
| LinkProduced (task_id result_id : string)
| LinkAssigned (agent_id task_id : string)
| LinkUsedInputFrom (agent_id prev_result_id : string)
| CreateGraphRAGRetrieval (graphrag_id timestamp query answer executed_cypher : string)
    (retrieved_nodes_count retrieved_relationships_count : nat)
| LinkUsingGraphrag (result_id graphrag_id : string)
| CreateNode (labels_str : string) (prop_keys : list string) (params : dict string)
| CreateAdditionalNode (labels_str : string) (prop_keys : list string)
    (params : dict string)
| CreateFallbackEntity (node_id node_element_id timestamp original_labels : string)
| LinkRetrievedEntity (graphrag_id node_id : string)
| LinkRetrievedAdditional (graphrag_id node_id : string)
| CreateRelationship (rel_type : string) (props_list : list string)
    (params : dict string)
| CreateWebSource (question_id source_id url : string) (domain : param)
    (raw_text timestamp : string)
| CreateSource (question_id source_id content timestamp : string).

(** One entry of [agent_tasks]; a field is [None] when the key is missing. *)
Record RunTask : Type := mkRunTask {
  rt_agent : option string;
  rt_type : option string;
  rt_task : option param;
  rt_result : option param;
  rt_input : option param
}.

(** [d.get(key, default)] on a field. *)
Definition get_or {A} (field : option A) (default : A) : A :=
  match field with
  | Some v => v
  | None => default
  end.

(** One entry of [task_details]. *)
Record TaskDetail : Type := mkTaskDetail {
  td_index : nat;
  td_agent_name : string;
  td_agent_type : string;
  td_task_description : param;
  td_task_result : param;
  td_task_input : param
}.

(** One value of [agents_by_type]. *)
Record AgentInfo : Type := mkAgentInfo {
  ai_agent_name : string;
  ai_agent_id : string;
  ai_tasks : list nat
}.

Definition task_detail (i : nat) (task : RunTask) : TaskDetail :=
  let agent_name := get_or (rt_agent task) "Unknown" in
  mkTaskDetail i agent_name (get_or (rt_type task) agent_name)
    (get_or (rt_task task) (Some EmptyString))
    (get_or (rt_result task) (Some EmptyString))
    (get_or (rt_input task) (Some EmptyString)).

(** [enumerate(l)], counting from [i]. *)
Fixpoint enumerate_from {A} (i : nat) (l : list A) : list (nat * A) :=
  match l with
  | [] => []
  | x :: rest => (i, x) :: enumerate_from (S i) rest
  end.

Definition enumerate {A} (l : list A) : list (nat * A) := enumerate_from 0 l.

Definition task_details (agent_tasks : list RunTask) : list TaskDetail :=
  map (fun it => task_detail (fst it) (snd it)) (enumerate agent_tasks).

Definition agent_id_of (agent_name question_id : string) : string :=
  replace_char " "%char "_"%char (lower agent_name) ++ "_" ++ question_id.

(** The grouping step of the first loop, for one task. *)
Definition group_task (question_id : string) (agents_by_type : dict AgentInfo)
  (d : TaskDetail) : dict AgentInfo :=
  let grouped :=
    if dict_mem (td_agent_type d) agents_by_type then agents_by_type
    else dict_set (td_agent_type d)
           (mkAgentInfo (td_agent_name d)
              (agent_id_of (td_agent_name d) question_id) [])
           agents_by_type in
  match dict_get (td_agent_type d) grouped with
  | Some info =>
      dict_set (td_agent_type d)
        (mkAgentInfo (ai_agent_name info) (ai_agent_id info)
           (ai_tasks info ++ [td_index d])%list)
        grouped
  | None => grouped
  end.

Definition group_by_type (question_id : string) (details : list TaskDetail)
  : dict AgentInfo :=
  fold_left (group_task question_id) details [].

Definition task_node_id (question_id : string) (i : nat) : string :=
  "task_" ++ question_id ++ "_" ++ str_of_nat i.

Definition result_node_id (question_id : string) (i : nat) : string :=
  "result_" ++ question_id ++ "_" ++ str_of_nat i.

(** The key of a task in the handle table [agent_results]. *)
Definition handle_key (agent_name : string) (i : nat) : string :=
  agent_name ++ "_" ++ str_of_nat i.

(** [prev_key.split('_')[0]] *)
Definition key_prefix (prev_key : string) : string :=
  nth 0 (split "_" prev_key) EmptyString.

(** [agents_by_type[agent_type]['agent_id']] *)
Definition agent_id_for (agents_by_type : dict AgentInfo) (agent_type : string)
  : exn + string :=
  match dict_get agent_type agents_by_type with
  | Some info => inr (ai_agent_id info)
  | None => inl ("'" ++ agent_type ++ "'")
  end.

Section WithStore.

(** The Provenance Store: whether it refuses a statement, and with what
    error, may depend on everything it accepted before. The world of the
    recorder is the list of statements the store has accepted. *)
Variable rejects : list StoreOp -> StoreOp -> option exn.

Definition Log : Type := list StoreOp.

(** [session.run(...)] *)
Definition session_run (op : StoreOp) : M Log unit :=
  fun log =>
    match rejects log op with
    | Some e => (Raise e, log)
    | None => (Ret tt, (log ++ [op])%list)
    end.

(** [for x in l: body x] *)
Fixpoint for_each {A} (l : list A) (body : A -> M Log unit) : M Log unit :=
  match l with
  | [] => ret tt
  | x :: rest => body x ;;; for_each rest body
  end.

(** A loop that carries a local variable [s]. *)
Fixpoint for_fold {A St} (l : list A) (s : St) (body : St -> A -> M Log St)
  : M Log St :=
  match l with
  | [] => ret s
  | x :: rest => s' <- body s x ;; for_fold rest s' body
  end.

(** ** [_create_agents_and_workflow] *)

(** The loop that creates the agents. *)
Definition create_agents (orchestrator_id timestamp : string)
  (agents_by_type : dict AgentInfo) : M Log unit :=
  for_each agents_by_type (fun kv =>
    session_run (CreateAgent (ai_agent_id (snd kv)) (ai_agent_name (snd kv))
                   (fst kv) timestamp (length (ai_tasks (snd kv)))) ;;;
    session_run (LinkUseAgent orchestrator_id (ai_agent_id (snd kv)))).

(** The loop that creates a task and a result per entry and fills the handle
    table. *)
Definition create_tasks (question_id timestamp : string)
  (agents_by_type : dict AgentInfo) (details : list TaskDetail)
  : M Log (dict string) :=
  for_fold details [] (fun agent_results d =>
    agent_id <- lift (agent_id_for agents_by_type (td_agent_type d)) ;;
    let task_id := task_node_id question_id (td_index d) in
    session_run (CreateTask task_id (td_task_description d) (td_task_input d)
                   timestamp (td_index d)) ;;;
    let result_id := result_node_id question_id (td_index d) in
    session_run (CreateResult result_id (td_task_result d) (td_agent_name d)
                   timestamp (td_index d)) ;;;
    session_run (LinkProduced task_id result_id) ;;;
    session_run (LinkAssigned agent_id task_id) ;;;
    ret (dict_set (handle_key (td_agent_name d) (td_index d)) result_id
           agent_results)).

(** [if prev_agent_name != agent_name and prev_result_id: if i > 0:] *)
Definition uses_input (d : TaskDetail) (prev : string * string) : bool :=
  negb (String.eqb (key_prefix (fst prev)) (td_agent_name d))
  && negb (String.eqb (snd prev) EmptyString)
  && (0 <? td_index d)%nat.

(** The loop that links every task's agent to results in the handle table. *)
Definition link_inputs (agents_by_type : dict AgentInfo)
  (details : list TaskDetail) (agent_results : dict string) : M Log unit :=
  for_each details (fun d =>
    agent_id <- lift (agent_id_for agents_by_type (td_agent_type d)) ;;
    for_each agent_results (fun prev =>
      if uses_input d prev
      then session_run (LinkUsedInputFrom agent_id (snd prev))
      else ret tt)).

Definition create_agents_and_workflow (question_id orchestrator_id : string)
  (agent_tasks : list RunTask) (timestamp : string) : M Log (dict string) :=
  let details := task_details agent_tasks in
  let agents_by_type := group_by_type question_id details in
  create_agents orchestrator_id timestamp agents_by_type ;;;
  agent_results <- create_tasks question_id timestamp agents_by_type details ;;
  link_inputs agents_by_type details agent_results ;;;
  ret agent_results.

(** ** [_create_graph_data] *)

(** [int(text)], when [text] reads as an integer. *)
Variable py_int : string -> option Z.

(** [urlparse(url).hostname]; the call may raise on a malformed address. *)
Variable url_hostname : string -> exn + option string.

(** The result of the first entry of the handle table whose key passes [p]. *)
Fixpoint first_result (p : string -> bool) (agent_results : dict string)
  : option string :=
  match agent_results with
  | [] => None
  | (key, res_id) :: rest => if p key then Some res_id else first_result p rest
  end.

(** Step (a): the index read from a task id of the form [task_<n>...]. *)
Definition result_by_index (agent_results : dict string) (task_id : option string)
  : option string :=
  match agent_results, nonempty task_id with
  | _ :: _, Some tid =>
      if startswith "task_" tid then
        match py_int (nth 1 (split "_" tid) EmptyString) with
        | Some task_index =>
            first_result (endswith ("_" ++ str_of_Z task_index)) agent_results
        | None => None
        end
      else None
  | _, _ => None
  end.

(** Steps (a), (b), (c) of the resolution of the result a sub-graph belongs
    to. *)
Definition resolve_result_id (agent_results : dict string)
  (neo4j_agent_name task_id : option string) : option string :=
  let by_index := nonempty (result_by_index agent_results task_id) in
  let by_name :=
    match by_index, nonempty neo4j_agent_name with
    | None, Some name => nonempty (first_result (startswith name) agent_results)
    | _, _ => by_index
    end in
  match by_name, agent_results with
  | None, r :: rest => Some (snd (List.last rest r))
  | _, _ => by_name
  end.

(** The class a retrieved node is counted under in the log lines. *)
Inductive NodeClass : Type := chunk | document | entity | other.

Definition classify (node_data : NodeData) : NodeClass :=
  let node_labels := nd_labels node_data in
  if mem "Chunk" node_labels then chunk
  else if mem "Document" node_labels then document
  else if existsb (fun label => mem label ["Entity"; "__Entity__"]) node_labels
       then entity
  else other.

Definition escape_label (label : string) : string :=
  if contains_char " "%char label then "`" ++ label ++ "`" else label.

Definition labels_str (node_labels : list string) : string :=
  match node_labels with
  | [] => "Entity"
  | _ => join ":" (map escape_label node_labels)
  end.

Definition reserved_key (prop_key : string) : bool :=
  mem prop_key ["audit_id"; "original_element_id"; "timestamp"].

(** [prop_key.replace('-', '_').replace(' ', '_')] *)
Definition clean_prop_key (prop_key : string) : string :=
  replace_char " "%char "_"%char (replace_char "-"%char "_"%char prop_key).

(** [str(prop_value) if prop_value is not None else ""] *)
Definition value_text (v : prop_value) : string :=
  match v with
  | Some s => s
  | None => EmptyString
  end.

(** The loop over [node_properties.items()]: the keys appended to the
    statement, and [params] after the loop. *)
Definition add_property (acc : list string * dict string)
  (kv : string * prop_value) : list string * dict string :=
  if reserved_key (fst kv) then acc
  else
    let clean := clean_prop_key (fst kv) in
    ((fst acc ++ [clean])%list, dict_set clean (value_text (snd kv)) (snd acc)).

Definition node_statement (params : dict string)
  (node_properties : dict prop_value) : list string * dict string :=
  fold_left add_property node_properties ([], params).

(** [node_data.get('elementId') or node_data.get('id', default)] *)
Definition element_id_or (node_data : NodeData) (default : string) : string :=
  match nonempty (nd_elementId node_data) with
  | Some e => e
  | None => get_or (nd_id node_data) default
  end.

Definition primary_node_id (graphrag_id : string) (i : nat) : string :=
  "entity_" ++ graphrag_id ++ "_" ++ str_of_nat i.

Definition primary_params (node_id node_element_id timestamp : string)
  : dict string :=
  [("node_id", node_id); ("node_element_id", node_element_id);
   ("timestamp", timestamp)].

(** The statement that creates the audit node of entry [i] of the primary
    list. *)
Definition primary_create (graphrag_id timestamp : string) (i : nat)
  (node_data : NodeData) : StoreOp :=
  let node_element_id := element_id_or node_data ("unknown_" ++ str_of_nat i) in
  let st := node_statement
              (primary_params (primary_node_id graphrag_id i) node_element_id timestamp)
              (nd_properties node_data) in
  CreateNode (labels_str (nd_labels node_data)) (fst st) (snd st).

(** One turn of the loop over the primary list. *)
Definition materialize_primary (graphrag_id timestamp : string)
  (entity_map : dict string) (entry : nat * NodeData) : M Log (dict string) :=
  let i := fst entry in
  let node_data := snd entry in
  let node_element_id := element_id_or node_data ("unknown_" ++ str_of_nat i) in
  let node_id := primary_node_id graphrag_id i in
  try_except
    (session_run (primary_create graphrag_id timestamp i node_data))
    (fun _ =>
       session_run (CreateFallbackEntity node_id node_element_id timestamp
                      (list_repr (nd_labels node_data)))) ;;;
  session_run (LinkRetrievedEntity graphrag_id node_id) ;;;
  ret (dict_set node_element_id node_id entity_map).

Definition additional_node_id (node_list_name graphrag_id : string) (i : nat)
  : string :=
  "additional_" ++ node_list_name ++ "_" ++ graphrag_id ++ "_" ++ str_of_nat i.

Definition additional_create (node_list_name graphrag_id timestamp : string)
  (i : nat) (node_element_id : string) (node_data : NodeData) : StoreOp :=
  let st := node_statement
              [("node_id", additional_node_id node_list_name graphrag_id i);
               ("element_id", node_element_id); ("timestamp", timestamp)]
              (nd_properties node_data) in
  CreateAdditionalNode (labels_str (nd_labels node_data)) (fst st) (snd st).

(** One turn of the loop over a supplementary list. *)
Definition materialize_additional (node_list_name graphrag_id timestamp : string)
  (entity_map : dict string) (entry : nat * NodeData) : M Log (dict string) :=
  let i := fst entry in
  let node_data := snd entry in
  match or_else (nd_elementId node_data) (nonempty (nd_id node_data)) with
  | Some node_element_id =>
      if dict_mem node_element_id entity_map then ret entity_map
      else
        let additional := additional_node_id node_list_name graphrag_id i in
        try_except
          (session_run (additional_create node_list_name graphrag_id timestamp i
                          node_element_id node_data) ;;;
           session_run (LinkRetrievedAdditional graphrag_id additional) ;;;
           ret (dict_set node_element_id additional entity_map))
          (fun _ => ret entity_map)
  | None => ret entity_map
  end.

(** The loop over the relationship properties. *)
Definition add_rel_property (acc : list string * dict string)
  (kv : string * prop_value) : list string * dict string :=
  if mem (fst kv) ["original_element_id"; "timestamp"] then acc
  else ((fst acc ++ [(fst kv ++ ": $" ++ fst kv)%string])%list,
        dict_set (fst kv) (value_text (snd kv)) (snd acc)).

(** One turn of the loop over the relationships; the state is the pair of
    counters [(successful_relationships, failed_relationships)]. *)
Definition materialize_relationship (timestamp : string)
  (entity_map : dict string) (counts : nat * nat) (entry : nat * RelData)
  : M Log (nat * nat) :=
  let i := fst entry in
  let rel_data := snd entry in
  let rel_element_id :=
    match nonempty (rd_elementId rel_data) with
    | Some e => e
    | None => get_or (rd_id rel_data) ("unknown_rel_" ++ str_of_nat i)
    end in
  let rel_type := get_or (rd_type rel_data) "RELATED_TO" in
  let endpoint a b :=
    match nonempty a with
    | Some e => e
    | None => get_or b EmptyString
    end in
  let start_node_id :=
    endpoint (rd_startNodeElementId rel_data) (rd_start_node rel_data) in
  let end_node_id :=
    endpoint (rd_endNodeElementId rel_data) (rd_end_node rel_data) in
  match nonempty (dict_get start_node_id entity_map),
        nonempty (dict_get end_node_id entity_map) with
  | Some start_audit_id, Some end_audit_id =>
      let st :=
        fold_left add_rel_property (rd_properties rel_data)
          (["original_element_id: $rel_element_id"; "timestamp: $timestamp"],
           [("start_audit_id", start_audit_id); ("end_audit_id", end_audit_id);
            ("rel_element_id", rel_element_id); ("timestamp", timestamp)]) in
      try_except
        (session_run (CreateRelationship rel_type (fst st) (snd st)) ;;;
         ret (S (fst counts), snd counts))
        (fun _ => ret (fst counts, S (snd counts)))
  | _, _ => ret (fst counts, S (snd counts))
  end.

Definition supplementary_lists (graph_data : GraphData)
  : list (string * list NodeData) :=
  [("entity_nodes", gd_entity_nodes graph_data);
   ("chunk_nodes", gd_chunk_nodes graph_data);
   ("document_nodes", gd_document_nodes graph_data)].

(** The loop over the primary list, from an empty [entity_map]. *)
Definition primary_loop (graphrag_id timestamp : string)
  (retrieved_nodes : list NodeData) : M Log (dict string) :=
  for_fold (enumerate retrieved_nodes) [] (materialize_primary graphrag_id timestamp).

(** The loops over the three supplementary lists. *)
Definition supplementary_loop (graphrag_id timestamp : string)
  (graph_data : GraphData) (entity_map : dict string) : M Log (dict string) :=
  for_fold (supplementary_lists graph_data) entity_map (fun m named =>
    for_fold (enumerate (snd named)) m
      (materialize_additional (fst named) graphrag_id timestamp)).

(** [_create_graph_data]; the value is the pair of counters its last log
    line reports. *)
Definition create_graph_data (question_id : string) (graph_data : GraphData)
  (timestamp retrieval_suffix : string) (neo4j_agent_name task_id : option string)
  (agent_results : dict string) : M Log (nat * nat) :=
  let result_id := resolve_result_id agent_results neo4j_agent_name task_id in
  let graphrag_id := "graphrag_" ++ question_id ++ retrieval_suffix in
  session_run (CreateGraphRAGRetrieval graphrag_id timestamp
                 (gd_query graph_data) (gd_answer graph_data)
                 (gd_executed_cypher graph_data)
                 (length (gd_retrieved_nodes graph_data))
                 (length (gd_retrieved_relationships graph_data))) ;;;
  (match nonempty result_id with
   | Some r => session_run (LinkUsingGraphrag r graphrag_id)
   | None => ret tt
   end) ;;;
  entity_map <- primary_loop graphrag_id timestamp (gd_retrieved_nodes graph_data) ;;
  entity_map' <- supplementary_loop graphrag_id timestamp graph_data entity_map ;;
  for_fold (enumerate (gd_retrieved_relationships graph_data)) (0, 0)
    (materialize_relationship timestamp entity_map').

(** ** [_create_sources] (the second definition, which is the one in force) *)

Definition create_source (question_id timestamp : string) (entry : nat * string)
  : M Log unit :=
  let source_id := "source_" ++ question_id ++ "_" ++ str_of_nat (fst entry) in
  let source := snd entry in
  let plain := session_run (CreateSource question_id source_id source timestamp) in
  if startswith "Source: " source then
    let url := replace_sub "Source: " EmptyString source in
    try_except
      (domain <- lift (url_hostname url) ;;
       session_run (CreateWebSource question_id source_id url domain source timestamp))
      (fun _ => plain)
  else plain.

(** ** [log_question_workflow] *)

(** One entry of the list of retrievals [main.py] hands over. *)
Record Retrieval : Type := mkRetrieval {
  rv_agent_name : option string;
  rv_task_id : option string;
  rv_graph_data : option GraphData
}.

(** [question_id] and [timestamp] are the values [uuid.uuid4()] and
    [datetime.now().isoformat()] gave; the result is [None] without a driver
    and when anything raised. *)
Definition log_question_workflow (driver : bool) (question_id timestamp : string)
  (question : string) (agent_tasks : list RunTask) (response : string)
  (agents_used : list string) (processing_time : nat) (sources : list string)
  (graph_data : list Retrieval) (model : param) (is_multi_agent : bool)
  : Log -> option string * Log :=
  fun log =>
    if negb driver then (None, log)
    else
      let orchestrator_id := "orchestrator_" ++ question_id in
      let body : M Log unit :=
        session_run (CreateQuestion question_id question timestamp response model
                       processing_time is_multi_agent
                       (length agents_used) (length sources)) ;;;
        session_run (CreateOrchestrator question_id orchestrator_id timestamp) ;;;
        agent_results <- create_agents_and_workflow question_id orchestrator_id
                           agent_tasks timestamp ;;
        for_each (enumerate sources) (create_source question_id timestamp) ;;;
        for_each (enumerate graph_data) (fun entry =>
          match rv_graph_data (snd entry) with
          | Some gd =>
              create_graph_data question_id gd timestamp
                ("_" ++ str_of_nat (fst entry))
                (rv_agent_name (snd entry)) (rv_task_id (snd entry))
                agent_results ;;;
              ret tt
          | None => ret tt
          end) in
      match body log with
      | (Ret _, log') => (Some question_id, log')
      | (Raise _, log') => (None, log')
      end.

End WithStore.
End Audit.

(* ===================================================================== *)
(** * The chat endpoint: [main.py] *)
(* ===================================================================== *)

Module Main.

(** The sub-graphs [chat_endpoint] collects from the task summaries. *)
Definition graph_retrievals (agentTasks : list AgentTask) : list Audit.Retrieval :=
  flat_map (fun task =>
              match at_graphData task with
              | Some gd =>
                  [Audit.mkRetrieval (Some (at_agentName task)) (Some (at_id task))
                     (Some gd)]
              | None => []
              end) agentTasks.

Definition agents_used (agentTasks : list AgentTask) : list string :=
  map at_agentName agentTasks.

(** The run records: the responder's display name stands for both the agent
    and its type. *)
Definition audit_tasks (agentTasks : list AgentTask) : list Audit.RunTask :=
  map (fun task =>
         Audit.mkRunTask (Some (at_agentName task)) (Some (at_agentName task))
           (Some (Some (at_task task))) (Some (at_result task))
           (Some (at_input task))) agentTasks.

(** The call of the recorder in [chat_endpoint]; the recorder's own result is
    not used. *)
Definition log_chat (rejects : list Audit.StoreOp -> Audit.StoreOp -> option exn)
  (py_int : string -> option Z) (url_hostname : string -> exn + option string)
  (driver : bool) (question_id timestamp message : string)
  (result : Orchestrator.MultiAgentResponse) (model : Audit.param)
  (is_multi_agent : bool) : Audit.Log -> option string * Audit.Log :=
  Audit.log_question_workflow rejects py_int url_hostname driver question_id
    timestamp message
    (audit_tasks (Orchestrator.r_agentTasks result))
    (Orchestrator.r_response result)
    (agents_used (Orchestrator.r_agentTasks result))
    (Orchestrator.r_processing_time result)
    (Orchestrator.r_src result)
    (graph_retrievals (Orchestrator.r_agentTasks result))
    model is_multi_agent.

End Main.

(* ===================================================================== *)
(** * The push channel: [app/websocket/connection_manager.py] *)
(* ===================================================================== *)

Module ConnectionManager.
Import Py Eff.

(** A socket, by the number it is known under. *)
Definition WebSocket : Type := nat.

(** The manager's table of sockets, and the texts the sockets have taken. *)
Record State : Type := mkState {
  active_connections : dict WebSocket;
  delivered : list (WebSocket * string)
}.

Section WithSockets.

(** [websocket.accept()] and [websocket.send_text(text)] may raise; whether a
    send raises may depend on what was delivered before. *)
Variable accept_raises : WebSocket -> option exn.
Variable send_raises : list (WebSocket * string) -> WebSocket -> string -> option exn.

Definition connect (websocket : WebSocket) (session_id : string) : M State unit :=
  fun st =>
    match accept_raises websocket with
    | Some e => (Raise e, st)
    | None =>
        (Ret tt, mkState (dict_set session_id websocket (active_connections st))
                   (delivered st))
    end.

Definition disconnect (session_id : string) (st : State) : State :=
  if dict_mem session_id (active_connections st)
  then mkState (dict_del session_id (active_connections st)) (delivered st)
  else st.

(** [websocket.send_text(text)] *)
Definition send_text (websocket : WebSocket) (text : string) : M State unit :=
  fun st =>
    match send_raises (delivered st) websocket text with
    | Some e => (Raise e, st)
    | None =>
        (Ret tt, mkState (active_connections st)
                   (delivered st ++ [(websocket, text)])%list)
    end.

(** [message_json] is the text the message serialises to, or the error its
    serialisation raises; both happen inside the [try]. *)
Definition send_multi_task_update (session_id : string) (message_json : exn + string)
  (st : State) : State :=
  match dict_get session_id (active_connections st) with
  | Some websocket =>
      match (text <- lift message_json ;; send_text websocket text)%eff st with
      | (Ret _, st') => st'
      | (Raise _, st') => disconnect session_id st'
      end
  | None => st
  end.

Definition send_task_update (session_id : string) (message_json : exn + string)
  (st : State) : State :=
  match dict_get session_id (active_connections st) with
  | Some websocket =>
      match (text <- lift message_json ;; send_text websocket text)%eff st with
      | (Ret _, st') => st'
      | (Raise _, st') => disconnect session_id st'
      end
  | None => st
  end.

Definition send_json_message (session_id : string) (message_json : exn + string)
  (st : State) : State :=
  match dict_get session_id (active_connections st) with
  | Some websocket =>
      match (text <- lift message_json ;; send_text websocket text)%eff st with
      | (Ret _, st') => st'
      | (Raise _, st') => disconnect session_id st'
      end
  | None => st
  end.

End WithSockets.
End ConnectionManager.

(* ===================================================================== *)
(** * Vocabulary of the statements *)
(* ===================================================================== *)

Module Spec.
Import Py.

(** The degraded response of [process_query] for the error text [e]. *)
Definition is_error_response (e : exn) (r : Orchestrator.MultiAgentResponse)
  : Prop :=
  Orchestrator.r_response r
  = "I apologize, but I encountered an error while processing your request: " ++ e
  /\ Orchestrator.r_agents_used r = []
  /\ Orchestrator.r_agentTasks r = []
  /\ Orchestrator.r_synthesis_applied r = false.

(** The lines [_execute_task] adds for the tasks [previous], and the input
    they give together with a description. *)
Definition context_lines (previous : list Task) : string :=
  String.concat EmptyString
    (map (fun p => nl ++ nl ++ "Previous result from " ++ agent p ++ ": " ++ result p)
         previous).

Definition input_with_context (description : string) (previous : list Task)
  : string :=
  match previous with
  | [] => description
  | _ => description ++ nl ++ nl ++ "Context from previous tasks:"
         ++ context_lines previous
  end.

Definition completed_tasks (ts : dict Task) : list Task :=
  filter Supervisor.is_completed (values ts).

(** A task that has been run to its end. *)
Definition terminal (t : Task) : Prop :=
  (status t = completed \/ status t = failed)
  /\ actual_input t <> None /\ completed_at t <> None.

(** The shape of the planning reply in the words of the specification: an
    object with the texts [analysis] and [strategy] and a list [tasks] of
    objects, each with the texts [id], [description] and [agent]. *)
Definition has_text (key : string) (members : dict json) : bool :=
  match dict_get key members with
  | Some (JStr _) => true
  | _ => false
  end.

Definition spec_task_shape (j : json) : bool :=
  match j with
  | JObj m => has_text "id" m && has_text "description" m && has_text "agent" m
  | _ => false
  end.

Definition spec_plan_shape (j : json) : bool :=
  match j with
  | JObj m =>
      has_text "analysis" m && has_text "strategy" m
      && match dict_get "tasks" m with
         | Some (JArr l) => forallb spec_task_shape l
         | _ => false
         end
  | _ => false
  end.

(** An entry of [tasks] from which the three fields can be read. *)
Definition entry_has_keys (j : json) : bool :=
  match j with
  | JObj m => dict_mem "id" m && dict_mem "description" m && dict_mem "agent" m
  | _ => false
  end.

(** The parsed replies [create_plan] cannot read a plan from: a value that
    is not an object, or an object whose [tasks] cannot be iterated or
    yields an entry that is not an object with the three keys. An object
    without [tasks] is not among them. *)
Definition unreadable (j : json) : bool :=
  match j with
  | JObj m =>
      match dict_get "tasks" m with
      | None => false
      | Some (JArr l) => negb (forallb entry_has_keys l)
      | Some (JObj []) => false
      | Some (JObj (_ :: _)) => true
      | Some (JStr EmptyString) => false
      | Some (JStr (String _ _)) => true
      | Some (JNum _) | Some (JBool _) | Some JNull => true
      end
  | _ => true
  end.

(** [needle] occurs in [s]. *)
Definition occurs_in (needle s : string) : Prop :=
  exists before after, s = before ++ needle ++ after.

(** A task as [Task(id=..., description=..., agent=...)] leaves it. *)
Definition fresh (t : Task) : Prop :=
  status t = pending /\ result t = EmptyString
  /\ started_at t = None /\ completed_at t = None
  /\ actual_input t = None /\ graph_data t = None.

(** The summary of a task that has been run to its end: completed with its
    result and full progress, or failed with the error text and none. *)
Definition summary_of_finished_task (a : AgentTask) : Prop :=
  at_input a <> None
  /\ ((at_status a = completed /\ at_progress a = Some 100
       /\ at_result a <> None /\ at_error a = None)
      \/ (at_status a = failed /\ at_progress a = Some 0
          /\ at_result a = None
          /\ exists e, at_error a = Some ("Task failed: " ++ e))).

(** An output item whose first text is not empty. *)
Definition has_answer (item : OutputItem) : bool :=
  match item with
  | Some (p :: ps) => LLMAgent.truthy (LLMAgent.first_text (p :: ps))
  | _ => false
  end.

(** ** Reading the statements the recorder sent *)

Import Audit.

(** The agents created, as pairs of agent id and agent type. *)
Definition created_agents (ops : list StoreOp) : list (string * string) :=
  flat_map (fun op =>
              match op with
              | CreateAgent a _ ty _ _ => [(a, ty)]
              | _ => []
              end) ops.

Definition use_agent_links (ops : list StoreOp) : list (string * string) :=
  flat_map (fun op =>
              match op with
              | LinkUseAgent o a => [(o, a)]
              | _ => []
              end) ops.

Definition created_tasks (ops : list StoreOp) : list string :=
  flat_map (fun op =>
              match op with
              | CreateTask t _ _ _ _ => [t]
              | _ => []
              end) ops.

Definition created_results (ops : list StoreOp) : list string :=
  flat_map (fun op =>
              match op with
              | CreateResult r _ _ _ _ => [r]
              | _ => []
              end) ops.

Definition produced_links (ops : list StoreOp) : list (string * string) :=
  flat_map (fun op =>
              match op with
              | LinkProduced t r => [(t, r)]
              | _ => []
              end) ops.

Definition assigned_links (ops : list StoreOp) : list (string * string) :=
  flat_map (fun op =>
              match op with
              | LinkAssigned a t => [(a, t)]
              | _ => []
              end) ops.

Definition used_input_links (ops : list StoreOp) : list (string * string) :=
  flat_map (fun op =>
              match op with
              | LinkUsedInputFrom a r => [(a, r)]
              | _ => []
              end) ops.

(** The audit nodes created for retrieved nodes of a primary list, by their
    audit id and the external id they stand for; a node created through the
    fallback statement counts as well. *)
Definition materialized (ops : list StoreOp) : list (string * string) :=
  flat_map (fun op =>
              match op with
              | CreateNode _ _ params =>
                  match dict_get "node_id" params,
                        dict_get "node_element_id" params with
                  | Some a, Some e => [(a, e)]
                  | _, _ => []
                  end
              | CreateFallbackEntity a e _ _ => [(a, e)]
              | _ => []
              end) ops.

(** ** The statements of the three loops *)

Definition agent_ops (orchestrator_id timestamp : string)
  (kv : string * AgentInfo) : list StoreOp :=
  [ CreateAgent (ai_agent_id (snd kv)) (ai_agent_name (snd kv)) (fst kv) timestamp
      (length (ai_tasks (snd kv)));
    LinkUseAgent orchestrator_id (ai_agent_id (snd kv)) ].

Definition task_ops (question_id timestamp : string) (agents_by_type : Py.dict AgentInfo)
  (d : TaskDetail) : list StoreOp :=
  match agent_id_for agents_by_type (td_agent_type d) with
  | inr agent_id =>
      [ CreateTask (task_node_id question_id (td_index d)) (td_task_description d)
          (td_task_input d) timestamp (td_index d);
        CreateResult (result_node_id question_id (td_index d)) (td_task_result d)
          (td_agent_name d) timestamp (td_index d);
        LinkProduced (task_node_id question_id (td_index d))
          (result_node_id question_id (td_index d));
        LinkAssigned agent_id (task_node_id question_id (td_index d)) ]
  | inl _ => []
  end.

Definition input_ops (agents_by_type : Py.dict AgentInfo)
  (agent_results : Py.dict string) (d : TaskDetail) : list StoreOp :=
  match agent_id_for agents_by_type (td_agent_type d) with
  | inr agent_id =>
      map (fun prev => LinkUsedInputFrom agent_id (snd prev))
          (filter (uses_input d) agent_results)
  | inl _ => []
  end.

(** The statements that create an audit node for a retrieved node. *)
Definition node_creations (ops : list StoreOp) : list StoreOp :=
  filter (fun op =>
            match op with
            | CreateNode _ _ _ | CreateFallbackEntity _ _ _ _ => true
            | _ => false
            end) ops.

Definition retrieved_entity_links (ops : list StoreOp) : list (string * string) :=
  flat_map (fun op =>
              match op with
              | LinkRetrievedEntity g n => [(g, n)]
              | _ => []
              end) ops.

(** The external id of entry [i] of the primary list. *)
Definition external_id (entry : nat * NodeData) : string :=
  element_id_or (snd entry) ("unknown_" ++ str_of_nat (fst entry)).

(** The statement that creates entry [i] of the primary list, or the one of
    the fallback. *)
Definition creates_entry (graphrag_id timestamp : string) (entry : nat * NodeData)
  (op : StoreOp) : Prop :=
  op = primary_create graphrag_id timestamp (fst entry) (snd entry)
  \/ op = CreateFallbackEntity (primary_node_id graphrag_id (fst entry))
           (external_id entry) timestamp (list_repr (nd_labels (snd entry))).

(** [entity_map] after the loop over the primary list. *)
Definition primary_entity_map (graphrag_id : string) (nodes : list NodeData)
  : dict string :=
  fold_left (fun m entry =>
               dict_set (external_id entry) (primary_node_id graphrag_id (fst entry)) m)
            (enumerate nodes) [].

(** The claim on deduplication as the specification words it: among the
    audit nodes created for one retrieval, no external id occurs twice. *)
Definition each_external_id_once (ops : list StoreOp) : Prop :=
  NoDup (map snd (materialized ops)).



(** The property that is bound last under the cleaned key [c]. *)
Definition last_binding (c : string) (node_properties : dict prop_value)
  : option prop_value :=
  fold_left (fun o kv =>
               if reserved_key (fst kv) then o
               else if String.eqb (clean_prop_key (fst kv)) c then Some (snd kv)
               else o)
            node_properties None.

(** The label string as the specification words it: the labels in order
    with a colon between them, a label that holds a space between
    back-quotes; [Entity] for a node without labels. *)
Definition quoted_label (label : string) : string :=
  if existsb (Ascii.eqb " ") (list_ascii_of_string label)
  then String "`" (label ++ String "`" EmptyString)
  else label.

Definition label_string (labels : list string) : string :=
  match labels with
  | [] => "Entity"
  | first :: others =>
      fold_left (fun text label => text ++ String ":" (quoted_label label)) others
        (quoted_label first)
  end.

(** [op] creates the audit node of the entry [entry] of the primary list:
    under the entry's labels, with the time of the recording and, unless a
    property of the node takes the parameter's name, the external id of the
    entry and the audit id of its position; or it is the fallback
    statement for that entry. *)
Definition materializes (graphrag_id timestamp : string) (entry : nat * NodeData)
  (op : StoreOp) : Prop :=
  match op with
  | CreateNode labels _ params =>
      labels = label_string (nd_labels (snd entry))
      /\ dict_get "timestamp" params = Some timestamp
      /\ (last_binding "node_element_id" (nd_properties (snd entry)) = None ->
          dict_get "node_element_id" params = Some (external_id entry))
      /\ (last_binding "node_id" (nd_properties (snd entry)) = None ->
          dict_get "node_id" params
          = Some (primary_node_id graphrag_id (fst entry)))
  | CreateFallbackEntity node_id node_element_id ts _ =>
      node_id = primary_node_id graphrag_id (fst entry)
      /\ node_element_id = external_id entry
      /\ ts = timestamp
  | _ => False
  end.

(** The statements [ops] sent for an entry of a supplementary list: none,
    when the external id of the entry is bound in [entity_map]. *)
Definition skipped_if_bound (entity_map : dict string) (entry : nat * NodeData)
  (ops : list StoreOp) : Prop :=
  forall eid,
    or_else (nd_elementId (snd entry)) (nonempty (nd_id (snd entry))) = Some eid ->
    dict_mem eid entity_map = true ->
    ops = [].



(** The ids of the nodes a statement of the workflow creates, and the ids a
    link statement looks up. *)
Definition created_by (op : StoreOp) : list string :=
  match op with
  | CreateOrchestrator _ o _ => [o]
  | CreateAgent a _ _ _ _ => [a]
  | CreateTask t _ _ _ _ => [t]
  | CreateResult r _ _ _ _ => [r]
  | _ => []
  end.

Definition link_ends (op : StoreOp) : list string :=
  match op with
  | LinkUseAgent o a => [o; a]
  | LinkProduced t r => [t; r]
  | LinkAssigned a t => [a; t]
  | LinkUsedInputFrom a r => [a; r]
  | _ => []
  end.

(** Every link statement of [ops] looks up nodes that are [known] or were
    created by an earlier statement of [ops]. *)
Fixpoint links_follow_creations (known : list string) (ops : list StoreOp) : Prop :=
  match ops with
  | [] => True
  | op :: rest =>
      (forall x, In x (link_ends op) -> In x known)
      /\ links_follow_creations (created_by op ++ known) rest
  end.

(** The entry of the handle table of one task. *)
Definition handle_of (question_id : string) (d : TaskDetail) : string * string :=
  (handle_key (td_agent_name d) (td_index d), result_node_id question_id (td_index d)).

(** The statements a supplementary list may send. *)
Definition additional_op (op : StoreOp) : bool :=
  match op with
  | CreateAdditionalNode _ _ _ | LinkRetrievedAdditional _ _ => true
  | _ => false
  end.

Definition relationship_creation (op : StoreOp) : bool :=
  match op with
  | CreateRelationship _ _ _ => true
  | _ => false
  end.

(** [op] is the one node a source is recorded as: a plain source with its
    text, or a web source with the address read from it. *)
Definition records_source (question_id timestamp : string) (entry : nat * string)
  (op : StoreOp) : Prop :=
  let source_id := "source_" ++ question_id ++ "_" ++ str_of_nat (fst entry) in
  op = CreateSource question_id source_id (snd entry) timestamp
  \/ (startswith "Source: " (snd entry) = true
      /\ exists domain,
           op = CreateWebSource question_id source_id
                  (replace_sub "Source: " EmptyString (snd entry)) domain
                  (snd entry) timestamp).

(** The store that accepts every statement. *)
Definition accept_all (log : list StoreOp) (op : StoreOp) : option exn := None.

Section Planning.
Context {W : Type} (X : Externals W).

(** The three ways planning fails for the prompt [prompt] in the world [w]:
    the Completion Service raises, its reply is not JSON, or the parsed reply
    cannot be read as a plan. *)
Inductive planning_failure (prompt : string) (w : W) : Prop :=
| service_raises e w1 :
    model_invoke X prompt w = (Raise e, w1) ->
    planning_failure prompt w
| reply_not_json reply w1 e :
    model_invoke X prompt w = (Ret reply, w1) ->
    json_loads X (Supervisor.strip_code_fence (strip reply)) = inl e ->
    planning_failure prompt w
| reply_unreadable reply w1 j :
    model_invoke X prompt w = (Ret reply, w1) ->
    json_loads X (Supervisor.strip_code_fence (strip reply)) = inr j ->
    unreadable j = true ->
    planning_failure prompt w.

(** The single-task plan of the fallback. *)
Definition is_fallback_plan (agent_configs : dict Agent) (query : string)
  (plan : AgentPlan) : Prop :=
  exists t,
    tasks plan = [t]
    /\ description t = "Handle query: " ++ query
    /\ status t = pending
    /\ let enabled := map agent_id (Supervisor.get_enabled_agents agent_configs) in
       (In "llm_agent" enabled -> agent t = "llm_agent")
       /\ (~ In "llm_agent" enabled -> agent t = hd "llm_agent" enabled).

(** The claim on the fallback as the specification words it: a reply that
    parses but has not the specified shape gives the single-task plan. *)
Definition fallback_on_any_malformed_shape (agent_configs : dict Agent)
  (query : string) (hist : list HistoryMessage) (w : W) : Prop :=
  forall reply w1 j,
    model_invoke X (Supervisor.planning_prompt X agent_configs query hist) w
    = (Ret reply, w1) ->
    json_loads X (Supervisor.strip_code_fence (strip reply)) = inr j ->
    spec_plan_shape j = false ->
    exists plan w2,
      Supervisor.create_plan X agent_configs query hist w = (Ret plan, w2)
      /\ is_fallback_plan agent_configs query plan.

End Planning.

Section Engine.
Context {W : Type} (X : Externals W).

(** [step visited k t rest t']: the entry [(k, t)] of the task map, between
    [visited] and [rest], is started, handed to [_execute_task] in some
    world, and left as [t']. *)
Definition step (cfg : Orchestrator.Config) (visited : dict Task) (k : string)
  (t : Task) (rest : dict Task) (t' : Task) : Prop :=
  exists started finished task_x outcome w_k w_k',
    Orchestrator.execute_task X cfg
      (set_started_at started (set_status running t))
      (visited ++ (k, set_started_at started (set_status running t)) :: rest)%list
      w_k
    = ((task_x, outcome), w_k')
    /\ t' = Orchestrator.finish_task finished outcome task_x.

(** The turns of the task loop over [todo], after [visited]. *)
Inductive steps (cfg : Orchestrator.Config)
  : dict Task -> dict Task -> dict Task -> Prop :=
| steps_nil visited : steps cfg visited [] []
| steps_cons visited k t rest t' done :
    step cfg visited k t rest t' ->
    steps cfg (visited ++ [(k, t')])%list rest done ->
    steps cfg visited ((k, t) :: rest) ((k, t') :: done).

End Engine.

End Spec.

(* ===================================================================== *)
(** * Stand-ins for the external collaborators, for concrete runs *)
(* ===================================================================== *)

Module Mock.
Import Py.

(** A world without state: the Completion Service always gives [reply],
    [json.loads] is [parse], the query holds the explicit data [data],
    [print] works when [print_ok], the two model calls of the free-text
    responder give [primary] and [secondary], the graph responder [graph]. *)
Definition externals (reply : exn + string) (parse : string -> exn + json)
  (data : list (string * string)) (print_ok : bool)
  (primary : exn + list OutputItem) (secondary : exn + option string)
  (graph : exn + (list string * option GraphData)) : Externals unit :=
  {| model_invoke := fun _ => lift reply;
     stdout_print := fun _ => if print_ok then ret tt else raise "Broken pipe";
     json_loads := parse;
     re_findall_data := fun _ => data;
     responses_create := fun _ _ => lift primary;
     chat_create := fun _ _ => lift secondary;
     neo4j_invoke := fun _ => lift graph;
     now_iso := fun w => ("2025-01-01T00:00:00", w);
     now_strftime := fun w => ("2025-01-01 00:00:00", w);
     time_time := fun w => (0, w);
     py_str := fun _ => "?";
     iso_to_millis := fun _ => Some 0;
     push := fun _ w => w |}.

(** A [json.loads] that knows the empty object only. *)
Definition parse_empty_object (text : string) : exn + json :=
  if String.eqb text "{}" then inr (JObj [])
  else inl "Expecting value: line 1 column 1 (char 0)".

(** The Completion Service answers with the empty object. *)
Definition empty_object_reply : Externals unit :=
  externals (inr "{}") parse_empty_object [] true
    (inl "Connection error.") (inl "Connection error.") (inl "Connection error.").

(** Everything is down. *)
Definition all_down (data : list (string * string)) (print_ok : bool)
  : Externals unit :=
  externals (inl "Connection error.") parse_empty_object data print_ok
    (inl "Connection error.") (inl "Connection error.") (inl "Connection error.").

(** The free-text responder answers, everything else is down. *)
Definition llm_up (answer : string) : Externals unit :=
  externals (inl "Connection error.") parse_empty_object [] true
    (inr [Some [Some answer]]) (inl "Connection error.") (inl "Connection error.").

Definition pending_task (i d a : string) : Task :=
  mkTask i d a pending EmptyString "2025-01-01T00:00:00" None None None None.

(** A task map of three tasks; the second names an agent that is not in the
    registry. *)
Definition three_tasks : dict Task :=
  [ ("task_1", pending_task "task_1" "Find the capital of France" "llm_agent");
    ("task_2", pending_task "task_2" "Draw a chart" "chart_agent");
    ("task_3", pending_task "task_3" "Summarise" "llm_agent") ].

Definition three_task_plan : AgentPlan :=
  mkAgentPlan "France?" "analysis" (values three_tasks) "strategy"
    "2025-01-01T00:00:00".

(** The run record of a plan with a graph task and a free-text task, as
    [main.py] hands it to the recorder: the planner's summary comes first. *)
Definition run_task_of (name : string) (res : option string) : Audit.RunTask :=
  Audit.mkRunTask (Some name) (Some name) (Some (Some "task")) (Some res)
    (Some (Some "input")).

Definition planner_graph_llm : list Audit.RunTask :=
  [ run_task_of "Planner" (Some "plan");
    run_task_of "Neo4J Agent" (Some "graph answer");
    run_task_of "Llm Agent" (Some "text answer") ].

(** A retrieved node as the graph responder reports it. *)
Definition node (eid : string) (labels : list string) (props : dict prop_value)
  : NodeData :=
  mkNodeData None (Some eid) labels props.

(** A primary list in which one external id comes twice. *)
Definition same_id_twice : list NodeData :=
  [ node "4:abc:1" ["Movie"] [("title", Some "Heat")];
    node "4:abc:1" ["Movie"] [("title", Some "Heat")] ].

(** A retrieved node that still carries an embedding. *)
Definition node_with_embedding : NodeData :=
  node "4:abc:7" ["Movie"]
    [("title", Some "Heat"); ("embedding", Some "[0.12, -0.5, 0.33]")].


(** An [int] that reads plain decimal digits only. *)
Fixpoint digits_value (acc : Z) (s : string) : option Z :=
  match s with
  | EmptyString => Some acc
  | String c s' =>
      let n := nat_of_ascii c in
      if ((48 <=? n) && (n <=? 57))%nat
      then digits_value (10 * acc + Z.of_nat (n - 48)) s'
      else None
  end.

Definition int_of_digits (s : string) : option Z :=
  match s with
  | EmptyString => None
  | _ => digits_value 0 s
  end.

Definition relationship (rid ty a b : string) : RelData :=
  mkRelData None (Some rid) (Some ty) [] None (Some a) None (Some b).

(** A sub-graph of two nodes and two relationships, the second of which ends
    at a node that was not retrieved. *)
Definition small_graph : GraphData :=
  mkGraphData "Heat was directed by Michael Mann." "Who directed Heat?"
    "No cypher available"
    [ node "4:abc:1" ["Movie"] [("title", Some "Heat")];
      node "4:abc:2" ["Person"; "Film Director"] [("name", Some "Michael Mann")] ]
    [ relationship "5:abc:1" "DIRECTED" "4:abc:2" "4:abc:1";
      relationship "5:abc:2" "ACTED_IN" "4:abc:3" "4:abc:1" ]
    [] [] [].

(** The primary model answers with blanks and the fallback model is down. *)
Definition blank_primary : Externals unit :=
  externals (inl "Connection error.") parse_empty_object [] true
    (inr [None; Some [Some "  "]]) (inl "Rate limit reached.")
    (inl "Connection error.").

(** The values found under the keys [a], [b], [d] of three result records:
    the second record meets the first node again, the third brings a value
    without [element_id] and a node without properties. *)
Definition two_records : list (option Neo4jAgent.RawNode) :=
  [ Some (Neo4jAgent.mkRawNode (Some "4:abc:1") ["Movie"]
            [("title", Some "Heat"); ("embedding", Some "[0.12, -0.5]")]);
    Some (Neo4jAgent.mkRawNode (Some "4:abc:2") ["Person"]
            [("name", Some "Michael Mann")]);
    None;
    Some (Neo4jAgent.mkRawNode (Some "4:abc:1") ["Movie"]
            [("title", Some "Heat"); ("embedding", Some "[0.12, -0.5]")]);
    Some (Neo4jAgent.mkRawNode None ["Ghost"] [("name", Some "?")]);
    Some (Neo4jAgent.mkRawNode (Some "4:abc:5") ["Movie"] []);
    None ].

(** A sub-graph whose primary list is the export of these records, with a
    supplementary list that brings the first node again and a new one. *)
Definition exported_graph : GraphData :=
  mkGraphData "Heat was directed by Michael Mann." "Who directed Heat?"
    "No cypher available"
    (Neo4jAgent.collect_nodes [] two_records)
    []
    [ node "4:abc:1" ["Movie"] [("title", Some "Heat")];
      node "4:abc:7" ["Genre"] [("name", Some "Crime")] ]
    [] [].

(** A finished plan of a graph task and a free-text task, numbered as the
    planning prompt asks. *)
Definition graph_then_text : dict Task :=
  [ ("task_1",
     mkTask "task_1" "Who directed Heat?" "neo4j_agent" completed
       "Heat was directed by Michael Mann." "2025-01-01T00:00:00" None None
       (Some "Who directed Heat?") (Some small_graph));
    ("task_2",
     mkTask "task_2" "Summarise" "llm_agent" completed "A summary."
       "2025-01-01T00:00:00" None None (Some "Summarise") None) ].

Definition graph_then_text_plan : AgentPlan :=
  mkAgentPlan "Who directed Heat?" "analysis" (values graph_then_text) "strategy"
    "2025-01-01T00:00:00".

Definition default_config : Orchestrator.Config :=
  Orchestrator.mkConfig
    [ ("llm_agent",
       mkAgent "llm_agent" "LLM Agent" "#3F51B5" ["gpt5_search"] true
         "AI-powered search, research and analysis using GPT-5" 2);
      ("neo4j_agent",
       mkAgent "neo4j_agent" "Neo4j Agent" "#F44336" ["graphrag_search"] true
         "Specialized in Neo4j GraphRAG knowledge graph queries and analysis" 6) ]
    false "gpt-4o".

End Mock.

(* ===================================================================== *)
(** * The execution engine never raises *)
(* ===================================================================== *)

Section EngineTotal.
Context {W : Type} (X : Externals W).
Import Orchestrator.

Lemma body_raises_when_planning_raises cfg start query sid hist w e w1 :
  Supervisor.create_plan X (agent_configs cfg) query hist
    (snd (send_supervisor_status X cfg sid "Analyzing query and planning tasks..." w))
  = (Raise e, w1) ->
  process_query_body X cfg start query sid hist w = (Raise e, w1).
Proof.
  intros H. unfold process_query_body, bind at 1.
  destruct (send_supervisor_status X cfg sid _ w) as [o w0] eqn:Hs.
  assert (o = Ret tt) as ->.
  { unfold send_supervisor_status, send in Hs.
    destruct (session_of cfg sid); inversion Hs; reflexivity. }
  cbn [snd] in H. unfold bind at 1. rewrite H. reflexivity.
Qed.

(** C1. [process_query] always returns a response and never raises; when an
    exception escapes the processing, and in particular when plan creation
    raises, the response carries the error text in its answer, has no
    responders and no task details, and [synthesis_applied] is false. *)
Theorem process_query_never_raises cfg query sid hist w :
  exists r w',
    process_query X cfg query sid hist w = (Ret r, w')
    /\ r_query r = query
    /\ (forall e w1,
          process_query_body X cfg (fst (time_time X w)) query sid hist
            (snd (time_time X w)) = (Raise e, w1) ->
          Spec.is_error_response e r)
    /\ (forall e w1,
          Supervisor.create_plan X (agent_configs cfg) query hist
            (snd (send_supervisor_status X cfg sid
                    "Analyzing query and planning tasks..." (snd (time_time X w))))
          = (Raise e, w1) ->
          Spec.is_error_response e r).
Proof.
  unfold process_query, bind, total, try_except.
  destruct (time_time X w) as [start w0] eqn:Ht. cbn [fst snd].
  assert (Hbody: forall r w1,
            process_query_body X cfg start query sid hist w0 = (Ret r, w1) ->
            r_query r = query).
  { intros r w1. unfold process_query_body, bind, total.
    repeat match goal with
           | |- context [match ?c with _ => _ end] =>
               lazymatch c with
               | (_, _) => fail
               | Ret _ => fail
               | Raise _ => fail
               | _ => destruct c eqn:?
               end
           end; intros E; inversion E; reflexivity. }
  destruct (process_query_body X cfg start query sid hist w0) as [[r|e] w1] eqn:Hb.
  - exists r, w1. split; [reflexivity|]. split; [eapply Hbody; reflexivity|].
    split.
    + intros e w2 E. discriminate E.
    + intros e w2 E.
      apply (body_raises_when_planning_raises cfg start) in E.
      rewrite Hb in E. discriminate E.
  - destruct (time_time X w1) as [now w2].
    exists (error_response query e (now - start)), w2.
    split; [reflexivity|]. split; [reflexivity|].
    assert (Spec.is_error_response e (error_response query e (now - start)))
      by (repeat split).
    split.
    + intros e' w3 E. inversion E; subst. assumption.
    + intros e' w3 E.
      apply (body_raises_when_planning_raises cfg start) in E.
      rewrite Hb in E. inversion E; subst. assumption.
Qed.

End EngineTotal.

(** A run in which plan creation raises: the query holds explicit data and
    standard output is closed. *)
Lemma process_query_never_raises_witness :
  exists r w',
    Orchestrator.process_query (Mock.all_down [("x", "5")] false) Mock.default_config
      "x=5, what is x?" None [] tt = (Ret r, w')
    /\ Spec.is_error_response "Broken pipe" r.
Proof.
  destruct (process_query_never_raises (Mock.all_down [("x", "5")] false)
              Mock.default_config "x=5, what is x?" None [] tt)
    as (r & w' & Hrun & _ & _ & Hplan).
  exists r, w'. split; [exact Hrun|].
  apply (Hplan "Broken pipe" tt). reflexivity.
Defined.

(* ===================================================================== *)
(** * The task loop *)
(* ===================================================================== *)

Section EngineLoop.
Context {W : Type} (X : Externals W).
Import Orchestrator.

(** ** The free-text responder never raises *)

Lemma search_returns model query context w :
  exists s w', LLMAgent.search X model query context w = (Ret s, w').
Proof.
  unfold LLMAgent.search, try_except, bind.
  destruct (LLMAgent.ask_models X model _ w) as [[rm|e] w1].
  - unfold total. destruct (now_strftime X w1) as [ts w2].
    do 2 eexists. reflexivity.
  - do 2 eexists. reflexivity.
Qed.

Lemma search_error_text model query context w e w1 :
  LLMAgent.ask_models X model (LLMAgent.full_prompt query context) w = (Raise e, w1) ->
  LLMAgent.search X model query context w = (Ret ("LLM Agent Error: " ++ e), w1).
Proof.
  intros H. unfold LLMAgent.search, try_except, bind. rewrite H. reflexivity.
Qed.

Lemma ask_models_both_fail model prompt w e1 w1 e2 w2 :
  responses_create X model prompt w = (Raise e1, w1) ->
  chat_create X LLMAgent.fallback_model prompt w1 = (Raise e2, w2) ->
  LLMAgent.ask_models X model prompt w
  = (Raise ("Both models failed - GPT-5: " ++ e1 ++ ", GPT-4: " ++ e2), w2).
Proof.
  intros H1 H2. unfold LLMAgent.ask_models, try_except, bind.
  rewrite H1, H2. reflexivity.
Qed.

(** ** One call of [_execute_task] *)

Lemma execute_task_fields cfg t all w tx o w' :
  execute_task X cfg t all w = ((tx, o), w') ->
  id tx = id t /\ description tx = description t /\ agent tx = agent t
  /\ status tx = status t
  /\ actual_input tx = Some (enhanced_input t all).
Proof.
  unfold execute_task. intros H.
  destruct (agents_map_get (agent t)) as [[|]|].
  - destruct (LLMAgent.search X _ _ _ w) as [r w1]. inversion H; subst.
    repeat split.
  - destruct (neo4j_invoke X _ w) as [[[ms slot]|e] w1].
    + destruct ms as [|m ms]; [|destruct slot]; inversion H; subst; repeat split.
    + inversion H; subst. repeat split.
  - inversion H; subst. repeat split.
Qed.

Lemma execute_task_unknown_agent cfg t all w tx o w' :
  execute_task X cfg t all w = ((tx, o), w') ->
  agents_map_get (agent t) = None ->
  o = Raise ("Agent " ++ agent t ++ " not found").
Proof.
  unfold execute_task. intros H Hn. rewrite Hn in H. inversion H; reflexivity.
Qed.

Lemma execute_task_llm cfg t all w tx o w' :
  execute_task X cfg t all w = ((tx, o), w') ->
  agent t = "llm_agent" ->
  exists s, o = Ret s.
Proof.
  unfold execute_task. intros H Ha. rewrite Ha in H. cbn in H.
  destruct (search_returns (llm_model cfg) (enhanced_input t all) EmptyString w)
    as (s & w1 & Hs).
  rewrite Hs in H. inversion H; subst. eauto.
Qed.

Lemma finish_task_fields finished o tx :
  id (finish_task finished o tx) = id tx
  /\ description (finish_task finished o tx) = description tx
  /\ agent (finish_task finished o tx) = agent tx
  /\ actual_input (finish_task finished o tx) = actual_input tx
  /\ completed_at (finish_task finished o tx) = Some finished
  /\ match o with
     | Ret r => status (finish_task finished o tx) = completed
                /\ result (finish_task finished o tx) = r
     | Raise e => status (finish_task finished o tx) = failed
                  /\ result (finish_task finished o tx) = "Task failed: " ++ e
     end.
Proof. destruct o; repeat split. Qed.

(** ** The loop *)

Lemma run_task_step cfg sid plan before k t after w t' w' :
  run_task X cfg sid plan before k t after w = (t', w') ->
  Spec.step X cfg before k t after t'.
Proof.
  unfold run_task. intros H.
  destruct (now_iso X w) as [started w1].
  destruct (send_websocket_update X cfg sid true _ plan w1) as [u1 w2].
  destruct (execute_task X cfg _ _ w2) as [[tx o] w3] eqn:He.
  destruct (now_iso X w3) as [finished w4].
  destruct (send_websocket_update X cfg sid true _ plan w4) as [u2 w5].
  inversion H; subst.
  exists started, finished, tx, o, w2, w3. split; [exact He | reflexivity].
Qed.

Lemma run_tasks_steps cfg sid plan todo :
  forall visited w final w',
    run_tasks X cfg sid plan visited todo w = (final, w') ->
    exists done, final = (visited ++ done)%list /\ Spec.steps X cfg visited todo done.
Proof.
  induction todo as [|[k t] rest IH]; intros visited w final w' H; cbn in H.
  - inversion H; subst. exists []. split; [now rewrite app_nil_r | constructor].
  - destruct (run_task X cfg sid plan visited k t rest w) as [t' w1] eqn:Ht.
    apply IH in H. destruct H as (done & -> & Hs).
    exists ((k, t') :: done). split.
    + now rewrite <- app_assoc.
    + econstructor; [eapply run_task_step; exact Ht | exact Hs].
Qed.

Lemma run_tasks_from_start cfg sid plan tasks0 w :
  Spec.steps X cfg [] tasks0 (fst (run_tasks X cfg sid plan [] tasks0 w)).
Proof.
  destruct (run_tasks X cfg sid plan [] tasks0 w) as [final w'] eqn:H.
  apply run_tasks_steps in H. destruct H as (done & -> & Hs). exact Hs.
Qed.

Lemma steps_keys cfg visited todo done :
  Spec.steps X cfg visited todo done -> Py.keys done = Py.keys todo.
Proof.
  induction 1; cbn; [reflexivity | f_equal; assumption].
Qed.

(** The entry at a position of the outcome had its turn, after the entries
    before it and with the entries after it untouched. *)
Lemma steps_split cfg visited todo done :
  Spec.steps X cfg visited todo done ->
  forall pre k t' post,
    done = (pre ++ (k, t') :: post)%list ->
    exists t0,
      nth_error todo (length pre) = Some (k, t0)
      /\ Spec.step X cfg (visited ++ pre)%list k t0 (skipn (S (length pre)) todo) t'.
Proof.
  induction 1 as [visited | visited k t rest t' done Hstep Hsteps IH];
    intros pre k0 t0' post Hd.
  - destruct pre; discriminate Hd.
  - destruct pre as [|[k1 t1] pre]; cbn in Hd; inversion Hd; subst.
    + exists t. split; [reflexivity|]. cbn. rewrite app_nil_r. exact Hstep.
    + destruct (IH pre k0 t0' post eq_refl) as (t0 & Hn & Hst).
      exists t0. split; [exact Hn|].
      cbn. rewrite <- app_assoc in Hst. exact Hst.
Qed.

Lemma step_terminal cfg visited k t rest t' :
  Spec.step X cfg visited k t rest t' -> Spec.terminal t'.
Proof.
  intros (started & finished & tx & o & wk & wk' & He & ->).
  apply execute_task_fields in He. destruct He as (_ & _ & _ & _ & Hin).
  destruct (finish_task_fields finished o tx) as (_ & _ & _ & Ha & Hc & Ho).
  unfold Spec.terminal. rewrite Ha, Hin, Hc.
  split; [|split; discriminate].
  destruct o; [left | right]; apply Ho.
Qed.

Lemma steps_terminal cfg visited todo done :
  Spec.steps X cfg visited todo done -> Forall Spec.terminal (Py.values done).
Proof.
  induction 1; cbn; constructor; eauto using step_terminal.
Qed.

Lemma step_unknown_agent cfg visited k t rest t' :
  Spec.step X cfg visited k t rest t' ->
  agents_map_get (agent t') = None ->
  status t' = failed
  /\ result t' = "Task failed: Agent " ++ agent t' ++ " not found".
Proof.
  intros (started & finished & tx & o & wk & wk' & He & ->) Hn.
  pose proof (execute_task_fields _ _ _ _ _ _ _ He) as (_ & _ & Hag & _ & _).
  destruct (finish_task_fields finished o tx) as (_ & _ & Ha & _ & _ & Ho).
  rewrite Ha, Hag in Hn |- *. cbn in Hn.
  apply execute_task_unknown_agent in He; [|exact Hn]. subst o.
  cbn in Ho. exact Ho.
Qed.

Lemma step_llm_completed cfg visited k t rest t' :
  Spec.step X cfg visited k t rest t' ->
  agent t' = "llm_agent" ->
  status t' = completed.
Proof.
  intros (started & finished & tx & o & wk & wk' & He & ->) Hl.
  pose proof (execute_task_fields _ _ _ _ _ _ _ He) as (_ & _ & Hag & _ & _).
  destruct (finish_task_fields finished o tx) as (_ & _ & Ha & _ & _ & Ho).
  rewrite Ha, Hag in Hl. cbn in Hl.
  apply execute_task_llm in He; [|exact Hl]. destruct He as (s & ->).
  apply Ho.
Qed.

Lemma steps_in cfg visited todo done :
  Spec.steps X cfg visited todo done ->
  forall k t', In (k, t') done ->
  exists v t rest, Spec.step X cfg v k t rest t'.
Proof.
  induction 1 as [| visited k t rest t' done Hstep Hsteps IH]; intros k0 t0 Hin.
  - destruct Hin.
  - destruct Hin as [E | Hin].
    + inversion E; subst. eauto.
    + eauto.
Qed.

(** The call of the graph responder inside [_execute_task]. *)
Lemma execute_task_graph cfg t all w tx o w' :
  execute_task X cfg t all w = ((tx, o), w') ->
  agents_map_get (agent t) = Some Neo4j ->
  match neo4j_invoke X (enhanced_input t all) w with
  | (Raise e, w1) => o = Raise e /\ w' = w1
  | (Ret (messages, _), w1) =>
      o = Ret (match messages with
               | [] => "No response from Neo4j agent"
               | m :: ms => List.last ms m
               end)
      /\ w' = w1
  end.
Proof.
  unfold execute_task. intros H Hg. rewrite Hg in H.
  destruct (neo4j_invoke X (enhanced_input t all) w) as [[[ms slot]|e] w1].
  - destruct ms as [|m ms]; inversion H; subst; split; reflexivity.
  - inversion H; subst. split; reflexivity.
Qed.

(** The call of the free-text responder inside [_execute_task]. *)
Lemma execute_task_text cfg t all w tx o w' :
  execute_task X cfg t all w = ((tx, o), w') ->
  agents_map_get (agent t) = Some LLM ->
  LLMAgent.search X (llm_model cfg) (enhanced_input t all) EmptyString w = (o, w').
Proof.
  unfold execute_task. intros H Hl. rewrite Hl in H.
  destruct (LLMAgent.search X (llm_model cfg) (enhanced_input t all) EmptyString w)
    as [r w1].
  inversion H; subst. reflexivity.
Qed.

(** A turn of the loop for a task of the graph responder: the responder is
    called on the input the task is left with, and the task ends by what
    that call gave. *)
Lemma step_graph cfg visited k t rest t' :
  Spec.step X cfg visited k t rest t' ->
  agents_map_get (agent t') = Some Neo4j ->
  exists input w_k,
    actual_input t' = Some input
    /\ match fst (neo4j_invoke X input w_k) with
       | Raise e => status t' = failed /\ result t' = "Task failed: " ++ e
       | Ret (messages, _) =>
           status t' = completed
           /\ result t' = match messages with
                          | [] => "No response from Neo4j agent"
                          | m :: ms => List.last ms m
                          end
       end.
Proof.
  intros (started & finished & tx & o & wk & wk' & He & ->) Hg.
  pose proof (execute_task_fields _ _ _ _ _ _ _ He) as (_ & _ & Hag & _ & Hin).
  destruct (finish_task_fields finished o tx) as (_ & _ & Ha & Hai & _ & Ho).
  rewrite Ha, Hag in Hg.
  apply execute_task_graph in He; [|exact Hg].
  eexists _, wk. split; [rewrite Hai; exact Hin|].
  destruct (neo4j_invoke X _ wk) as [[[ms slot]|e] w1]; cbn [fst];
    destruct He as [-> _]; exact Ho.
Qed.

(** A turn of the loop for a task of the free-text responder: the task ends
    completed, with the text the search returned for the input the task is
    left with. *)
Lemma step_text cfg visited k t rest t' :
  Spec.step X cfg visited k t rest t' ->
  agents_map_get (agent t') = Some LLM ->
  exists input w_k s w_k',
    actual_input t' = Some input
    /\ LLMAgent.search X (llm_model cfg) input EmptyString w_k = (Ret s, w_k')
    /\ status t' = completed
    /\ result t' = s.
Proof.
  intros (started & finished & tx & o & wk & wk' & He & ->) Hl.
  pose proof (execute_task_fields _ _ _ _ _ _ _ He) as (_ & _ & Hag & _ & Hin).
  destruct (finish_task_fields finished o tx) as (_ & _ & Ha & Hai & _ & Ho).
  rewrite Ha, Hag in Hl.
  apply execute_task_text in He; [|exact Hl].
  destruct (search_returns (llm_model cfg) (enhanced_input
              (set_started_at started (set_status running t))
              (visited ++ (k, set_started_at started (set_status running t)) :: rest)%list)
              EmptyString wk) as (s & w1 & Hs).
  rewrite He in Hs. inversion Hs; subst o wk'.
  eexists _, wk, s, w1. split; [rewrite Hai; exact Hin|].
  split; [exact He|]. exact Ho.
Qed.

(** C4. Whatever happens to one task, the loop gives every entry of the task
    map its turn: the map keeps its keys, every task ends completed or
    failed, and the task at each position was handed to [_execute_task] and
    is failed with the text of the error when that call raised. A task whose
    agent is not in the responder registry ends failed, with the text of the
    error raised for it. A task of the graph responder is decided by the
    call of that responder on the task's input: when the call raises, the
    task ends failed and its result is the text of the raised error behind
    [Task failed: ]; when it returns, the task ends completed with the last
    message. In particular, with a graph responder that raises one error on
    every call, every task routed to it ends failed with that error, and the
    tasks after it are run all the same. *)
Theorem failed_task_does_not_abort_plan cfg sid plan tasks0 w :
  let final := fst (run_tasks X cfg sid plan [] tasks0 w) in
  Py.keys final = Py.keys tasks0
  /\ Forall Spec.terminal (Py.values final)
  /\ (forall pre k t post,
        final = (pre ++ (k, t) :: post)%list ->
        exists t0 started task_x outcome w_k w_k',
          nth_error tasks0 (length pre) = Some (k, t0)
          /\ execute_task X cfg
               (set_started_at started (set_status running t0))
               (pre ++ (k, set_started_at started (set_status running t0))
                    :: skipn (S (length pre)) tasks0)%list
               w_k
             = ((task_x, outcome), w_k')
          /\ match outcome with
             | Raise e => status t = failed /\ result t = "Task failed: " ++ e
             | Ret r => status t = completed /\ result t = r
             end)
  /\ (forall k t,
        In (k, t) final ->
        agents_map_get (agent t) = None ->
        status t = failed
        /\ result t = "Task failed: Agent " ++ agent t ++ " not found")
  /\ (forall k t,
        In (k, t) final ->
        agents_map_get (agent t) = Some Neo4j ->
        exists input w_k,
          actual_input t = Some input
          /\ match fst (neo4j_invoke X input w_k) with
             | Raise e => status t = failed /\ result t = "Task failed: " ++ e
             | Ret (messages, _) =>
                 status t = completed
                 /\ result t = match messages with
                                | [] => "No response from Neo4j agent"
                                | m :: ms => List.last ms m
                                end
             end)
  /\ (forall e,
        (forall input w0, exists w1, neo4j_invoke X input w0 = (Raise e, w1)) ->
        forall k t,
          In (k, t) final ->
          agents_map_get (agent t) = Some Neo4j ->
          status t = failed /\ result t = "Task failed: " ++ e).
Proof.
  intros final. pose proof (run_tasks_from_start cfg sid plan tasks0 w) as Hs.
  fold final in Hs.
  split; [eapply steps_keys; exact Hs|].
  split; [eapply steps_terminal; exact Hs|].
  split; [|split; [|split]].
  - intros pre k t post Hf.
    destruct (steps_split _ _ _ _ Hs pre k t post Hf) as (t0 & Hn & Hst).
    destruct Hst as (started & finished & tx & o & wk & wk' & He & ->).
    exists t0, started, tx, o, wk, wk'.
    split; [exact Hn|]. split; [exact He|].
    destruct (finish_task_fields finished o tx) as (_ & _ & _ & _ & _ & Ho).
    destruct o; exact Ho.
  - intros k t Hin Hn.
    destruct (steps_in _ _ _ _ Hs k t Hin) as (v & t0 & rest & Hst).
    eapply step_unknown_agent; eassumption.
  - intros k t Hin Hg.
    destruct (steps_in _ _ _ _ Hs k t Hin) as (v & t0 & rest & Hst).
    eapply step_graph; eassumption.
  - intros e Hdown k t Hin Hg.
    destruct (steps_in _ _ _ _ Hs k t Hin) as (v & t0 & rest & Hst).
    destruct (step_graph _ _ _ _ _ _ Hst Hg) as (input & wk & _ & Hr).
    destruct (Hdown input wk) as [w1 Hraise]. rewrite Hraise in Hr. exact Hr.
Qed.

(** C10. The search of the free-text responder always returns a text and
    never raises; when its model calls fail, the text is the error message.
    So, in the task loop, every task routed to [llm_agent] ends completed and
    never failed, and its result is the text the search returned for the
    input the task was given: the error message, when the model calls
    failed. *)
Theorem llm_agent_task_is_always_completed cfg sid plan tasks0 w :
  (forall model query context w0,
      exists s w1,
        LLMAgent.search X model query context w0 = (Ret s, w1)
        /\ (forall e w2,
              LLMAgent.ask_models X model (LLMAgent.full_prompt query context) w0
              = (Raise e, w2) ->
              s = "LLM Agent Error: " ++ e))
  /\ (forall t all w0,
        agent t = "llm_agent" ->
        exists tx s w1, execute_task X cfg t all w0 = ((tx, Ret s), w1))
  /\ (forall k t,
        In (k, t) (fst (run_tasks X cfg sid plan [] tasks0 w)) ->
        agent t = "llm_agent" ->
        status t = completed)
  /\ (forall k t,
        In (k, t) (fst (run_tasks X cfg sid plan [] tasks0 w)) ->
        agent t = "llm_agent" ->
        exists input w_k s w_k',
          actual_input t = Some input
          /\ LLMAgent.search X (llm_model cfg) input EmptyString w_k = (Ret s, w_k')
          /\ status t = completed
          /\ result t = s
          /\ (forall e w2,
                LLMAgent.ask_models X (llm_model cfg)
                  (LLMAgent.full_prompt input EmptyString) w_k = (Raise e, w2) ->
                result t = "LLM Agent Error: " ++ e)).
Proof.
  split; [|split; [|split]].
  - intros model query context w0.
    destruct (search_returns model query context w0) as (s & w1 & Hs).
    exists s, w1. split; [exact Hs|].
    intros e w2 He. rewrite (search_error_text _ _ _ _ _ _ He) in Hs.
    inversion Hs; reflexivity.
  - intros t all w0 Ha.
    destruct (execute_task X cfg t all w0) as [[tx o] w1] eqn:He.
    destruct (execute_task_llm _ _ _ _ _ _ _ He Ha) as (s & ->). eauto.
  - intros k t Hin Ha.
    pose proof (run_tasks_from_start cfg sid plan tasks0 w) as Hs.
    destruct (steps_in _ _ _ _ Hs k t Hin) as (v & t0 & rest & Hst).
    eapply step_llm_completed; eassumption.
  - intros k t Hin Ha.
    pose proof (run_tasks_from_start cfg sid plan tasks0 w) as Hs.
    destruct (steps_in _ _ _ _ Hs k t Hin) as (v & t0 & rest & Hst).
    assert (Hl: agents_map_get (agent t) = Some LLM) by (rewrite Ha; reflexivity).
    destruct (step_text _ _ _ _ _ _ Hst Hl) as (input & wk & s & wk' & Hi & Hsrch & Hc & Hr).
    exists input, wk, s, wk'. repeat split; try assumption.
    intros e w2 He. rewrite (search_error_text _ _ _ _ _ _ He) in Hsrch.
    assert (E: "LLM Agent Error: " ++ e = s) by (inversion Hsrch; reflexivity).
    rewrite Hr. symmetry. exact E.
Qed.

End EngineLoop.

(* ===================================================================== *)
(** * What a task is given as input *)
(* ===================================================================== *)

Section EngineInput.
Context {W : Type} (X : Externals W).
Import Orchestrator.

Lemma status_eqb_completed t :
  status_eqb (status t) completed = true <-> status t = completed.
Proof. destruct (status t); cbn; split; congruence. Qed.

Lemma context_lines_start p ps :
  exists s, Spec.context_lines (p :: ps) = String "010"%char s.
Proof.
  unfold Spec.context_lines. cbn [map String.concat].
  destruct (map _ ps); eexists; reflexivity.
Qed.

(** The context of a task holds the results of the completed entries before
    it and nothing else, when no entry before it has its key, the task is
    not completed, and no entry after it is completed. *)
Lemma context_from_previous_tasks_spec task pre rest :
  ~ In (id task) (Py.keys pre) ->
  status task <> completed ->
  Forall (fun kv => status (snd kv) <> completed) rest ->
  context_from_previous_tasks task (pre ++ (id task, task) :: rest)%list
  = Spec.context_lines (Spec.completed_tasks pre).
Proof.
  intros Hk Hs Hrest. unfold context_from_previous_tasks, Spec.context_lines,
    Spec.completed_tasks. f_equal.
  rewrite filter_app. cbn [filter snd fst].
  replace (status_eqb (status task) completed) with false
    by (symmetry; apply not_true_is_false; rewrite status_eqb_completed; exact Hs).
  cbn [andb].
  replace (filter _ rest) with (@nil (string * Task)).
  2:{ symmetry. induction Hrest as [|kv rest Hkv _ IH]; [reflexivity|].
      cbn. rewrite IH.
      replace (status_eqb (status (snd kv)) completed) with false; [reflexivity|].
      symmetry; apply not_true_is_false; rewrite status_eqb_completed; exact Hkv. }
  rewrite app_nil_r.
  induction pre as [|[k t] pre IH]; [reflexivity|].
  cbn [filter map snd fst Py.values].
  assert (Hne: String.eqb k (id task) = false).
  { apply String.eqb_neq. intros ->. apply Hk. left. reflexivity. }
  rewrite Hne. cbn [negb]. rewrite andb_true_r.
  unfold Supervisor.is_completed.
  assert (IH': ~ In (id task) (Py.keys pre)) by (intros H; apply Hk; right; exact H).
  specialize (IH IH').
  destruct (status_eqb (status t) completed); cbn [map snd]; [f_equal|]; exact IH.
Qed.

Lemma enhanced_input_spec task pre rest :
  ~ In (id task) (Py.keys pre) ->
  status task <> completed ->
  Forall (fun kv => status (snd kv) <> completed) rest ->
  enhanced_input task (pre ++ (id task, task) :: rest)%list
  = Spec.input_with_context (description task) (Spec.completed_tasks pre).
Proof.
  intros Hk Hs Hrest. unfold enhanced_input.
  rewrite context_from_previous_tasks_spec by assumption.
  unfold Spec.input_with_context.
  destruct (Spec.completed_tasks pre) as [|p ps]; [reflexivity|].
  destruct (context_lines_start p ps) as (s & ->). reflexivity.
Qed.

Lemma Forall_skipn_keep {A} (P : A -> Prop) n (l : list A) :
  Forall P l -> Forall P (skipn n l).
Proof.
  intros H. revert n. induction H; intros [|n]; cbn; auto.
Qed.

(** C2. For a task map with distinct keys whose tasks are keyed by their id
    and none of which is completed before the loop starts, the input
    recorded for the task at each position is its original description,
    followed, when some task before it completed, by the context block made
    of the results of exactly the tasks before it that completed, in order:
    no failed task and no later task contributes to it. *)
Theorem actual_input_is_description_plus_earlier_results cfg sid plan tasks0 w :
  NoDup (Py.keys tasks0) ->
  Forall (fun kv => fst kv = id (snd kv) /\ status (snd kv) <> completed) tasks0 ->
  forall pre k t post,
    fst (run_tasks X cfg sid plan [] tasks0 w) = (pre ++ (k, t) :: post)%list ->
    exists t0,
      nth_error tasks0 (length pre) = Some (k, t0)
      /\ description t = description t0
      /\ actual_input t
         = Some (Spec.input_with_context (description t0) (Spec.completed_tasks pre)).
Proof.
  intros Hnd Hall pre k t post Hf.
  pose proof (run_tasks_from_start X cfg sid plan tasks0 w) as Hs.
  pose proof (steps_keys X _ _ _ _ Hs) as Hkeys.
  destruct (steps_split X _ _ _ _ Hs pre k t post Hf) as (t0 & Hn & Hst).
  rewrite Hf in Hkeys. unfold Py.keys in Hkeys, Hnd.
  rewrite map_app in Hkeys. cbn [map fst] in Hkeys.
  rewrite <- Hkeys in Hnd. apply NoDup_remove_2 in Hnd.
  assert (Hpre: ~ In k (Py.keys pre)).
  { intros Hin. apply Hnd. apply in_or_app. left. exact Hin. }
  assert (Hin0: In (k, t0) tasks0) by (eapply nth_error_In; exact Hn).
  rewrite Forall_forall in Hall.
  destruct (Hall _ Hin0) as [Hid Hst0]. cbn [fst snd] in Hid, Hst0.
  destruct Hst as (started & finished & tx & o & wk & wk' & He & ->).
  cbn [app] in He.
  pose proof (execute_task_fields X _ _ _ _ _ _ _ He) as (_ & Hd & _ & _ & Hin).
  destruct (finish_task_fields finished o tx) as (_ & Hd' & _ & Ha & _ & _).
  exists t0. split; [exact Hn|]. split; [rewrite Hd', Hd; reflexivity|].
  rewrite Ha, Hin. f_equal.
  set (task_r := set_started_at started (set_status running t0)) in *.
  assert (Hidr: k = id task_r) by exact Hid.
  rewrite Hidr.
  rewrite enhanced_input_spec.
  - reflexivity.
  - rewrite <- Hidr. exact Hpre.
  - cbn. discriminate.
  - apply Forall_skipn_keep. apply Forall_forall. intros kv Hkv.
    apply (Hall kv Hkv).
Qed.

(** ** The task map of a plan meets these conditions *)

Lemma dict_set_keys_in {V} k (v : V) d k' :
  In k' (map fst (Py.dict_set k v d)) <-> k' = k \/ In k' (map fst d).
Proof.
  induction d as [|[k1 v1] d IH]; cbn.
  - intuition.
  - destruct (String.eqb_spec k k1) as [->|Hne]; cbn.
    + intuition.
    + rewrite IH. intuition.
Qed.

Lemma dict_set_nodup {V} k (v : V) d :
  NoDup (map fst d) -> NoDup (map fst (Py.dict_set k v d)).
Proof.
  induction d as [|[k1 v1] d IH]; cbn; intros H.
  - constructor; [intros []|constructor].
  - destruct (String.eqb_spec k k1) as [->|Hne]; cbn; [exact H|].
    inversion H; subst. constructor; [|auto].
    rewrite dict_set_keys_in. intros [E|E]; [congruence | contradiction].
Qed.

Lemma dict_set_values_in {V} k (v : V) d kv :
  In kv (Py.dict_set k v d) -> kv = (k, v) \/ In kv d.
Proof.
  induction d as [|[k1 v1] d IH]; cbn.
  - intuition.
  - destruct (String.eqb_spec k k1) as [->|Hne]; cbn; intuition.
Qed.

Lemma dict_of_list_spec {V} (key : V -> string) (l : list V) :
  NoDup (Py.keys (Py.dict_of_list key l))
  /\ (forall kv, In kv (Py.dict_of_list key l) ->
                 fst kv = key (snd kv) /\ In (snd kv) l).
Proof.
  unfold Py.dict_of_list.
  assert (G: forall d,
             NoDup (Py.keys d) ->
             (forall kv, In kv d -> fst kv = key (snd kv)) ->
             let d' := fold_left (fun d x => Py.dict_set (key x) x d) l d in
             NoDup (Py.keys d')
             /\ (forall kv, In kv d' ->
                            fst kv = key (snd kv) /\ (In kv d \/ In (snd kv) l))).
  { induction l as [|x l IH]; intros d Hnd Hk; cbn.
    - split; [exact Hnd|]. intros kv Hin. split; [auto | left; exact Hin].
    - destruct (IH (Py.dict_set (key x) x d)) as [H1 H2].
      + apply dict_set_nodup; exact Hnd.
      + intros kv Hin. apply dict_set_values_in in Hin.
        destruct Hin as [->|Hin]; [reflexivity | auto].
      + split; [exact H1|]. intros kv Hin.
        destruct (H2 kv Hin) as [E [Hin'|Hin']]; split; auto.
        apply dict_set_values_in in Hin'.
        destruct Hin' as [->|Hin']; [right; left; reflexivity | left; exact Hin']. }
  destruct (G [] (NoDup_nil _) (fun _ H => match H with end)) as [H1 H2].
  split; [exact H1|]. intros kv Hin.
  destruct (H2 kv Hin) as [E [[]|Hin']]; auto.
Qed.

Lemma new_task_pending i d a w t w' :
  new_task X i d a w = (Ret t, w') -> status t = pending.
Proof.
  unfold new_task, bind, total. destruct (now_iso X w). intros H.
  inversion H; reflexivity.
Qed.

Lemma build_tasks_pending entries :
  forall w ts w',
    Supervisor.build_tasks X entries w = (Ret ts, w') ->
    Forall (fun t => status t = pending) ts.
Proof.
  induction entries as [|e entries IH]; intros w ts w' H; cbn in H.
  - inversion H; constructor.
  - unfold bind at 1 in H. unfold lift in H.
    destruct (Supervisor.task_fields e) as [err|f]; [discriminate H|].
    cbn in H. unfold bind at 1 in H.
    destruct (new_task X _ _ _ w) as [[t|err] w1] eqn:Ht; [|discriminate H].
    unfold bind at 1 in H.
    destruct (Supervisor.build_tasks X entries w1) as [[more|err] w2] eqn:Hm;
      [|discriminate H].
    inversion H; subst. constructor.
    + eapply new_task_pending; exact Ht.
    + eapply IH; exact Hm.
Qed.

(** Every task of a plan [create_plan] returns is pending. *)
Lemma create_plan_tasks_pending agent_configs query hist w plan w' :
  Supervisor.create_plan X agent_configs query hist w = (Ret plan, w') ->
  Forall (fun t => status t = pending) (tasks plan).
Proof.
  unfold Supervisor.create_plan, bind at 1.
  destruct (Supervisor.announce_data X query w) as [[u|e] w0]; [|discriminate].
  unfold try_except.
  destruct (Supervisor.plan_from_reply X query _ w0) as [[p|e] w1] eqn:Hp.
  - intros H; inversion H; subst. clear H.
    unfold Supervisor.plan_from_reply in Hp.
    repeat (unfold bind at 1 in Hp;
            match type of Hp with
            | context [match ?c with _ => _ end] =>
                destruct c as [[?|?] ?] eqn:?; [|discriminate Hp]
            end).
    cbn in Hp. inversion Hp; subst. cbn.
    eapply build_tasks_pending; eassumption.
  - unfold Supervisor.fallback_plan, bind at 1.
    destruct (new_task X _ _ _ w1) as [[t|e'] w2] eqn:Ht; [|discriminate].
    unfold bind, total. destruct (now_iso X w2). intros H; inversion H; subst.
    cbn. constructor; [|constructor]. eapply new_task_pending; exact Ht.
Qed.

(** The task map [process_query] builds from such a plan meets the
    conditions of the statement on [actual_input]. *)
Lemma plan_task_map_conditions (ts : list Task) :
  Forall (fun t => status t = pending) ts ->
  NoDup (Py.keys (Py.dict_of_list id ts))
  /\ Forall (fun kv => fst kv = id (snd kv) /\ status (snd kv) <> completed)
       (Py.dict_of_list id ts).
Proof.
  intros Hp. destruct (dict_of_list_spec id ts) as [H1 H2].
  split; [exact H1|]. apply Forall_forall. intros kv Hin.
  destruct (H2 kv Hin) as [E Hin']. split; [exact E|].
  rewrite Forall_forall in Hp. rewrite (Hp _ Hin'). discriminate.
Qed.

End EngineInput.

(** A run of three tasks in which the second fails: the input of the third
    holds the result of the first and nothing of the second. *)
Lemma actual_input_is_description_plus_earlier_results_witness :
  let final :=
    fst (Orchestrator.run_tasks (Mock.llm_up "Paris.") Mock.default_config None
           Mock.three_task_plan [] Mock.three_tasks tt) in
  NoDup (Py.keys Mock.three_tasks)
  /\ Forall (fun kv => fst kv = id (snd kv) /\ status (snd kv) <> completed)
       Mock.three_tasks
  /\ exists t0,
       nth_error Mock.three_tasks 2 = Some ("task_3", t0)
       /\ description (snd (nth 2 final ("", t0))) = description t0
       /\ actual_input (snd (nth 2 final ("", t0)))
          = Some (Spec.input_with_context (description t0)
                    (Spec.completed_tasks (firstn 2 final))).
Proof.
  intros final.
  assert (Hnd: NoDup (Py.keys Mock.three_tasks)).
  { repeat constructor; cbn; intuition discriminate. }
  assert (Hall: Forall (fun kv => fst kv = id (snd kv) /\ status (snd kv) <> completed)
                  Mock.three_tasks).
  { repeat constructor; cbn; discriminate. }
  split; [exact Hnd|]. split; [exact Hall|].
  destruct (actual_input_is_description_plus_earlier_results
              (Mock.llm_up "Paris.") Mock.default_config None Mock.three_task_plan
              Mock.three_tasks tt Hnd Hall
              (firstn 2 final) "task_3"
              (snd (nth 2 final ("", Mock.pending_task "" "" ""))) []
              eq_refl)
    as (t0 & Hn & Hd & Ha).
  exists t0. split; [exact Hn|]. split; [exact Hd | exact Ha].
Defined.

(* ===================================================================== *)
(** * The supervisor: synthesis and the planning fallback *)
(* ===================================================================== *)

Section SupervisorFacts.
Context {W : Type} (X : Externals W).
Import Supervisor.

Lemma filter_idempotent {A} (f : A -> bool) (l : list A) :
  filter f (filter f l) = filter f l.
Proof.
  induction l as [|a l IH]; cbn; [reflexivity|].
  destruct (f a) eqn:E; cbn; [rewrite E; f_equal|]; exact IH.
Qed.

Lemma completed_tasks_values (tasks : Py.dict Task) :
  Py.values (filter (fun kv => is_completed (snd kv)) tasks)
  = Spec.completed_tasks tasks.
Proof.
  unfold Spec.completed_tasks, Py.values.
  induction tasks as [|[k t] tasks IH]; cbn; [reflexivity|].
  destruct (is_completed t); cbn; [f_equal|]; exact IH.
Qed.

Lemma result_lines_of_completed (tasks : Py.dict Task) :
  map (fun kv => result_line (snd kv)) (filter (fun kv => is_completed (snd kv)) tasks)
  = map result_line (Spec.completed_tasks tasks).
Proof.
  rewrite <- completed_tasks_values. unfold Py.values. now rewrite map_map.
Qed.

(** C5. [synthesize_results] depends on the completed tasks only; without
    any completed task, and so when every task failed, it returns the fixed
    apology; and when the Completion Service call raises it returns the lines
    ["**<Agent>**: <result>"] of the completed tasks, in their order, joined
    by a blank line. *)
Theorem synthesize_results_spec (tasks : Py.dict Task) (query : string) (w : W) :
  synthesize_results X tasks query w
  = synthesize_results X (filter (fun kv => is_completed (snd kv)) tasks) query w
  /\ (Spec.completed_tasks tasks = [] ->
      synthesize_results X tasks query w
      = (Ret "I apologize, but I wasn't able to complete any tasks to answer your query.",
         w))
  /\ (Forall (fun kv => status (snd kv) = failed) tasks ->
      synthesize_results X tasks query w
      = (Ret "I apologize, but I wasn't able to complete any tasks to answer your query.",
         w))
  /\ (forall e w',
        Spec.completed_tasks tasks <> [] ->
        model_invoke X
          (synthesis_prompt (map result_line (Spec.completed_tasks tasks)) query) w
        = (Raise e, w') ->
        synthesize_results X tasks query w
        = (Ret (Py.join (Py.nl ++ Py.nl)
                  (map (fun t => "**" ++ display_name (agent t) ++ "**: " ++ result t)
                       (Spec.completed_tasks tasks))),
           w')).
Proof.
  assert (Hnone: Spec.completed_tasks tasks = [] ->
                 synthesize_results X tasks query w = (Ret apology, w)).
  { intros H. unfold synthesize_results.
    destruct (filter (fun kv => is_completed (snd kv)) tasks) as [|kv l] eqn:E;
      [reflexivity|].
    rewrite <- completed_tasks_values, E in H. discriminate H. }
  split; [|split; [|split]].
  - unfold synthesize_results. rewrite filter_idempotent. reflexivity.
  - exact Hnone.
  - intros Hall. apply Hnone. clear Hnone. unfold Spec.completed_tasks, Py.values.
    induction Hall as [|kv l Hkv _ IH]; [reflexivity|].
    cbn. unfold is_completed at 1. rewrite Hkv. cbn. exact IH.
  - intros e w' Hne Hinv. unfold synthesize_results.
    rewrite result_lines_of_completed, completed_tasks_values.
    destruct (filter (fun kv => is_completed (snd kv)) tasks) as [|kv l] eqn:E.
    + rewrite <- completed_tasks_values, E in Hne. now contradiction Hne.
    + unfold try_except, bind. rewrite Hinv. reflexivity.
Qed.

(** ** The planning fallback *)

Lemma new_task_returns i d a w :
  new_task X i d a w
  = (Ret (mkTask i d a pending EmptyString (fst (now_iso X w)) None None None None),
     snd (now_iso X w)).
Proof.
  unfold new_task, bind, total, ret. destruct (now_iso X w). reflexivity.
Qed.

Lemma fallback_plan_returns agent_configs query w :
  exists plan w',
    fallback_plan X agent_configs query w = (Ret plan, w')
    /\ Spec.is_fallback_plan agent_configs query plan.
Proof.
  unfold fallback_plan, bind at 1. rewrite new_task_returns.
  unfold bind, total, ret. destruct (now_iso X (snd (now_iso X w))) as [ts' w2].
  do 2 eexists. split; [reflexivity|].
  eexists. split; [reflexivity|]. split; [reflexivity|]. split; [reflexivity|].
  cbn. unfold fallback_agent.
  set (enabled := map agent_id (get_enabled_agents agent_configs)).
  destruct (Py.mem "llm_agent" enabled) eqn:E.
  - split; [reflexivity|]. intros Hn. exfalso. apply Hn.
    unfold Py.mem in E. apply existsb_exists in E. destruct E as (x & Hin & Hx).
    apply String.eqb_eq in Hx. subst x. exact Hin.
  - split.
    + intros Hin. exfalso.
      assert (Py.mem "llm_agent" enabled = true); [|congruence].
      unfold Py.mem. apply existsb_exists. exists "llm_agent".
      split; [exact Hin | apply String.eqb_refl].
    + intros _. destruct enabled; reflexivity.
Qed.

Lemma task_fields_needs_keys j f :
  task_fields j = inr f -> Spec.entry_has_keys j = true.
Proof.
  unfold task_fields, Spec.entry_has_keys, json_item, Py.dict_mem.
  destruct j; try discriminate.
  destruct (Py.dict_get "id" members); [|discriminate].
  destruct (Py.dict_get "description" members); [|discriminate].
  destruct (Py.dict_get "agent" members); [|discriminate].
  reflexivity.
Qed.

Lemma build_tasks_raises entries :
  forallb Spec.entry_has_keys entries = false ->
  forall w, exists e w', build_tasks X entries w = (Raise e, w').
Proof.
  induction entries as [|j entries IH]; [discriminate|].
  intros H w. cbn [build_tasks]. unfold bind at 1, lift.
  destruct (task_fields j) as [e|f] eqn:Hf.
  - do 2 eexists. reflexivity.
  - apply task_fields_needs_keys in Hf. cbn in H. rewrite Hf in H. cbn in H.
    cbn. unfold bind at 1.
    destruct (new_task X _ _ _ w) as [[t|e] w1]; [|do 2 eexists; reflexivity].
    unfold bind at 1.
    destruct (IH H w1) as (e & w2 & ->). do 2 eexists. reflexivity.
Qed.

Lemma unreadable_reply_raises query prompt w reply w1 j :
  model_invoke X prompt w = (Ret reply, w1) ->
  json_loads X (strip_code_fence (Py.strip reply)) = inr j ->
  Spec.unreadable j = true ->
  exists e w2, plan_from_reply X query prompt w = (Raise e, w2).
Proof.
  intros Hinv Hparse Hbad. unfold plan_from_reply, bind at 1. rewrite Hinv.
  unfold bind at 1. rewrite Hparse. cbn [lift ret].
  destruct j as [| b | n | s | l | m]; try (do 2 eexists; reflexivity).
  unfold bind at 1. cbn [json_get lift ret].
  cbn [Spec.unreadable] in Hbad.
  destruct (Py.dict_get "tasks" m) as [tl|]; [|discriminate Hbad].
  destruct tl as [| b | n | s | l | ms]; try (do 2 eexists; reflexivity).
  - destruct s; [discriminate Hbad|].
    unfold bind at 1. cbn. do 2 eexists. reflexivity.
  - apply negb_true_iff in Hbad.
    unfold bind at 1. cbn [json_iter lift ret].
    unfold bind at 1.
    destruct (build_tasks_raises l Hbad w1) as (e & w2 & ->).
    do 2 eexists. reflexivity.
  - destruct ms as [|[k v] ms]; [discriminate Hbad|].
    unfold bind at 1. cbn. do 2 eexists. reflexivity.
Qed.

Lemma planning_failure_raises query prompt w :
  Spec.planning_failure X prompt w ->
  exists e w1, plan_from_reply X query prompt w = (Raise e, w1).
Proof.
  intros [e w1 H | reply w1 e H Hp | reply w1 j H Hp Hbad].
  - unfold plan_from_reply, bind at 1. rewrite H. do 2 eexists. reflexivity.
  - unfold plan_from_reply, bind at 1. rewrite H.
    unfold bind at 1. rewrite Hp. do 2 eexists. reflexivity.
  - eapply unreadable_reply_raises; eassumption.
Qed.

(** C3, as the code has it. When the print of the explicit data returns,
    [create_plan] returns the single-task fallback plan, without raising,
    whenever the Completion Service raises, its reply does not parse as JSON,
    or the parsed reply is not an object or has a [tasks] value that cannot
    be iterated or yields an entry that is not an object with the keys [id],
    [description] and [agent]: one pending task, described by
    ["Handle query: "] followed by the query, routed to [llm_agent] when it
    is enabled and else to the first enabled agent. A reply that is an object
    without [tasks] is read as a plan without tasks. *)
Theorem create_plan_falls_back_when_reply_unreadable agent_configs query hist w w0 :
  announce_data X query w = (Ret tt, w0) ->
  (Spec.planning_failure X (planning_prompt X agent_configs query hist) w0 ->
   exists plan w2,
     create_plan X agent_configs query hist w = (Ret plan, w2)
     /\ Spec.is_fallback_plan agent_configs query plan)
  /\ (forall reply w1 m,
        model_invoke X (planning_prompt X agent_configs query hist) w0
        = (Ret reply, w1) ->
        json_loads X (strip_code_fence (Py.strip reply)) = inr (JObj m) ->
        Py.dict_get "tasks" m = None ->
        exists plan w2,
          create_plan X agent_configs query hist w = (Ret plan, w2)
          /\ tasks plan = []).
Proof.
  intros Ha. split.
  - intros Hf.
    destruct (planning_failure_raises query _ _ Hf) as (e & w1 & Hr).
    destruct (fallback_plan_returns agent_configs query w1) as (plan & w2 & Hfb & Hp).
    exists plan, w2. split; [|exact Hp].
    unfold create_plan, bind. rewrite Ha. unfold try_except. rewrite Hr. exact Hfb.
  - intros reply w1 m Hinv Hparse Hnone.
    unfold create_plan, bind at 1. rewrite Ha. unfold try_except.
    unfold plan_from_reply, bind at 1. rewrite Hinv.
    unfold bind at 1. rewrite Hparse. cbn [lift ret].
    unfold bind at 1. cbn [json_get lift ret]. rewrite Hnone.
    unfold bind at 1. cbn [json_iter lift ret].
    unfold bind at 1. cbn [build_tasks ret].
    unfold bind, total. cbn [lift ret].
    destruct (now_iso X w1) as [ts w2].
    do 2 eexists. split; reflexivity.
Qed.

End SupervisorFacts.

(** The Completion Service is down: the fallback plan is returned. *)
Lemma create_plan_falls_back_when_reply_unreadable_witness :
  Supervisor.announce_data (Mock.all_down [] true) "What is Neo4j?" tt = (Ret tt, tt)
  /\ exists plan w2,
       Supervisor.create_plan (Mock.all_down [] true)
         (Orchestrator.agent_configs Mock.default_config) "What is Neo4j?" [] tt
       = (Ret plan, w2)
       /\ Spec.is_fallback_plan (Orchestrator.agent_configs Mock.default_config)
            "What is Neo4j?" plan.
Proof.
  split; [reflexivity|].
  apply (create_plan_falls_back_when_reply_unreadable (Mock.all_down [] true)
           (Orchestrator.agent_configs Mock.default_config) "What is Neo4j?" [] tt tt
           eq_refl).
  apply (Spec.service_raises _ _ _ "Connection error." tt). reflexivity.
Defined.

(** The reply [{}] has not the specified shape, and yet the plan read from
    it is a plan without tasks, not the fallback plan. *)
Lemma empty_object_reply_is_not_a_fallback :
  ~ Spec.fallback_on_any_malformed_shape Mock.empty_object_reply
      (Orchestrator.agent_configs Mock.default_config) "What is Neo4j?" [] tt.
Proof.
  intros H.
  destruct (H "{}" tt (JObj []) eq_refl eq_refl eq_refl)
    as (plan & w2 & Hrun & t & Ht & _).
  vm_compute in Hrun. inversion Hrun; subst. discriminate Ht.
Qed.

(* ===================================================================== *)
(** * The recorder: agents, tasks and results *)
(* ===================================================================== *)

Section MonadFacts.
Context {W : Type}.

Lemma bind_ret_inv {A B} (c : M W A) (k : A -> M W B) w b w' :
  bind c k w = (Ret b, w') ->
  exists a w1, c w = (Ret a, w1) /\ k a w1 = (Ret b, w').
Proof.
  unfold bind. destruct (c w) as [[a|e] w1]; [eauto | discriminate].
Qed.

Lemma lift_ret_inv {A} (r : exn + A) (w : W) a w' :
  lift r w = (Ret a, w') -> r = inr a /\ w' = w.
Proof.
  destruct r; cbn; intros H; inversion H; auto.
Qed.

End MonadFacts.

Section RecorderWorkflow.
Import Audit.
Import Spec.
Variable rejects : list StoreOp -> StoreOp -> option exn.

Lemma session_run_inv op log u log' :
  session_run rejects op log = (Ret u, log') -> log' = (log ++ [op])%list.
Proof.
  unfold session_run. destruct (rejects log op); intros H; inversion H; reflexivity.
Qed.

(** A loop whose turns each add statements to the log adds their
    concatenation. *)
Lemma for_each_inv {A} (P : A -> list StoreOp -> Prop) (body : A -> M Log unit) :
  (forall x log u log1,
      body x log = (Ret u, log1) -> exists ops, log1 = (log ++ ops)%list /\ P x ops) ->
  forall l log u log',
    for_each l body log = (Ret u, log') ->
    exists opss, log' = (log ++ concat opss)%list /\ Forall2 P l opss.
Proof.
  intros Hbody. induction l as [|x l IH]; intros log u log' H; cbn in H.
  - inversion H; subst. exists []. split; [now rewrite app_nil_r | constructor].
  - apply bind_ret_inv in H. destruct H as (u1 & log1 & Hx & Hl).
    apply Hbody in Hx. destruct Hx as (ops & -> & HP).
    apply IH in Hl. destruct Hl as (opss & -> & HF).
    exists (ops :: opss). split; [cbn; now rewrite app_assoc | constructor; auto].
Qed.

Lemma for_fold_inv {A St} (P : A -> list StoreOp -> Prop) (g : St -> A -> St)
  (body : St -> A -> M Log St) :
  (forall s x log s' log1,
      body s x log = (Ret s', log1) ->
      s' = g s x /\ exists ops, log1 = (log ++ ops)%list /\ P x ops) ->
  forall l s log s' log',
    for_fold l s body log = (Ret s', log') ->
    s' = fold_left g l s
    /\ exists opss, log' = (log ++ concat opss)%list /\ Forall2 P l opss.
Proof.
  intros Hbody. induction l as [|x l IH]; intros s log s' log' H; cbn in H.
  - inversion H; subst. split; [reflexivity|].
    exists []. split; [now rewrite app_nil_r | constructor].
  - apply bind_ret_inv in H. destruct H as (s1 & log1 & Hx & Hl).
    apply Hbody in Hx. destruct Hx as (-> & ops & -> & HP).
    apply IH in Hl. destruct Hl as (-> & opss & -> & HF).
    split; [reflexivity|].
    exists (ops :: opss). split; [cbn; now rewrite app_assoc | constructor; auto].
Qed.

(** When each turn adds the statements [f x], the loop adds [flat_map f]. *)
Lemma Forall2_eq_concat {A} (f : A -> list StoreOp) l opss :
  Forall2 (fun x ops => ops = f x) l opss -> concat opss = flat_map f l.
Proof.
  induction 1; cbn; [reflexivity | subst; f_equal; assumption].
Qed.

Lemma create_agents_inv orchestrator_id timestamp agents_by_type log u log' :
  create_agents rejects orchestrator_id timestamp agents_by_type log = (Ret u, log') ->
  log' = (log ++ flat_map (agent_ops orchestrator_id timestamp) agents_by_type)%list.
Proof.
  intros H. unfold create_agents in H.
  apply (for_each_inv (fun kv ops => ops = agent_ops orchestrator_id timestamp kv)) in H.
  - destruct H as (opss & -> & HF). f_equal. now apply Forall2_eq_concat.
  - intros kv log0 u0 log1 Hb.
    apply bind_ret_inv in Hb. destruct Hb as (u1 & l1 & H1 & H2).
    apply session_run_inv in H1. apply session_run_inv in H2. subst.
    eexists. split; [|reflexivity]. now rewrite <- app_assoc.
Qed.

Lemma create_tasks_inv question_id timestamp agents_by_type details log table log' :
  create_tasks rejects question_id timestamp agents_by_type details log
  = (Ret table, log') ->
  log' = (log ++ flat_map (task_ops question_id timestamp agents_by_type) details)%list
  /\ Forall (fun d => exists a, agent_id_for agents_by_type (td_agent_type d) = inr a)
       details.
Proof.
  intros H. unfold create_tasks in H.
  apply (for_fold_inv
           (fun d ops => ops = task_ops question_id timestamp agents_by_type d
                         /\ exists a, agent_id_for agents_by_type (td_agent_type d) = inr a)
           (fun t d => Py.dict_set (handle_key (td_agent_name d) (td_index d))
                         (result_node_id question_id (td_index d)) t)) in H.
  - destruct H as (_ & opss & -> & HF). split.
    + f_equal. apply Forall2_eq_concat.
      eapply Forall2_impl; [|exact HF]. cbn. intros a b [E _]. exact E.
    + clear - HF. induction HF as [|d ops l opss [_ Hd] _ IH]; constructor; auto.
  - intros t d log0 t' log1 Hb.
    apply bind_ret_inv in Hb. destruct Hb as (a & l0 & Ha & Hb).
    apply lift_ret_inv in Ha. destruct Ha as [Ha ->].
    apply bind_ret_inv in Hb. destruct Hb as (u1 & l1 & H1 & Hb).
    apply bind_ret_inv in Hb. destruct Hb as (u2 & l2 & H2 & Hb).
    apply bind_ret_inv in Hb. destruct Hb as (u3 & l3 & H3 & Hb).
    apply bind_ret_inv in Hb. destruct Hb as (u4 & l4 & H4 & Hb).
    apply session_run_inv in H1, H2, H3, H4. inversion Hb; subst.
    split; [reflexivity|].
    eexists. split; [|split; [unfold task_ops; rewrite Ha; reflexivity | eauto]].
    now rewrite <- !app_assoc.
Qed.

Lemma link_inputs_inv agents_by_type details agent_results log u log' :
  link_inputs rejects agents_by_type details agent_results log = (Ret u, log') ->
  log' = (log ++ flat_map (input_ops agents_by_type agent_results) details)%list.
Proof.
  intros H. unfold link_inputs in H.
  apply (for_each_inv (fun d ops => ops = input_ops agents_by_type agent_results d)) in H.
  - destruct H as (opss & -> & HF). f_equal. now apply Forall2_eq_concat.
  - intros d log0 u0 log1 Hb.
    apply bind_ret_inv in Hb. destruct Hb as (a & l0 & Ha & Hb).
    apply lift_ret_inv in Ha. destruct Ha as [Ha ->].
    unfold input_ops. rewrite Ha.
    apply (for_each_inv
             (fun prev ops =>
                ops = if uses_input d prev
                      then [LinkUsedInputFrom a (snd prev)] else [])) in Hb.
    + destruct Hb as (opss & -> & HF). eexists. split; [reflexivity|].
      clear - HF. induction HF as [|prev ops l opss -> _ IH]; [reflexivity|].
      cbn [concat filter]. destruct (uses_input d prev); cbn; rewrite IH; reflexivity.
    + intros prev l1 u1 l2 Hp. destruct (uses_input d prev).
      * apply session_run_inv in Hp. eauto.
      * inversion Hp; subst. exists []. now rewrite app_nil_r.
Qed.

(** The statements of a whole run of [_create_agents_and_workflow]. *)
Lemma create_agents_and_workflow_inv question_id orchestrator_id agent_tasks timestamp
  log table log' :
  create_agents_and_workflow rejects question_id orchestrator_id agent_tasks timestamp log
  = (Ret table, log') ->
  let details := task_details agent_tasks in
  let agents_by_type := group_by_type question_id details in
  log' = (log
          ++ flat_map (agent_ops orchestrator_id timestamp) agents_by_type
          ++ flat_map (task_ops question_id timestamp agents_by_type) details
          ++ flat_map (input_ops agents_by_type table) details)%list
  /\ Forall (fun d => exists a, agent_id_for agents_by_type (td_agent_type d) = inr a)
       details.
Proof.
  intros H details agents_by_type. unfold create_agents_and_workflow in H.
  fold details in H. fold agents_by_type in H.
  apply bind_ret_inv in H. destruct H as (u & l1 & H1 & H).
  apply bind_ret_inv in H. destruct H as (t & l2 & H2 & H).
  apply bind_ret_inv in H. destruct H as (u3 & l3 & H3 & H).
  inversion H; subst.
  apply create_agents_inv in H1. apply create_tasks_inv in H2.
  apply link_inputs_inv in H3. destruct H2 as [H2 HF]. subst.
  split; [now rewrite <- !app_assoc | exact HF].
Qed.

End RecorderWorkflow.

Section RecorderGrouping.
Import Audit.
Import Spec.

Lemma dict_get_in {V} k (d : Py.dict V) v :
  Py.dict_get k d = Some v -> In (k, v) d.
Proof.
  induction d as [|[k1 v1] d IH]; cbn; [discriminate|].
  destruct (String.eqb_spec k k1) as [->|Hne]; intros H.
  - inversion H; subst. left; reflexivity.
  - right; auto.
Qed.

Lemma dict_mem_in {V} k (d : Py.dict V) :
  Py.dict_mem k d = true <-> In k (map fst d).
Proof.
  unfold Py.dict_mem. induction d as [|[k1 v1] d IH]; cbn.
  - split; [discriminate | intros []].
  - destruct (String.eqb_spec k k1) as [->|Hne].
    + split; auto.
    + rewrite IH. split; [auto | intros [E|H]; [congruence | exact H]].
Qed.

Lemma group_task_keys question_id m d :
  NoDup (map fst m) ->
  NoDup (map fst (group_task question_id m d))
  /\ (forall k, In k (map fst (group_task question_id m d))
                <-> k = td_agent_type d \/ In k (map fst m)).
Proof.
  intros Hnd. unfold group_task.
  cbv zeta.
  match goal with
  | |- context [Py.dict_get _ ?g] => set (grouped := g)
  end.
  assert (Hg: NoDup (map fst grouped)
              /\ (forall k, In k (map fst grouped)
                            <-> k = td_agent_type d \/ In k (map fst m))).
  { subst grouped. destruct (Py.dict_mem (td_agent_type d) m) eqn:E.
    - split; [exact Hnd|]. intros k. apply dict_mem_in in E.
      split; [auto | intros [->|H]; auto].
    - split; [apply dict_set_nodup; exact Hnd | intros k; apply dict_set_keys_in]. }
  destruct Hg as [Hg1 Hg2].
  destruct (Py.dict_get (td_agent_type d) grouped) as [info|]; [|split; assumption].
  split; [apply dict_set_nodup; exact Hg1|].
  intros k. rewrite dict_set_keys_in, Hg2. tauto.
Qed.

Lemma group_by_type_keys question_id details :
  NoDup (map fst (group_by_type question_id details))
  /\ (forall k, In k (map fst (group_by_type question_id details))
                <-> In k (map td_agent_type details)).
Proof.
  unfold group_by_type.
  assert (G: forall m,
             NoDup (map fst m) ->
             NoDup (map fst (fold_left (group_task question_id) details m))
             /\ (forall k, In k (map fst (fold_left (group_task question_id) details m))
                           <-> In k (map fst m) \/ In k (map td_agent_type details))).
  { induction details as [|d details IH]; intros m Hnd; cbn.
    - split; [exact Hnd | intros k; tauto].
    - destruct (group_task_keys question_id m d Hnd) as [H1 H2].
      destruct (IH _ H1) as [H3 H4]. split; [exact H3|].
      intros k. rewrite H4, H2. cbn. intuition (subst; auto). }
  destruct (G [] (NoDup_nil _)) as [H1 H2]. split; [exact H1|].
  intros k. rewrite H2. cbn. tauto.
Qed.

Lemma enumerate_from_indices {A} (l : list A) i :
  map fst (enumerate_from i l) = seq i (length l).
Proof.
  revert i. induction l as [|x l IH]; intros i; cbn; [reflexivity|].
  f_equal. apply IH.
Qed.

Lemma task_details_indices agent_tasks :
  map td_index (task_details agent_tasks) = seq 0 (length agent_tasks).
Proof.
  unfold task_details, enumerate. rewrite map_map. cbn.
  apply enumerate_from_indices.
Qed.

(** Reading one kind of statement out of the statements of a loop. *)
Lemma flat_map_compose {A B C} (g : B -> list C) (f : A -> list B) (l : list A) :
  flat_map g (flat_map f l) = flat_map (fun x => flat_map g (f x)) l.
Proof.
  induction l as [|x l IH]; cbn; [reflexivity|].
  now rewrite flat_map_app, IH.
Qed.

Lemma flat_map_nil {A B} (f : A -> list B) (l : list A) :
  (forall x, In x l -> f x = []) -> flat_map f l = [].
Proof.
  induction l as [|x l IH]; cbn; intros H; [reflexivity|].
  rewrite (H x) by (left; reflexivity). apply IH. intros y Hy. apply H. right; exact Hy.
Qed.

Lemma flat_map_singleton {A B} (f : A -> list B) (g : A -> B) (l : list A) :
  (forall x, In x l -> f x = [g x]) -> flat_map f l = map g l.
Proof.
  induction l as [|x l IH]; cbn; intros H; [reflexivity|].
  rewrite (H x) by (left; reflexivity). cbn. f_equal.
  apply IH. intros y Hy. apply H. right; exact Hy.
Qed.

Lemma input_ops_only_links m table d :
  created_agents (input_ops m table d) = []
  /\ use_agent_links (input_ops m table d) = []
  /\ created_tasks (input_ops m table d) = []
  /\ created_results (input_ops m table d) = []
  /\ produced_links (input_ops m table d) = []
  /\ assigned_links (input_ops m table d) = [].
Proof.
  unfold input_ops. destruct (agent_id_for m (td_agent_type d)); [repeat split|].
  induction (filter (uses_input d) table); [repeat split|].
  cbn in *. exact IHl.
Qed.

End RecorderGrouping.

Section RecorderCounts.
Import Audit.
Import Spec.
Variable rejects : list StoreOp -> StoreOp -> option exn.

(** C9. When [_create_agents_and_workflow] returns, the statements it sent
    create exactly one agent per distinct responder type of the task list,
    each linked from the orchestrator by [USE_AGENT]; and, for every task
    index, one task node and one result node, linked by [PRODUCED], the task
    being assigned to the agent created for its responder type. *)
Theorem one_agent_per_type_and_one_task_result_pair_per_task
  question_id orchestrator_id agent_tasks timestamp log table log' :
  create_agents_and_workflow rejects question_id orchestrator_id agent_tasks timestamp log
  = (Ret table, log') ->
  exists ops,
    log' = (log ++ ops)%list
    /\ let details := task_details agent_tasks in
       let indices := seq 0 (length agent_tasks) in
       NoDup (map snd (created_agents ops))
       /\ (forall ty, In ty (map snd (created_agents ops))
                      <-> In ty (map td_agent_type details))
       /\ use_agent_links ops
          = map (fun a => (orchestrator_id, fst a)) (created_agents ops)
       /\ created_tasks ops = map (task_node_id question_id) indices
       /\ created_results ops = map (result_node_id question_id) indices
       /\ produced_links ops
          = map (fun i => (task_node_id question_id i, result_node_id question_id i))
              indices
       /\ map snd (assigned_links ops) = map (task_node_id question_id) indices
       /\ Forall2 (fun d link => In (fst link, td_agent_type d) (created_agents ops))
            details (assigned_links ops).
Proof.
  intros H. apply create_agents_and_workflow_inv in H.
  cbv zeta in H. destruct H as [-> HF].
  set (details := task_details agent_tasks) in *.
  set (m := group_by_type question_id details) in *.
  eexists. split; [reflexivity|]. cbv zeta.
  destruct (group_by_type_keys question_id details) as [Hnd Hkeys]. fold m in Hnd, Hkeys.
  rewrite Forall_forall in HF.
  (* what each loop contributes to each kind of statement *)
  assert (Hagents: created_agents (flat_map (agent_ops orchestrator_id timestamp) m)
                   = map (fun kv => (ai_agent_id (snd kv), fst kv)) m).
  { unfold created_agents. rewrite flat_map_compose.
    apply flat_map_singleton. reflexivity. }
  assert (Huse: use_agent_links (flat_map (agent_ops orchestrator_id timestamp) m)
                = map (fun kv => (orchestrator_id, ai_agent_id (snd kv))) m).
  { unfold use_agent_links. rewrite flat_map_compose.
    apply flat_map_singleton. reflexivity. }
  assert (Hnone: forall sel : StoreOp -> list (string * string),
             (forall kv, flat_map sel (agent_ops orchestrator_id timestamp kv) = []) ->
             flat_map sel (flat_map (agent_ops orchestrator_id timestamp) m) = []).
  { intros sel Hsel. rewrite flat_map_compose. apply flat_map_nil. auto. }
  set (tops := flat_map (task_ops question_id timestamp m) details).
  set (iops := flat_map (input_ops m table) details).
  assert (Hi: created_agents iops = [] /\ use_agent_links iops = []
              /\ created_tasks iops = [] /\ created_results iops = []
              /\ produced_links iops = [] /\ assigned_links iops = []).
  { subst iops. unfold created_agents, use_agent_links, created_tasks,
      created_results, produced_links, assigned_links.
    rewrite !flat_map_compose.
    repeat split; apply flat_map_nil; intros d _;
      apply (input_ops_only_links m table d). }
  destruct Hi as (Hi1 & Hi2 & Hi3 & Hi4 & Hi5 & Hi6).
  assert (Ht_agents: created_agents tops = [] /\ use_agent_links tops = []).
  { subst tops. unfold created_agents, use_agent_links. rewrite !flat_map_compose.
    split; apply flat_map_nil; intros d Hd; destruct (HF d Hd) as (a & Ha);
      unfold task_ops; rewrite Ha; reflexivity. }
  destruct Ht_agents as [Ht1 Ht2].
  assert (Ht_tasks: created_tasks tops = map (task_node_id question_id) (map td_index details)).
  { subst tops. unfold created_tasks. rewrite flat_map_compose, map_map.
    apply flat_map_singleton. intros d Hd. destruct (HF d Hd) as (a & Ha).
    unfold task_ops. rewrite Ha. reflexivity. }
  assert (Ht_results: created_results tops
                      = map (result_node_id question_id) (map td_index details)).
  { subst tops. unfold created_results. rewrite flat_map_compose, map_map.
    apply flat_map_singleton. intros d Hd. destruct (HF d Hd) as (a & Ha).
    unfold task_ops. rewrite Ha. reflexivity. }
  assert (Ht_prod: produced_links tops
                   = map (fun i => (task_node_id question_id i, result_node_id question_id i))
                       (map td_index details)).
  { subst tops. unfold produced_links. rewrite flat_map_compose, map_map.
    apply flat_map_singleton. intros d Hd. destruct (HF d Hd) as (a & Ha).
    unfold task_ops. rewrite Ha. reflexivity. }
  assert (Ht_assigned: assigned_links tops
                       = map (fun d => (match agent_id_for m (td_agent_type d) with
                                        | inr a => a
                                        | inl _ => EmptyString
                                        end,
                                        task_node_id question_id (td_index d)))
                           details).
  { subst tops. unfold assigned_links. rewrite flat_map_compose.
    apply flat_map_singleton. intros d Hd. destruct (HF d Hd) as (a & Ha).
    unfold task_ops. rewrite Ha. reflexivity. }
  assert (Ha_tasks: created_tasks (flat_map (agent_ops orchestrator_id timestamp) m) = []
                    /\ created_results (flat_map (agent_ops orchestrator_id timestamp) m) = []).
  { unfold created_tasks, created_results. rewrite !flat_map_compose.
    split; apply flat_map_nil; reflexivity. }
  destruct Ha_tasks as [Ha1 Ha2].
  pose proof (Hnone (fun op => match op with LinkProduced t r => [(t, r)] | _ => [] end)
                (fun _ => eq_refl)) as Ha3.
  pose proof (Hnone (fun op => match op with LinkAssigned a t => [(a, t)] | _ => [] end)
                (fun _ => eq_refl)) as Ha4.
  fold (produced_links (flat_map (agent_ops orchestrator_id timestamp) m)) in Ha3.
  fold (assigned_links (flat_map (agent_ops orchestrator_id timestamp) m)) in Ha4.
  (* the statements of the whole run *)
  assert (Hca: created_agents
                 (flat_map (agent_ops orchestrator_id timestamp) m ++ tops ++ iops)
               = map (fun kv => (ai_agent_id (snd kv), fst kv)) m).
  { unfold created_agents in *. rewrite !flat_map_app, Hagents, Ht1, Hi1.
    now rewrite !app_nil_r. }
  rewrite Hca.
  assert (Hty: map snd (map (fun kv : string * AgentInfo => (ai_agent_id (snd kv), fst kv)) m)
               = map fst m) by (rewrite map_map; reflexivity).
  rewrite Hty, <- (task_details_indices agent_tasks). fold details.
  split; [exact Hnd|]. split; [exact Hkeys|].
  split.
  { unfold use_agent_links in *. rewrite !flat_map_app, Huse, Ht2, Hi2.
    rewrite !app_nil_r, map_map. reflexivity. }
  split.
  { unfold created_tasks in *. rewrite !flat_map_app, Ha1, Ht_tasks, Hi3.
    now rewrite app_nil_r. }
  split.
  { unfold created_results in *. rewrite !flat_map_app, Ha2, Ht_results, Hi4.
    now rewrite app_nil_r. }
  split.
  { unfold produced_links in *. rewrite !flat_map_app, Ha3, Ht_prod, Hi5.
    now rewrite app_nil_r. }
  assert (Has: assigned_links
                 (flat_map (agent_ops orchestrator_id timestamp) m ++ tops ++ iops)
               = assigned_links tops).
  { unfold assigned_links in *. rewrite !flat_map_app, Ha4, Hi6.
    now rewrite app_nil_r. }
  rewrite Has, Ht_assigned. split.
  { rewrite !map_map. reflexivity. }
  assert (Hgen: forall ds,
             (forall d, In d ds ->
                        exists a, agent_id_for m (td_agent_type d) = inr a) ->
             Forall2
               (fun d link =>
                  In (fst link, td_agent_type d)
                     (map (fun kv : string * AgentInfo => (ai_agent_id (snd kv), fst kv)) m))
               ds
               (map (fun d => (match agent_id_for m (td_agent_type d) with
                               | inr a => a
                               | inl _ => EmptyString
                               end,
                               task_node_id question_id (td_index d))) ds)).
  { induction ds as [|d ds IH]; intros Hds; cbn; constructor.
    - destruct (Hds d (or_introl eq_refl)) as (a & Ha). rewrite Ha. cbn.
      unfold agent_id_for in Ha.
      destruct (Py.dict_get (td_agent_type d) m) as [info|] eqn:E; [|discriminate].
      inversion Ha; subst. apply dict_get_in in E.
      apply (in_map (fun kv : string * AgentInfo => (ai_agent_id (snd kv), fst kv))) in E.
      exact E.
    - apply IH. intros x Hx. apply Hds. right; exact Hx. }
  apply Hgen. exact HF.
Qed.

End RecorderCounts.

(** Two tasks of one responder and one of another: two agents, three tasks
    and three results. *)
Lemma one_agent_per_type_and_one_task_result_pair_per_task_witness :
  let tasks := [ Mock.run_task_of "Llm Agent" (Some "a");
                 Mock.run_task_of "Neo4J Agent" (Some "b");
                 Mock.run_task_of "Llm Agent" (Some "c") ] in
  exists ops,
    snd (Audit.create_agents_and_workflow Spec.accept_all "q" "orchestrator_q" tasks
           "T" [])
    = ([] ++ ops)%list
    /\ map snd (Spec.created_agents ops) = ["Llm Agent"; "Neo4J Agent"]
    /\ Spec.created_tasks ops = ["task_q_0"; "task_q_1"; "task_q_2"]
    /\ Spec.created_results ops = ["result_q_0"; "result_q_1"; "result_q_2"].
Proof.
  intros tasks.
  destruct (one_agent_per_type_and_one_task_result_pair_per_task Spec.accept_all
              "q" "orchestrator_q" tasks "T" []
              [("Llm Agent_0", "result_q_0"); ("Neo4J Agent_1", "result_q_1");
               ("Llm Agent_2", "result_q_2")]
              (snd (Audit.create_agents_and_workflow Spec.accept_all "q"
                      "orchestrator_q" tasks "T" []))
              eq_refl)
    as (ops & Hlog & _).
  exists ops. split; [exact Hlog|].
  cbn [app] in Hlog. rewrite <- Hlog. repeat split.
Defined.

(* ===================================================================== *)
(** * The recorder: cross-task input links *)
(* ===================================================================== *)

(** The links of a whole run follow from the handle table as it stands after
    the loop over the tasks: every task reads the complete table. *)
Lemma used_input_links_of_run rejects question_id orchestrator_id agent_tasks
  timestamp log table log' :
  Audit.create_agents_and_workflow rejects question_id orchestrator_id agent_tasks
    timestamp log = (Ret table, log') ->
  let details := Audit.task_details agent_tasks in
  let agents_by_type := Audit.group_by_type question_id details in
  exists ops,
    log' = (log ++ ops)%list
    /\ Spec.used_input_links ops
       = Spec.used_input_links
           (flat_map (Spec.input_ops agents_by_type table) details).
Proof.
  intros H. apply create_agents_and_workflow_inv in H. cbv zeta in *.
  destruct H as [-> HF]. eexists. split; [reflexivity|].
  unfold Spec.used_input_links. rewrite !flat_map_app.
  rewrite (flat_map_compose _ (Spec.agent_ops orchestrator_id timestamp)).
  rewrite flat_map_nil by reflexivity.
  rewrite (flat_map_compose _ (Spec.task_ops question_id timestamp _)).
  rewrite flat_map_nil; [reflexivity|].
  intros d _. unfold Spec.task_ops.
  destruct (Audit.agent_id_for _ _); reflexivity.
Qed.

(** C8, on the run record of a plan with a graph task (index 1) followed by a
    free-text task (index 2), the planner's summary being entry 0. The
    handle table holds the three results when the links are made; no link
    starts from the agent of the entry of index 0; and the agent of the task
    of index 1 is linked to the result of index 2, which a later task
    produced. *)
Theorem used_input_links_reach_a_later_result :
  let run := Audit.create_agents_and_workflow Spec.accept_all "q" "orchestrator_q"
               Mock.planner_graph_llm "T" [] in
  fst run = Ret [ ("Planner_0", "result_q_0"); ("Neo4J Agent_1", "result_q_1");
                  ("Llm Agent_2", "result_q_2") ]
  /\ Spec.assigned_links (snd run)
     = [ ("planner_q", "task_q_0"); ("neo4j_agent_q", "task_q_1");
         ("llm_agent_q", "task_q_2") ]
  /\ Spec.used_input_links (snd run)
     = [ ("neo4j_agent_q", "result_q_0"); ("neo4j_agent_q", "result_q_2");
         ("llm_agent_q", "result_q_0"); ("llm_agent_q", "result_q_1") ]
  /\ ~ In "planner_q" (map fst (Spec.used_input_links (snd run)))
  /\ In ("neo4j_agent_q", Audit.result_node_id "q" 2)
        (Spec.used_input_links (snd run)).
Proof.
  cbv zeta. split; [reflexivity|]. split; [reflexivity|]. split; [reflexivity|].
  split.
  - vm_compute. intuition discriminate.
  - right. left. reflexivity.
Qed.

(* ===================================================================== *)
(** * The recorder: retrieved nodes *)
(* ===================================================================== *)

Section RecorderNodes.
Import Audit.
Import Spec.
Variable rejects : list StoreOp -> StoreOp -> option exn.

Lemma try_except_ret_inv {W A} (c : M W A) (h : exn -> M W A) w a w' :
  try_except c h w = (Ret a, w') ->
  c w = (Ret a, w') \/ exists e w1, c w = (Raise e, w1) /\ h e w1 = (Ret a, w').
Proof.
  unfold try_except. destruct (c w) as [[x|e] w1]; intros H.
  - left. exact H.
  - right. eauto.
Qed.

Lemma session_run_raise_inv op log e log' :
  session_run rejects op log = (Raise e, log') -> log' = log.
Proof.
  unfold session_run. destruct (rejects log op); intros H; inversion H; reflexivity.
Qed.

(** One turn of the loop over the primary list sends one statement that
    creates the node, then the link, and binds the external id. *)
Lemma materialize_primary_inv graphrag_id timestamp m entry log m' log' :
  materialize_primary rejects graphrag_id timestamp m entry log = (Ret m', log') ->
  m' = Py.dict_set (external_id entry) (primary_node_id graphrag_id (fst entry)) m
  /\ exists op,
       log' = (log ++ [op; LinkRetrievedEntity graphrag_id
                             (primary_node_id graphrag_id (fst entry))])%list
       /\ creates_entry graphrag_id timestamp entry op.
Proof.
  unfold materialize_primary. intros H.
  apply bind_ret_inv in H. destruct H as (u & l1 & Hc & H).
  apply bind_ret_inv in H. destruct H as (u2 & l2 & Hl & H).
  apply session_run_inv in Hl.
  assert (Hm: m' = Py.dict_set (external_id entry)
                     (primary_node_id graphrag_id (fst entry)) m
              /\ log' = l2) by (inversion H; split; reflexivity).
  destruct Hm as [-> ->]. clear H.
  split; [reflexivity|].
  apply try_except_ret_inv in Hc. destruct Hc as [Hc | (e & l0 & Hc & Hf)].
  - apply session_run_inv in Hc. rewrite Hl, Hc. eexists. split.
    + rewrite <- app_assoc. reflexivity.
    + left. reflexivity.
  - apply session_run_raise_inv in Hc. rewrite Hc in Hf.
    apply session_run_inv in Hf. rewrite Hl, Hf. eexists. split.
    + rewrite <- app_assoc. reflexivity.
    + right. reflexivity.
Qed.

Lemma node_creations_app ops1 ops2 :
  node_creations (ops1 ++ ops2) = (node_creations ops1 ++ node_creations ops2)%list.
Proof. apply filter_app. Qed.

(** When the loop over the primary list returns, it has sent one statement
    that creates an audit node for every entry of the list, in order, each
    followed by the link from the retrieval; the loop has no test of its own
    on the map, which then binds every external id to the audit id of the
    last entry that carries it. An entry of a supplementary list whose
    external id is in the map sends no statement and leaves the map as it
    is. *)
Lemma primary_loop_creates_every_entry
  graphrag_id timestamp nodes log m log' :
  primary_loop rejects graphrag_id timestamp nodes log = (Ret m, log') ->
  (exists ops,
      log' = (log ++ ops)%list
      /\ Forall2 (creates_entry graphrag_id timestamp) (enumerate nodes)
           (node_creations ops)
      /\ retrieved_entity_links ops
         = map (fun i => (graphrag_id, primary_node_id graphrag_id i))
             (seq 0 (length nodes)))
  /\ m = primary_entity_map graphrag_id nodes
  /\ (forall node_list_name i node_data eid m0 log0,
        Py.or_else (nd_elementId node_data) (Py.nonempty (nd_id node_data)) = Some eid ->
        Py.dict_mem eid m0 = true ->
        materialize_additional rejects node_list_name graphrag_id timestamp m0
          (i, node_data) log0
        = (Ret m0, log0)).
Proof.
  intros H. unfold primary_loop in H.
  apply (for_fold_inv
           (fun entry ops =>
              exists op,
                ops = [op; LinkRetrievedEntity graphrag_id
                             (primary_node_id graphrag_id (fst entry))]
                /\ creates_entry graphrag_id timestamp entry op)
           (fun m entry =>
              Py.dict_set (external_id entry)
                (primary_node_id graphrag_id (fst entry)) m)) in H.
  - destruct H as (Hm & opss & -> & HF).
    split; [|split; [exact Hm|]].
    + exists (concat opss). split; [reflexivity|].
      rewrite <- (enumerate_from_indices nodes 0). fold (enumerate nodes).
      clear - HF. induction HF as [|entry ops l opss (op & -> & Hop) _ [IH1 IH2]].
      * split; [constructor | reflexivity].
      * split.
        -- cbn [concat]. rewrite node_creations_app.
           replace (node_creations [op; LinkRetrievedEntity graphrag_id _])
             with [op]
             by (destruct Hop as [-> | ->]; reflexivity).
           constructor; [exact Hop | exact IH1].
        -- cbn [concat]. unfold retrieved_entity_links in *.
           rewrite flat_map_app, IH2.
           destruct Hop as [-> | ->]; reflexivity.
    + intros name i nd eid m0 log0 He Hmem.
      unfold materialize_additional. cbn [fst snd]. rewrite He, Hmem. reflexivity.
  - intros s entry log0 s' log1 Hb.
    apply materialize_primary_inv in Hb. destruct Hb as (-> & op & -> & Hop).
    split; [reflexivity|]. eexists. split; [reflexivity|]. eauto.
Qed.

End RecorderNodes.

(** The loop over the primary list relies on the list it is given: called
    on a list that repeats an external id, which the export of the graph
    responder never is, it creates an audit node for both entries. *)
Example primary_loop_on_a_repeated_id :
  Spec.materialized
    (snd (Audit.primary_loop Spec.accept_all "graphrag_q_0" "T" Mock.same_id_twice []))
  = [ ("entity_graphrag_q_0_0", "4:abc:1"); ("entity_graphrag_q_0_1", "4:abc:1") ]
  /\ ~ Spec.each_external_id_once
         (snd (Audit.primary_loop Spec.accept_all "graphrag_q_0" "T"
                 Mock.same_id_twice [])).
Proof.
  split; [reflexivity|].
  unfold Spec.each_external_id_once. intros H. vm_compute in H.
  inversion H as [|x l Hnin _]; subst. apply Hnin. left. reflexivity.
Qed.

(* ===================================================================== *)
(** * The recorder: what a persisted node carries *)
(* ===================================================================== *)

Section RecorderProperties.
Import Audit.
Import Spec.

Lemma dict_get_set {V} c k (v : V) d :
  Py.dict_get c (Py.dict_set k v d)
  = if String.eqb c k then Some v else Py.dict_get c d.
Proof.
  induction d as [|[k1 v1] d IH]; cbn.
  - destruct (String.eqb c k); reflexivity.
  - destruct (String.eqb_spec k k1) as [->|Hne]; cbn.
    + destruct (String.eqb c k1); reflexivity.
    + rewrite IH. destruct (String.eqb_spec c k1) as [->|Hne'];
        [|reflexivity].
      destruct (String.eqb_spec k1 k) as [E|_]; [congruence | reflexivity].
Qed.

Lemma fold_left_snoc {A B} (f : A -> B -> A) l x a :
  fold_left f (l ++ [x]) a = f (fold_left f l a) x.
Proof. now rewrite fold_left_app. Qed.

(** [params] after the loop over the properties: a cleaned key holds the
    text of the property bound last under it, and else what it held before
    the loop. *)
Lemma node_statement_get (c : string) (params : Py.dict string)
  (node_properties : Py.dict prop_value) :
  Py.dict_get c (snd (node_statement params node_properties))
  = match last_binding c node_properties with
    | Some v => Some (value_text v)
    | None => Py.dict_get c params
    end.
Proof.
  unfold node_statement, last_binding.
  induction node_properties as [|[k v] l IH] using rev_ind; [reflexivity|].
  rewrite !fold_left_snoc. unfold add_property at 1. cbn [fst snd].
  destruct (reserved_key k); [exact IH|].
  cbn [snd]. rewrite dict_get_set, String.eqb_sym.
  destruct (String.eqb (clean_prop_key k) c); [reflexivity | exact IH].
Qed.


Lemma last_binding_some c node_properties v :
  last_binding c node_properties = Some v ->
  exists k, In (k, v) node_properties /\ reserved_key k = false
            /\ clean_prop_key k = c.
Proof.
  unfold last_binding.
  induction node_properties as [|[k v0] l IH] using rev_ind; [discriminate|].
  rewrite fold_left_snoc. cbn [fst snd].
  destruct (reserved_key k) eqn:Er.
  - intros H. destruct (IH H) as (k' & Hin & Hk). exists k'.
    split; [apply in_or_app; left; exact Hin | exact Hk].
  - destruct (String.eqb_spec (clean_prop_key k) c) as [E|_].
    + intros H. inversion H; subst. exists k.
      split; [apply in_or_app; right; left; reflexivity | auto].
    + intros H. destruct (IH H) as (k' & Hin & Hk). exists k'.
      split; [apply in_or_app; left; exact Hin | exact Hk].
Qed.


(** ** The key [embedding] *)

Lemma clean_char_inv (c d : ascii) :
  (if Ascii.eqb (if Ascii.eqb c "-" then "_"%char else c) " "
   then "_"%char
   else if Ascii.eqb c "-" then "_"%char else c) = d ->
  d <> "_"%char -> c = d.
Proof.
  destruct (Ascii.eqb_spec c "-") as [->|Hc]; cbn.
  - intros <- H. now contradiction H.
  - destruct (Ascii.eqb_spec c " ") as [->|Hs].
    + intros <- H. now contradiction H.
    + auto.
Qed.

(** A cleaned key without underscore is the key itself. *)
Lemma clean_prop_key_inv (t k : string) :
  Py.contains_char "_" t = false -> clean_prop_key k = t -> k = t.
Proof.
  revert t. induction k as [|c k IH]; intros t Ht H.
  - exact H.
  - destruct t as [|d t]; [discriminate H|].
    cbn in Ht. apply orb_false_iff in Ht. destruct Ht as [Hd Ht].
    unfold clean_prop_key, Py.replace_char in H. cbn [Py.map_chars] in H.
    injection H as Hc Hk. f_equal.
    + apply clean_char_inv in Hc; [exact Hc|].
      intros ->. discriminate Hd.
    + apply IH; [exact Ht | exact Hk].
Qed.

Lemma dict_set_in_same {V} k (v v' : V) d :
  NoDup (map fst d) -> In (k, v') (Py.dict_set k v d) -> v' = v.
Proof.
  induction d as [|[k1 v1] d IH]; cbn; intros Hnd Hin.
  - destruct Hin as [E|[]]. now inversion E.
  - inversion Hnd as [|x l Hnin Hnd']; subst.
    destruct (String.eqb_spec k k1) as [->|Hne].
    + destruct Hin as [E|Hin]; [now inversion E|].
      exfalso. apply Hnin. apply (in_map fst) in Hin. exact Hin.
    + destruct Hin as [E|Hin]; [inversion E; congruence | auto].
Qed.

(** After the export of the graph responder, whatever is bound under
    [embedding] is [None]. *)
Lemma null_embedding_values node_props v :
  NoDup (map fst node_props) ->
  In ("embedding", v) (Neo4jAgent.null_embedding node_props) -> v = None.
Proof.
  intros Hnd. unfold Neo4jAgent.null_embedding.
  destruct (Py.dict_mem "embedding" node_props) eqn:E.
  - apply dict_set_in_same. exact Hnd.
  - intros Hin. apply (in_map fst) in Hin. apply dict_mem_in in Hin.
    cbn [fst] in Hin. congruence.
Qed.

(** ** The label string *)

Lemma escape_label_quoted label : escape_label label = quoted_label label.
Proof.
  unfold escape_label, quoted_label.
  replace (existsb (Ascii.eqb " ") (list_ascii_of_string label))
    with (Py.contains_char " " label); [reflexivity|].
  induction label as [|c label IH]; cbn; [reflexivity | now rewrite IH].
Qed.

Lemma concat_colon_cons a b l :
  String.concat ":" ((a ++ String ":" b) :: l) = a ++ String ":" (String.concat ":" (b :: l)).
Proof.
  destruct l as [|c l]; [reflexivity|].
  assert (E: forall x, String.concat ":" (x :: c :: l)
                       = x ++ ":" ++ String.concat ":" (c :: l)) by reflexivity.
  rewrite !E. generalize (String.concat ":" (c :: l)). intros r.
  induction a as [|x a IH]; cbn in *; [reflexivity | congruence].
Qed.

(** The label string of the source is the one the specification words. *)
Lemma labels_str_spec labels : labels_str labels = label_string labels.
Proof.
  unfold labels_str, label_string, Py.join.
  destruct labels as [|first others]; [reflexivity|].
  cbn [map]. rewrite escape_label_quoted. generalize (quoted_label first).
  induction others as [|label others IH]; intros text; [reflexivity|].
  cbn [map fold_left]. rewrite <- IH, concat_colon_cons, escape_label_quoted.
  reflexivity.
Qed.

(** ** Reserved keys, and the last of the properties that share a key *)


Lemma last_binding_none c node_properties :
  (forall k v, In (k, v) node_properties -> reserved_key k = false ->
               clean_prop_key k <> c) ->
  last_binding c node_properties = None.
Proof.
  intros H. destruct (last_binding c node_properties) as [v|] eqn:E; [|reflexivity].
  destruct (last_binding_some _ _ _ E) as (k & Hin & Hr & Hk).
  exfalso. exact (H k v Hin Hr Hk).
Qed.


Lemma no_property_cleans_to_timestamp node_properties :
  last_binding "timestamp" node_properties = None.
Proof.
  apply last_binding_none. intros k v _ Hr Hk.
  apply clean_prop_key_inv in Hk; [|reflexivity]. subst k. discriminate Hr.
Qed.


End RecorderProperties.


(* ===================================================================== *)
(** * Concrete runs *)
(* ===================================================================== *)

(** When the ids of a plan are distinct, its task map is its task list. *)
Lemma dict_of_list_distinct {V} (key : V -> string) (l : list V) :
  NoDup (map key l) ->
  Py.dict_of_list key l = map (fun x => (key x, x)) l.
Proof.
  unfold Py.dict_of_list.
  assert (Hset: forall k (v : V) d,
             ~ In k (map fst d) -> Py.dict_set k v d = (d ++ [(k, v)])%list).
  { intros k v d. induction d as [|[k1 v1] d IH]; cbn; intros Hn; [reflexivity|].
    destruct (String.eqb_spec k k1) as [->|Hne].
    - exfalso. apply Hn. left. reflexivity.
    - f_equal. apply IH. intros H. apply Hn. right. exact H. }
  assert (G: forall d,
             NoDup (map key l) ->
             (forall x, In x l -> ~ In (key x) (map fst d)) ->
             fold_left (fun d x => Py.dict_set (key x) x d) l d
             = (d ++ map (fun x => (key x, x)) l)%list).
  { induction l as [|x l IH]; intros d Hnd Hd; cbn.
    - now rewrite app_nil_r.
    - inversion Hnd as [|y ys Hnin Hnd']; subst.
      rewrite Hset by (apply Hd; left; reflexivity).
      rewrite IH.
      + now rewrite <- app_assoc.
      + exact Hnd'.
      + intros y Hy. rewrite map_app. cbn. intros Hin.
        apply in_app_or in Hin. destruct Hin as [Hin | [E | []]].
        * apply (Hd y); [right; exact Hy | exact Hin].
        * apply Hnin. rewrite E. apply in_map. exact Hy. }
  intros Hnd. apply (G [] Hnd). intros x _ [].
Qed.

Example display_name_of_graph_responder :
  display_name "neo4j_agent" = "Neo4J Agent" /\ display_name "llm_agent" = "Llm Agent".
Proof. split; reflexivity. Qed.

Example code_fence_is_stripped :
  Supervisor.strip_code_fence
    (Py.strip ("```json" ++ Py.nl ++ "{}" ++ Py.nl ++ "```" ++ Py.nl))
  = Py.nl ++ "{}" ++ Py.nl.
Proof. reflexivity. Qed.

Example fallback_agent_choice :
  Supervisor.fallback_agent ["neo4j_agent"; "llm_agent"] = "llm_agent"
  /\ Supervisor.fallback_agent ["neo4j_agent"] = "neo4j_agent"
  /\ Supervisor.fallback_agent [] = "llm_agent".
Proof. repeat split. Qed.

Example title_falls_back_to_first_six_words :
  Supervisor.generate_session_title (Mock.all_down [] true)
    "what is the capital of France today please" tt
  = (Ret "what is the capital of France...", tt).
Proof. reflexivity. Qed.

(** The three-task run: the second task fails, the third still runs. *)
Example three_task_run_statuses :
  map (fun kv => status (snd kv))
      (fst (Orchestrator.run_tasks (Mock.llm_up "Paris.") Mock.default_config None
              Mock.three_task_plan [] Mock.three_tasks tt))
  = [completed; failed; completed].
Proof. reflexivity. Qed.

Example failed_task_result_text :
  option_map (fun kv => result (snd kv))
    (nth_error
       (fst (Orchestrator.run_tasks (Mock.llm_up "Paris.") Mock.default_config None
               Mock.three_task_plan [] Mock.three_tasks tt)) 1)
  = Some "Task failed: Agent chart_agent not found".
Proof. reflexivity. Qed.

(** [str] of a list of labels: a label with an apostrophe goes between
    double quotes, a backslash is doubled. *)
Example list_repr_of_labels :
  Py.list_repr ["Movie"; "O'Neil"; "a\b"]
  = "['Movie', " ++ Py.dq ++ "O'Neil" ++ Py.dq ++ ", 'a\\b']".
Proof. reflexivity. Qed.

(** The graph responder raises: its task ends failed with the text of the
    error, and the task after it is run and completes. *)
Example graph_responder_down :
  map (fun kv => status (snd kv))
      (fst (Orchestrator.run_tasks (Mock.llm_up "A summary.") Mock.default_config None
              Mock.graph_then_text_plan []
              [ ("task_1", Mock.pending_task "task_1" "Who directed Heat?" "neo4j_agent");
                ("task_2", Mock.pending_task "task_2" "Summarise" "llm_agent") ] tt))
  = [failed; completed]
  /\ option_map (fun kv => result (snd kv))
       (nth_error
          (fst (Orchestrator.run_tasks (Mock.llm_up "A summary.") Mock.default_config
                  None Mock.graph_then_text_plan []
                  [ ("task_1",
                     Mock.pending_task "task_1" "Who directed Heat?" "neo4j_agent");
                    ("task_2", Mock.pending_task "task_2" "Summarise" "llm_agent") ]
                  tt)) 0)
     = Some "Task failed: Connection error.".
Proof. split; reflexivity. Qed.

(** When the announcement of the explicit data cannot be printed,
    [create_plan] raises: the print stands before its [try]. *)
Example create_plan_raises_with_the_announcement :
  fst (Supervisor.create_plan (Mock.all_down [("x", "5")] false)
         (Orchestrator.agent_configs Mock.default_config) "x=5" [] tt)
  = Raise "Broken pipe".
Proof. reflexivity. Qed.

(** With every service down the free-text responder still answers, with the
    error text, and the query is answered through the fallback plan. *)
Example all_down_run :
  let r := fst (Orchestrator.process_query (Mock.all_down [] true) Mock.default_config
                  "What is Neo4j?" (Some "s1") [] tt) in
  match r with
  | Ret resp =>
      Orchestrator.r_agents_used resp = ["llm_agent"]
      /\ Orchestrator.r_synthesis_applied resp = true
      /\ map at_status (Orchestrator.r_agentTasks resp) = [completed; completed]
      /\ map at_result (Orchestrator.r_agentTasks resp)
         = [ Some (Orchestrator.plan_details_tabbed
                     (mkAgentPlan "What is Neo4j?"
                        "Fallback analysis due to planning error"
                        [Mock.pending_task "task_1" "Handle query: What is Neo4j?"
                           "llm_agent"]
                        "Direct delegation to available agent" EmptyString));
             Some "LLM Agent Error: Both models failed - GPT-5: Connection error., GPT-4: Connection error." ]
  | Raise _ => False
  end.
Proof. cbv zeta. vm_compute. repeat split. Qed.

(** The result a sub-graph is attached to: by task index, then by responder
    name, then the last handle. *)
Example resolve_result_id_steps :
  let table := [("Planner_0", "result_q_0"); ("Neo4J Agent_1", "result_q_1")] in
  Audit.resolve_result_id Mock.int_of_digits table (Some "Neo4J Agent") (Some "task_0")
  = Some "result_q_0"
  /\ Audit.resolve_result_id Mock.int_of_digits table (Some "Neo4J Agent")
       (Some "supervisor_plan") = Some "result_q_1"
  /\ Audit.resolve_result_id Mock.int_of_digits table None (Some "task_7")
     = Some "result_q_1".
Proof. repeat split. Qed.

(** A relationship whose end was not retrieved is counted as failed and
    sends no statement. *)
Example dropped_relationship_is_counted :
  fst (Audit.create_graph_data Spec.accept_all Mock.int_of_digits "q" Mock.small_graph
         "T" "_0" (Some "Neo4J Agent") (Some "task_1")
         [("Planner_0", "result_q_0"); ("Neo4J Agent_1", "result_q_1")] [])
  = Ret (1, 1).
Proof. reflexivity. Qed.

(* ===================================================================== *)
(** * Texts *)
(* ===================================================================== *)

Section Texts.

Lemma append_assoc (a b c : string) : (a ++ b) ++ c = a ++ b ++ c.
Proof. induction a as [|x a IH]; cbn; [reflexivity | now rewrite IH]. Qed.

Lemma append_nil_r (a : string) : a ++ EmptyString = a.
Proof. induction a as [|x a IH]; cbn; [reflexivity | now rewrite IH]. Qed.

Lemma length_append (a b : string) :
  String.length (a ++ b) = String.length a + String.length b.
Proof. induction a as [|x a IH]; cbn; [reflexivity | now rewrite IH]. Qed.

Lemma length_slice_to n (s : string) :
  String.length (Py.slice_to n s) = Nat.min n (String.length s).
Proof.
  unfold Py.slice_to. revert s. induction n as [|n IH]; intros s.
  - destruct s; reflexivity.
  - destruct s as [|c s]; [reflexivity|]. cbn. now rewrite IH.
Qed.

Lemma occurs_in_refl s : Spec.occurs_in s s.
Proof. exists EmptyString, EmptyString. cbn. now rewrite append_nil_r. Qed.

Lemma occurs_in_append_l needle a b :
  Spec.occurs_in needle a -> Spec.occurs_in needle (a ++ b).
Proof.
  intros (x & y & ->). exists x, (y ++ b). now rewrite !append_assoc.
Qed.

Lemma occurs_in_append_r needle a b :
  Spec.occurs_in needle b -> Spec.occurs_in needle (a ++ b).
Proof.
  intros (x & y & ->). exists (a ++ x), y. now rewrite !append_assoc.
Qed.

Lemma join_cons sep x y l :
  Py.join sep (x :: y :: l) = x ++ sep ++ Py.join sep (y :: l).
Proof. reflexivity. Qed.

Lemma occurs_in_join sep x l :
  In x l -> Spec.occurs_in x (Py.join sep l).
Proof.
  induction l as [|y l IH]; intros Hin; [destruct Hin|].
  destruct l as [|z l].
  - destruct Hin as [->|[]]. apply occurs_in_refl.
  - rewrite join_cons. destruct Hin as [->|Hin].
    + apply occurs_in_append_l, occurs_in_refl.
    + apply occurs_in_append_r, occurs_in_append_r, IH, Hin.
Qed.

End Texts.

(* ===================================================================== *)
(** * The supervisor: prompt, title and errors *)
(* ===================================================================== *)

Section SupervisorMore.
Context {W : Type} (X : Externals W).
Import Supervisor.

(** Every explicit [label=value] pair found in the query is written into
    the planning prompt. *)
Theorem planning_prompt_echoes_explicit_data agent_configs query hist label value :
  In (label, value) (re_findall_data X query) ->
  Spec.occurs_in (label ++ "=" ++ value)
    (planning_prompt X agent_configs query hist).
Proof.
  intros Hin. unfold planning_prompt.
  set (line := "Analyze this user query: " ++ Py.quoted query ++ data_context X query).
  assert (Hline: Spec.occurs_in (label ++ "=" ++ value) line).
  { subst line. apply occurs_in_append_r, occurs_in_append_r.
    unfold data_context.
    assert (Hp: In (label ++ "=" ++ value) (data_pairs X query)).
    { unfold data_pairs.
      apply (in_map (fun lv : string * string => fst lv ++ "=" ++ snd lv)) in Hin.
      exact Hin. }
    destruct (data_pairs X query) as [|p ps] eqn:E; [destruct Hp|].
    do 3 apply occurs_in_append_r. apply occurs_in_join. exact Hp. }
  destruct Hline as (a & b & Hline).
  match goal with
  | |- Spec.occurs_in _ (Py.join _ (?l0 :: ?l1 :: ?l2 :: _ :: ?rest)) =>
      exists (l0 ++ Py.nl ++ l1 ++ Py.nl ++ l2 ++ Py.nl ++ a),
             (b ++ Py.nl ++ Py.join Py.nl rest);
      change (Py.join Py.nl (l0 :: l1 :: l2 :: line :: rest))
        with (l0 ++ Py.nl ++ l1 ++ Py.nl ++ l2 ++ Py.nl ++ line ++ Py.nl
              ++ Py.join Py.nl rest)
  end.
  rewrite Hline, !append_assoc. reflexivity.
Qed.

Lemma last_n_length {A} n (l : list A) :
  length (Py.last_n n l) = Nat.min n (length l).
Proof. unfold Py.last_n. rewrite length_skipn. lia. Qed.

Lemma last_n_idempotent {A} n (l : list A) :
  Py.last_n n (Py.last_n n l) = Py.last_n n l.
Proof.
  unfold Py.last_n at 1. rewrite last_n_length.
  replace (Nat.min n (length l) - n) with 0 by lia. reflexivity.
Qed.

(** The planning prompt reads the conversation history through its last
    five turns only. *)
Theorem planning_prompt_reads_last_five_turns agent_configs query hist :
  planning_prompt X agent_configs query hist
  = planning_prompt X agent_configs query (Py.last_n 5 hist).
Proof.
  unfold planning_prompt. do 3 f_equal.
  unfold conversation_context. rewrite last_n_idempotent.
  destruct hist as [|m hist]; [reflexivity|].
  destruct (Py.last_n 5 (m :: hist)) as [|m' l] eqn:E; [|reflexivity].
  apply (f_equal (@length _)) in E. rewrite last_n_length in E. cbn in E. lia.
Qed.

(** ** The three operations and their errors *)

Lemma build_tasks_fresh entries :
  forall w ts w',
    build_tasks X entries w = (Ret ts, w') -> Forall Spec.fresh ts.
Proof.
  induction entries as [|e entries IH]; intros w ts w' H; cbn in H.
  - inversion H; constructor.
  - apply bind_ret_inv in H. destruct H as (f & w0 & Hf & H).
    apply bind_ret_inv in H. destruct H as (t & w1 & Ht & H).
    apply bind_ret_inv in H. destruct H as (more & w2 & Hm & H).
    inversion H; subst. constructor; [|eapply IH; exact Hm].
    rewrite new_task_returns in Ht. inversion Ht; subst. repeat split.
Qed.

Lemma plan_from_reply_plan query prompt w plan w' :
  plan_from_reply X query prompt w = (Ret plan, w') ->
  original_query plan = query /\ Forall Spec.fresh (tasks plan).
Proof.
  unfold plan_from_reply. intros H.
  apply bind_ret_inv in H. destruct H as (reply & w1 & _ & H).
  apply bind_ret_inv in H. destruct H as (pd & w2 & _ & H).
  apply bind_ret_inv in H. destruct H as (tl & w3 & _ & H).
  apply bind_ret_inv in H. destruct H as (entries & w4 & _ & H).
  apply bind_ret_inv in H. destruct H as (ts & w5 & Hts & H).
  apply bind_ret_inv in H. destruct H as (a & w6 & _ & H).
  apply bind_ret_inv in H. destruct H as (st & w7 & _ & H).
  apply bind_ret_inv in H. destruct H as (now & w8 & _ & H).
  inversion H; subst. cbn. split; [reflexivity|].
  eapply build_tasks_fresh; exact Hts.
Qed.

Lemma fallback_plan_value agent_configs query w :
  exists plan w',
    fallback_plan X agent_configs query w = (Ret plan, w')
    /\ original_query plan = query /\ Forall Spec.fresh (tasks plan).
Proof.
  unfold fallback_plan, bind at 1. rewrite new_task_returns.
  unfold bind, total, ret. destruct (now_iso X (snd (now_iso X w))) as [ts' w2].
  do 2 eexists. split; [reflexivity|]. cbn. split; [reflexivity|].
  constructor; [repeat split | constructor].
Qed.

(** Of the three operations of the supervisor, [synthesize_results] and
    [generate_session_title] never raise, and [create_plan] raises only
    when the print of the explicit data does, with that error; a plan it
    returns is a plan for the query whose tasks are all fresh. *)
Theorem supervisor_errors_stay_inside agent_configs query hist (tasks0 : Py.dict Task) w :
  (exists answer w', synthesize_results X tasks0 query w = (Ret answer, w'))
  /\ (exists title w', generate_session_title X query w = (Ret title, w'))
  /\ (forall e w',
        create_plan X agent_configs query hist w = (Raise e, w') ->
        announce_data X query w = (Raise e, w')
        /\ exists pairs,
             data_pairs X query = pairs /\ pairs <> []
             /\ stdout_print X
                  ("🎯 Supervisor: Detected explicit data in query: "
                   ++ Py.list_repr pairs) w = (Raise e, w'))
  /\ (forall plan w',
        create_plan X agent_configs query hist w = (Ret plan, w') ->
        original_query plan = query /\ Forall Spec.fresh (tasks plan)).
Proof.
  split; [|split; [|split]].
  - unfold synthesize_results.
    destruct (filter _ tasks0); [do 2 eexists; reflexivity|].
    unfold try_except, bind.
    destruct (model_invoke X _ w) as [[r|e] w1]; do 2 eexists; reflexivity.
  - unfold generate_session_title, try_except, bind.
    destruct (model_invoke X _ w) as [[r|e] w1]; do 2 eexists; reflexivity.
  - intros e w' H. unfold create_plan, bind at 1 in H.
    destruct (announce_data X query w) as [[u|e0] w0] eqn:Ha.
    + exfalso. unfold try_except in H.
      destruct (plan_from_reply X query _ w0) as [[p|e1] w1]; [discriminate H|].
      destruct (fallback_plan_value agent_configs query w1) as (p & w2 & Hf & _).
      rewrite Hf in H. discriminate H.
    + inversion H; subst. split; [reflexivity|].
      unfold announce_data in Ha.
      destruct (data_pairs X query) as [|p ps] eqn:E; [discriminate Ha|].
      exists (p :: ps). split; [reflexivity|]. split; [discriminate | exact Ha].
  - intros plan w' H. unfold create_plan, bind at 1 in H.
    destruct (announce_data X query w) as [[u|e0] w0]; [|discriminate H].
    unfold try_except in H.
    destruct (plan_from_reply X query _ w0) as [[p|e1] w1] eqn:Hp.
    + inversion H; subst. eapply plan_from_reply_plan; exact Hp.
    + destruct (fallback_plan_value agent_configs query w1) as (p & w2 & Hf & Hq).
      rewrite Hf in H. inversion H; subst. exact Hq.
Qed.

(** When the Completion Service answers, the title is its answer without
    blanks and quotes around it, cut to 47 characters and three dots when it
    is longer than 50: it never has more than 50 characters. When the call
    raises, the title is made of the first six words of the query, followed
    by three dots when there are more. *)
Theorem session_title_is_bounded query w :
  (forall reply w1,
      model_invoke X (title_prompt query) w = (Ret reply, w1) ->
      exists title,
        generate_session_title X query w = (Ret title, w1)
        /\ String.length title <= 50
        /\ let answer := Py.strip_chars is_quote (Py.strip reply) in
           (String.length answer <= 50 -> title = answer)
           /\ (50 < String.length answer ->
               title = Py.slice_to 47 answer ++ "..."
               /\ String.length title = 50))
  /\ (forall e w1,
        model_invoke X (title_prompt query) w = (Raise e, w1) ->
        generate_session_title X query w
        = (Ret (Py.join " " (firstn 6 (Py.words query))
                ++ (if (6 <? length (Py.words query))%nat then "..."
                    else EmptyString)),
           w1)).
Proof.
  split.
  - intros reply w1 H. unfold generate_session_title, try_except, bind.
    rewrite H. cbn [ret]. eexists. split; [reflexivity|].
    set (answer := Py.strip_chars is_quote (Py.strip reply)).
    destruct (Nat.ltb_spec 50 (String.length answer)) as [Hlt|Hle].
    + assert (Hlen: String.length (Py.slice_to 47 answer ++ "...") = 50).
      { rewrite length_append, length_slice_to.
        change (String.length "...") with 3. lia. }
      split; [lia|]. cbv zeta. split; [lia|]. intros _. split; [reflexivity | exact Hlen].
    + split; [exact Hle|]. cbv zeta. split; [reflexivity | lia].
  - intros e w1 H. unfold generate_session_title, try_except, bind.
    rewrite H. reflexivity.
Qed.

End SupervisorMore.

(** The query of the regression scenario: the pair [x=5] is in the prompt. *)
Lemma planning_prompt_echoes_explicit_data_witness :
  In ("x", "5") (re_findall_data (Mock.all_down [("x", "5")] true) "x=5, what is x?")
  /\ Spec.occurs_in "x=5"
       (Supervisor.planning_prompt (Mock.all_down [("x", "5")] true)
          (Orchestrator.agent_configs Mock.default_config) "x=5, what is x?" []).
Proof.
  split; [left; reflexivity|].
  apply (planning_prompt_echoes_explicit_data (Mock.all_down [("x", "5")] true)
           (Orchestrator.agent_configs Mock.default_config) "x=5, what is x?" []
           "x" "5").
  left. reflexivity.
Defined.

(* ===================================================================== *)
(** * The execution engine: the response *)
(* ===================================================================== *)

Section EngineResponse.
Context {W : Type} (X : Externals W).
Import Orchestrator.

(** A finished task: completed, or failed with the text of its error. *)
Lemma step_outcome cfg visited k t rest t' :
  Spec.step X cfg visited k t rest t' ->
  id t' = id t /\ description t' = description t /\ agent t' = agent t
  /\ actual_input t' <> None
  /\ (status t' = completed
      \/ (status t' = failed /\ exists e, result t' = "Task failed: " ++ e)).
Proof.
  intros (started & finished & tx & o & wk & wk' & He & ->).
  apply execute_task_fields in He. destruct He as (Hi & Hd & Ha & _ & Hin).
  destruct (finish_task_fields finished o tx) as (Hi' & Hd' & Ha' & Hin' & _ & Ho).
  rewrite Hi', Hd', Ha', Hin', Hi, Hd, Ha, Hin. cbn.
  repeat split; try discriminate.
  destruct o as [r|e]; [left; apply Ho | right].
  destruct Ho as [Hs Hr]. split; [exact Hs | exists e; exact Hr].
Qed.

Lemma steps_outcome cfg visited todo done :
  Spec.steps X cfg visited todo done ->
  Forall2 (fun kv0 kv =>
             fst kv = fst kv0
             /\ id (snd kv) = id (snd kv0)
             /\ description (snd kv) = description (snd kv0)
             /\ agent (snd kv) = agent (snd kv0)
             /\ actual_input (snd kv) <> None
             /\ (status (snd kv) = completed
                 \/ (status (snd kv) = failed
                     /\ exists e, result (snd kv) = "Task failed: " ++ e)))
          todo done.
Proof.
  induction 1 as [|visited k t rest t' done Hstep _ IH]; constructor; [|exact IH].
  cbn. split; [reflexivity|]. eapply step_outcome; exact Hstep.
Qed.

Lemma agent_task_of_finished cfg t :
  actual_input t <> None ->
  (status t = completed
   \/ (status t = failed /\ exists e, result t = "Task failed: " ++ e)) ->
  Spec.summary_of_finished_task (agent_task_of X cfg t).
Proof.
  intros Hin Hs. unfold Spec.summary_of_finished_task, agent_task_of. cbn.
  split; [exact Hin|].
  destruct Hs as [Hs | (Hs & e & He)]; rewrite Hs; cbn.
  - left. repeat split. discriminate.
  - right. repeat split. exists e. now rewrite He.
Qed.

(** The inversion of a normal return of the body of [process_query]. *)
Lemma process_query_body_inv cfg start query sid hist w r w' :
  process_query_body X cfg start query sid hist w = (Ret r, w') ->
  exists plan w0 w1 tasks1 w2 w3 answer title now,
    Supervisor.create_plan X (agent_configs cfg) query hist w0 = (Ret plan, w1)
    /\ run_tasks X cfg sid plan [] (Py.dict_of_list id (tasks plan)) w2 = (tasks1, w3)
    /\ r = mkResponse query answer (map agent (Py.values tasks1)) (now - start)
             true [] (convert_tasks_to_agent_tasks X cfg true tasks1 plan)
             (Some (now - start)) (Some title).
Proof.
  unfold process_query_body. intros H.
  apply bind_ret_inv in H. destruct H as (u0 & w0 & _ & H).
  apply bind_ret_inv in H. destruct H as (plan & w1 & Hplan & H).
  apply bind_ret_inv in H. destruct H as (u1 & w1' & _ & H).
  apply bind_ret_inv in H. destruct H as (u2 & w2 & _ & H).
  apply bind_ret_inv in H. destruct H as (tasks1 & w3 & Hrun & H).
  apply bind_ret_inv in H. destruct H as (u3 & w4 & _ & H).
  apply bind_ret_inv in H. destruct H as (answer & w5 & _ & H).
  apply bind_ret_inv in H. destruct H as (title & w6 & _ & H).
  apply bind_ret_inv in H. destruct H as (u4 & w7 & _ & H).
  apply bind_ret_inv in H. destruct H as (u5 & w8 & _ & H).
  apply bind_ret_inv in H. destruct H as (now & w9 & _ & H).
  inversion H; subst.
  unfold total in Hrun.
  destruct (run_tasks X cfg sid plan [] _ w2) as [t1 w3'] eqn:E.
  inversion Hrun; subst.
  exists plan, w0, w1, tasks1, w2, w3, answer, title, now.
  split; [exact Hplan|]. split; [exact E | reflexivity].
Qed.

(** A response that [process_query] builds after the task loop names the
    responders by task, in the order of the task map of the plan, and
    carries the planner's summary followed by one summary per task, with the
    task's id, agent id and description; synthesis is marked as applied.
    When the ids of the plan are distinct, the responders are those of the
    plan's tasks, in plan order. *)
Theorem response_lists_responders_in_task_order cfg start query sid hist w r w' :
  process_query_body X cfg start query sid hist w = (Ret r, w') ->
  exists plan w0 w1,
    Supervisor.create_plan X (agent_configs cfg) query hist w0 = (Ret plan, w1)
    /\ let task_map := Py.dict_of_list id (tasks plan) in
       r_agents_used r = map agent (Py.values task_map)
       /\ length (r_agents_used r) = length task_map
       /\ map at_id (r_agentTasks r) = "supervisor_plan" :: Py.keys task_map
       /\ map at_agentId (r_agentTasks r) = "planner" :: map agent (Py.values task_map)
       /\ map at_task (r_agentTasks r)
          = "Planning and coordinating task execution"
            :: map description (Py.values task_map)
       /\ r_synthesis_applied r = true
       /\ r_query r = query
       /\ (NoDup (map id (tasks plan)) ->
           r_agents_used r = map agent (tasks plan)).
Proof.
  intros H. apply process_query_body_inv in H.
  destruct H as (plan & w0 & w1 & tasks1 & w2 & w3 & answer & title & now
                 & Hplan & Hrun & ->).
  exists plan, w0, w1. split; [exact Hplan|]. cbv zeta. cbn [r_agents_used
    r_agentTasks r_synthesis_applied r_query].
  set (task_map := Py.dict_of_list id (tasks plan)) in *.
  apply run_tasks_steps in Hrun. destruct Hrun as (done & -> & Hs).
  cbn [app]. apply steps_outcome in Hs.
  assert (Hk: Py.keys done = Py.keys task_map
              /\ map id (Py.values done) = map id (Py.values task_map)
              /\ map agent (Py.values done) = map agent (Py.values task_map)
              /\ map description (Py.values done)
                 = map description (Py.values task_map)).
  { clear - Hs. unfold Py.keys, Py.values.
    induction Hs as [|kv0 kv l0 l (Hk & Hi & Hd & Ha & _) _ IH]; cbn.
    - repeat split.
    - destruct IH as (IH1 & IH2 & IH3 & IH4).
      rewrite Hk, Hi, Ha, Hd, IH1, IH2, IH3, IH4. repeat split. }
  destruct Hk as (Hk & Hi & Ha & Hd).
  assert (Hkey: map id (Py.values task_map) = Py.keys task_map).
  { destruct (dict_of_list_spec id (tasks plan)) as [_ Hspec]. fold task_map in Hspec.
    unfold Py.values, Py.keys. rewrite map_map. apply map_ext_in.
    intros kv Hin. symmetry. apply (Hspec kv Hin). }
  split; [exact Ha|].
  split; [rewrite Ha; unfold Py.values; now rewrite !length_map|].
  unfold convert_tasks_to_agent_tasks. cbn [map].
  rewrite !map_map. cbn [at_id at_agentId at_task agent_task_of].
  split.
  { f_equal. change (map (fun x => id x) (Py.values done) = Py.keys task_map).
    rewrite <- Hkey. exact Hi. }
  split; [f_equal; exact Ha|].
  split; [f_equal; exact Hd|].
  split; [reflexivity|]. split; [reflexivity|].
  intros Hnd. rewrite Ha. subst task_map.
  rewrite (dict_of_list_distinct id (tasks plan) Hnd).
  unfold Py.values. rewrite !map_map. reflexivity.
Qed.

(** In such a response every summary after the planner's is the summary of
    a finished task: none is pending or running, a completed one has its
    result and no error, a failed one its error text and no result. *)
Theorem response_summaries_are_finished cfg start query sid hist w r w' :
  process_query_body X cfg start query sid hist w = (Ret r, w') ->
  exists planner summaries,
    r_agentTasks r = planner :: summaries
    /\ at_id planner = "supervisor_plan" /\ at_status planner = completed
    /\ Forall Spec.summary_of_finished_task summaries.
Proof.
  intros H. apply process_query_body_inv in H.
  destruct H as (plan & w0 & w1 & tasks1 & w2 & w3 & answer & title & now
                 & Hplan & Hrun & ->).
  unfold convert_tasks_to_agent_tasks. cbn [r_agentTasks].
  do 2 eexists. split; [reflexivity|]. split; [reflexivity|]. split; [reflexivity|].
  apply run_tasks_steps in Hrun. destruct Hrun as (done & -> & Hs).
  cbn [app]. apply steps_outcome in Hs.
  clear - Hs. unfold Py.values.
  induction Hs as [|kv0 kv l0 l (_ & _ & _ & _ & Hin & Hst) _ IH]; cbn;
    constructor; [|exact IH].
  apply agent_task_of_finished; assumption.
Qed.

End EngineResponse.

(** A run through the fallback plan with the free-text responder up. *)
Lemma response_lists_responders_in_task_order_witness :
  exists r w',
    Orchestrator.process_query_body (Mock.llm_up "Paris.") Mock.default_config 0
      "What is Neo4j?" (Some "s1") [] tt = (Ret r, w')
    /\ Orchestrator.r_agents_used r = ["llm_agent"]
    /\ map at_id (Orchestrator.r_agentTasks r) = ["supervisor_plan"; "task_1"].
Proof.
  destruct (Orchestrator.process_query_body (Mock.llm_up "Paris.") Mock.default_config 0
              "What is Neo4j?" (Some "s1") [] tt) as [[r|e] w'] eqn:E;
    [|vm_compute in E; discriminate E].
  exists r, w'. split; [reflexivity|].
  destruct (response_lists_responders_in_task_order (Mock.llm_up "Paris.")
              Mock.default_config 0 "What is Neo4j?" (Some "s1") [] tt r w' E)
    as (plan & w0 & w1 & Hplan & _).
  vm_compute in E. inversion E; subst. split; reflexivity.
Defined.

Lemma response_summaries_are_finished_witness :
  exists r w',
    Orchestrator.process_query_body (Mock.llm_up "Paris.") Mock.default_config 0
      "What is Neo4j?" (Some "s1") [] tt = (Ret r, w')
    /\ exists planner summaries,
         Orchestrator.r_agentTasks r = planner :: summaries
         /\ Forall Spec.summary_of_finished_task summaries.
Proof.
  destruct (Orchestrator.process_query_body (Mock.llm_up "Paris.") Mock.default_config 0
              "What is Neo4j?" (Some "s1") [] tt) as [[r|e] w'] eqn:E;
    [|vm_compute in E; discriminate E].
  exists r, w'. split; [reflexivity|].
  destruct (response_summaries_are_finished (Mock.llm_up "Paris.")
              Mock.default_config 0 "What is Neo4j?" (Some "s1") [] tt r w' E)
    as (planner & summaries & Hr & _ & _ & Hall).
  exists planner, summaries. split; [exact Hr | exact Hall].
Defined.

(* ===================================================================== *)
(** * Dicts built from lists *)
(* ===================================================================== *)

Section DictOfList.

Lemma find_app {A} (f : A -> bool) (l1 l2 : list A) :
  find f (l1 ++ l2) = match find f l1 with
                      | Some x => Some x
                      | None => find f l2
                      end.
Proof.
  induction l1 as [|x l1 IH]; cbn; [reflexivity|].
  destruct (f x); [reflexivity | exact IH].
Qed.

Lemma dict_set_length {V} k (v : V) d :
  length (Py.dict_set k v d) <= S (length d).
Proof.
  induction d as [|[k1 v1] d IH]; cbn; [lia|].
  destruct (String.eqb k k1); cbn; lia.
Qed.

(** A dict built from a list by its keys holds, under each key, the last
    element of the list with that key; its keys are distinct and it has at
    most as many entries as the list. So, of the tasks of a plan that share
    an id, the task map of [process_query] holds the last one only, and an
    update of the agent configurations with a list keeps the last agent of
    each id. *)
Theorem dict_of_list_keeps_last {V} (key : V -> string) (l : list V) :
  (forall k,
      Py.dict_get k (Py.dict_of_list key l)
      = find (fun x => String.eqb (key x) k) (rev l))
  /\ NoDup (Py.keys (Py.dict_of_list key l))
  /\ length (Py.dict_of_list key l) <= length l
  /\ (forall x, In x l -> In (key x) (Py.keys (Py.dict_of_list key l))).
Proof.
  unfold Py.dict_of_list.
  assert (G: forall d k,
             Py.dict_get k (fold_left (fun d x => Py.dict_set (key x) x d) l d)
             = match find (fun x => String.eqb (key x) k) (rev l) with
               | Some x => Some x
               | None => Py.dict_get k d
               end).
  { induction l as [|x l IH]; intros d k; cbn; [reflexivity|].
    rewrite IH, find_app. destruct (find _ (rev l)); [reflexivity|].
    cbn. rewrite dict_get_set, String.eqb_sym.
    destruct (String.eqb (key x) k); reflexivity. }
  assert (L: forall d,
             length (fold_left (fun d x => Py.dict_set (key x) x d) l d)
             <= length d + length l).
  { clear G. induction l as [|x l IH]; intros d; cbn; [lia|].
    specialize (IH (Py.dict_set (key x) x d)).
    pose proof (dict_set_length (key x) x d). lia. }
  assert (K: forall d x,
             In x l \/ In (key x) (map fst d) ->
             In (key x)
                (map fst (fold_left (fun d x => Py.dict_set (key x) x d) l d))).
  { clear G L. induction l as [|y l IH]; intros d x H; cbn.
    - destruct H as [[]|H]; exact H.
    - apply IH. destruct H as [[->|H]|H].
      + right. apply dict_set_keys_in. left. reflexivity.
      + left. exact H.
      + right. apply dict_set_keys_in. right. exact H. }
  split; [|split; [|split]].
  - intros k. rewrite G. destruct (find _ (rev l)); reflexivity.
  - apply (dict_of_list_spec key l).
  - apply (L []).
  - intros x Hx. apply K. left. exact Hx.
Qed.

(** After an update with a list, the enabled agents are agents of the list,
    enabled, no two of them with the same id. *)
Theorem enabled_agents_after_update (agents : list Agent) cm model :
  let cfg := Orchestrator.mkConfig
               (Orchestrator.update_agent_configs (inl agents)) cm model in
  NoDup (map agent_id (Orchestrator.get_enabled_agents cfg))
  /\ (forall a, In a (Orchestrator.get_enabled_agents cfg) ->
                In a agents /\ agent_isEnabled a = true
                /\ Py.dict_get (agent_id a) (Orchestrator.agent_configs cfg) = Some a)
  /\ Orchestrator.get_enabled_agents cfg
     = Supervisor.get_enabled_agents (Orchestrator.agent_configs cfg).
Proof.
  cbv zeta. unfold Orchestrator.get_enabled_agents. cbn [Orchestrator.agent_configs
    Orchestrator.update_agent_configs].
  destruct (dict_of_list_spec agent_id agents) as [Hnd Hspec].
  set (d := Py.dict_of_list agent_id agents) in *.
  assert (Hget: forall kv, In kv d -> Py.dict_get (fst kv) d = Some (snd kv)).
  { clear Hspec. induction d as [|[k v] d IH]; intros kv Hin; [destruct Hin|].
    cbn in Hnd. inversion Hnd as [|x l Hnin Hnd']; subst.
    cbn. destruct Hin as [<-|Hin].
    - cbn. now rewrite String.eqb_refl.
    - destruct (String.eqb_spec (fst kv) k) as [E|_]; [|auto].
      exfalso. apply Hnin. rewrite <- E. apply in_map. exact Hin. }
  split; [|split; [|reflexivity]].
  - assert (Hids: map agent_id (Py.values d) = map fst d).
    { unfold Py.values. rewrite map_map. apply map_ext_in. intros kv Hin.
      symmetry. apply (Hspec kv Hin). }
    unfold Py.keys in Hnd. rewrite <- Hids in Hnd. clear - Hnd.
    induction (Py.values d) as [|a l IH]; cbn; [constructor|].
    cbn in Hnd. inversion Hnd as [|x xs Hnin Hnd']; subst.
    destruct (agent_isEnabled a); cbn; [constructor|]; auto.
    intros Hin. apply Hnin. apply in_map_iff in Hin.
    destruct Hin as (b & Hb & Hin). apply filter_In in Hin.
    rewrite <- Hb. apply in_map. apply Hin.
  - intros a Ha. apply filter_In in Ha. destruct Ha as [Hin Hen].
    unfold Py.values in Hin. apply in_map_iff in Hin. destruct Hin as (kv & <- & Hin).
    destruct (Hspec kv Hin) as [Hk Hl].
    split; [exact Hl|]. split; [exact Hen|]. rewrite <- Hk. apply Hget. exact Hin.
Qed.

End DictOfList.

(* ===================================================================== *)
(** * The free-text responder: which answer is taken *)
(* ===================================================================== *)

Section LLMAgentMore.
Context {W : Type} (X : Externals W).
Import LLMAgent.
Import Spec.

Lemma scan_output_cons result p ps rest :
  scan_output result (Some (p :: ps) :: rest)
  = if truthy (match first_text (p :: ps) with
               | Some t => Some t
               | None => result
               end)
    then match first_text (p :: ps) with
         | Some t => Some t
         | None => result
         end
    else scan_output (match first_text (p :: ps) with
                      | Some t => Some t
                      | None => result
                      end) rest.
Proof. reflexivity. Qed.

Lemma scan_output_spec output :
  forall result,
    truthy result = false ->
    truthy (scan_output result output) = existsb has_answer output
    /\ (forall item, find has_answer output = Some item ->
                     exists parts, item = Some parts
                                   /\ scan_output result output = first_text parts).
Proof.
  induction output as [|item output IH]; intros result Hr.
  - split; [exact Hr | discriminate].
  - destruct item as [[|p ps]|].
    + cbn. apply IH. exact Hr.
    + rewrite scan_output_cons. cbn [existsb find].
      change (has_answer (Some (p :: ps))) with (truthy (first_text (p :: ps))).
      destruct (first_text (p :: ps)) as [t|] eqn:Ef.
      * destruct (truthy (Some t)) eqn:Et.
        -- split; [rewrite Et; reflexivity|].
           intros item H. inversion H; subst.
           exists (p :: ps). split; [reflexivity | symmetry; exact Ef].
        -- cbn [orb]. apply IH. exact Et.
      * cbn [truthy orb]. rewrite Hr. apply IH. exact Hr.
    + cbn. apply IH. exact Hr.
Qed.

(** The text taken from the output of the primary model is the first text
    part of the first item whose first text part is not empty; without such
    an item nothing usable is taken. *)
Theorem primary_answer_is_first_non_empty_text (output : list OutputItem) :
  truthy (scan_output None output) = existsb has_answer output
  /\ (forall item,
        find has_answer output = Some item ->
        exists parts t,
          item = Some parts /\ first_text parts = Some t /\ t <> EmptyString
          /\ scan_output None output = Some t)
  /\ (find has_answer output = None -> truthy (scan_output None output) = false).
Proof.
  destruct (scan_output_spec output None eq_refl) as [H1 H2].
  split; [exact H1|]. split.
  - intros item Hf. destruct (H2 item Hf) as (parts & -> & Hs).
    apply find_some in Hf. destruct Hf as [_ Hg].
    destruct parts as [|p ps]; [discriminate Hg|]. cbn [has_answer] in Hg.
    destruct (first_text (p :: ps)) as [t|] eqn:Ef; [|discriminate Hg].
    exists (p :: ps), t. repeat split; try assumption.
    intros ->. discriminate Hg.
  - intros Hn. rewrite H1. apply not_true_is_false. intros He.
    apply existsb_exists in He. destruct He as (item & Hin & Hg).
    apply (find_none _ _ Hn) in Hin. congruence.
Qed.

(** The fallback model is asked a second time when the primary model gave
    nothing usable and the first call of the fallback raised: that first
    error is then reported as the primary model's. *)
Theorem blank_primary_answer_asks_fallback_twice model query context w
  output w1 e1 w2 :
  responses_create X model (full_prompt query context) w = (Ret output, w1) ->
  blank (scan_output None output) = true ->
  chat_create X fallback_model (full_prompt query context) w1 = (Raise e1, w2) ->
  (forall e2 w3,
      chat_create X fallback_model (full_prompt query context) w2 = (Raise e2, w3) ->
      search X model query context w
      = (Ret ("LLM Agent Error: Both models failed - GPT-5: " ++ e1
              ++ ", GPT-4: " ++ e2), w3))
  /\ (forall r w3,
        chat_create X fallback_model (full_prompt query context) w2 = (Ret r, w3) ->
        search X model query context w
        = (Ret (research_result (fst (now_strftime X w3))
                  (if blank r then "Both gpt5 and gpt4 returned empty responses"
                   else text_of r)
                  fallback_model),
           snd (now_strftime X w3))).
Proof.
  intros H1 Hb H2. split.
  - intros e2 w3 H3. unfold search, try_except at 1, bind at 1.
    unfold ask_models, try_except, bind. rewrite H1, Hb, H2, H3. reflexivity.
  - intros r w3 H3. unfold search, try_except at 1, bind at 1.
    unfold ask_models, try_except, bind at 1. unfold bind at 1.
    rewrite H1, Hb. unfold bind at 1. rewrite H2. unfold bind at 1. rewrite H3.
    cbn [ret fst snd]. unfold bind, total.
    destruct (now_strftime X w3) as [ts w4]. reflexivity.
Qed.

Lemma ask_models_model model prompt w rm w' :
  ask_models X model prompt w = (Ret rm, w') ->
  snd rm = fallback_model \/ (snd rm = model /\ blank (fst rm) = false).
Proof.
  unfold ask_models, try_except, bind.
  destruct (responses_create X model prompt w) as [[output|e] w1].
  - destruct (blank (scan_output None output)) eqn:Hb.
    + destruct (chat_create X fallback_model prompt w1) as [[r|e] w2].
      * intros H; inversion H; subst. left; reflexivity.
      * destruct (chat_create X fallback_model prompt w2) as [[r|e'] w3];
          intros H; inversion H; subst. left; reflexivity.
    + intros H; inversion H; subst. right. split; [reflexivity | exact Hb].
  - destruct (chat_create X fallback_model prompt w1) as [[r|e'] w2];
      intros H; inversion H; subst. left; reflexivity.
Qed.

(** What [search] returns is either the error message, or the research
    block around a text that is not blank, signed by the configured model or
    by the fallback model; the configured model signs only a text it gave
    itself. *)
Theorem search_result_is_research_or_error model query context w :
  exists s w',
    search X model query context w = (Ret s, w')
    /\ ((exists e, s = "LLM Agent Error: " ++ e)
        \/ (exists timestamp text model_used,
              s = research_result timestamp text model_used
              /\ blank (Some text) = false
              /\ (model_used = fallback_model
                  \/ (model_used = model
                      /\ exists output w1,
                           responses_create X model (full_prompt query context) w
                           = (Ret output, w1)
                           /\ scan_output None output = Some text)))).
Proof.
  unfold search, try_except at 1, bind at 1.
  destruct (ask_models X model (full_prompt query context) w) as [[rm|e] w1] eqn:Ha.
  - unfold bind, total. destruct (now_strftime X w1) as [ts w2].
    do 2 eexists. split; [reflexivity|]. right.
    do 3 eexists. split; [reflexivity|].
    destruct (blank (fst rm)) eqn:Hb.
    + split; [reflexivity|]. left.
      destruct (ask_models_model _ _ _ _ _ Ha) as [Hm | [_ Hnb]];
        [exact Hm | congruence].
    + assert (Ht: fst rm = Some (text_of (fst rm))).
      { destruct (fst rm); [reflexivity | discriminate Hb]. }
      split; [rewrite <- Ht; exact Hb|].
      destruct (ask_models_model _ _ _ _ _ Ha) as [Hm | [Hm _]]; [left; exact Hm|].
      destruct (String.eqb_spec model fallback_model) as [E|Hne];
        [left; congruence|].
      right. split; [exact Hm|].
      unfold ask_models, try_except, bind in Ha.
      destruct (responses_create X model _ w) as [[output|e] w0].
      * destruct (blank (scan_output None output)) eqn:Hb'.
        -- exfalso.
           destruct (chat_create X fallback_model _ w0) as [[r|e] w3].
           ++ injection Ha as Hrm Hw. rewrite <- Hrm in Hm. cbn in Hm. congruence.
           ++ destruct (chat_create X fallback_model _ w3) as [[r|e'] w4];
                [|discriminate Ha].
              injection Ha as Hrm Hw. rewrite <- Hrm in Hm. cbn in Hm. congruence.
        -- injection Ha as Hrm Hw. exists output, w0. split; [reflexivity|].
           rewrite <- Hrm in Ht |- *. exact Ht.
      * exfalso.
        destruct (chat_create X fallback_model _ w0) as [[r|e'] w3];
          [|discriminate Ha].
        injection Ha as Hrm Hw. rewrite <- Hrm in Hm. cbn in Hm. congruence.
  - do 2 eexists. split; [reflexivity|]. left. eauto.
Qed.

End LLMAgentMore.

(** The primary model answers with blanks and the fallback model raises
    twice. *)
Lemma blank_primary_answer_asks_fallback_twice_witness :
  LLMAgent.search Mock.blank_primary "gpt-4o" "What is Neo4j?" EmptyString tt
  = (Ret "LLM Agent Error: Both models failed - GPT-5: Rate limit reached., GPT-4: Rate limit reached.",
     tt).
Proof.
  apply (proj1 (blank_primary_answer_asks_fallback_twice Mock.blank_primary
                  "gpt-4o" "What is Neo4j?" EmptyString tt
                  [None; Some [Some "  "]] tt "Rate limit reached." tt
                  eq_refl eq_refl eq_refl)
           "Rate limit reached." tt).
  reflexivity.
Defined.

(* ===================================================================== *)
(** * The graph responder's export *)
(* ===================================================================== *)

Section GraphExport.
Import Neo4jAgent.

Lemma mem_in x l : Py.mem x l = true <-> In x l.
Proof.
  unfold Py.mem. rewrite existsb_exists. split.
  - intros (y & Hin & Hy). apply String.eqb_eq in Hy. now subst.
  - intros Hin. exists x. split; [exact Hin | apply String.eqb_refl].
Qed.

Lemma mem_false x l : Py.mem x l = false <-> ~ In x l.
Proof.
  rewrite <- mem_in. destruct (Py.mem x l); split; congruence.
Qed.

(** [_flatten_list] gives the values of a flat list as they are, those of a
    concatenation in order, and looks through any level of nesting; a value
    that is not a list comes back as a list of one. *)
Theorem flatten_list_spec :
  (forall value, flatten_list (Leaf value) = [value])
  /\ (forall values, flatten_list (Branch (map Leaf values)) = values)
  /\ (forall items1 items2,
        flatten_list (Branch (items1 ++ items2))
        = (flatten_list (Branch items1) ++ flatten_list (Branch items2))%list)
  /\ (forall items rest,
        flatten_list (Branch (Branch items :: rest))
        = (flatten_list (Branch items) ++ flatten_list (Branch rest))%list)
  /\ (forall items, flatten_list (Branch [Branch items]) = flatten_list (Branch items)).
Proof.
  assert (Happ: forall items1 items2,
             flatten_list (Branch (items1 ++ items2))
             = (flatten_list (Branch items1) ++ flatten_list (Branch items2))%list).
  { induction items1 as [|item items1 IH]; intros items2; [reflexivity|].
    specialize (IH items2). cbn in IH |- *.
    destruct item; cbn; rewrite IH; [reflexivity | now rewrite app_assoc]. }
  split; [reflexivity|]. split; [|split; [exact Happ|split]].
  - induction values as [|v values IH]; [reflexivity|].
    cbn in IH |- *. now rewrite IH.
  - reflexivity.
  - intros items. cbn. now rewrite app_nil_r.
Qed.

Lemma collect_nodes_ids processed candidates :
  let exported := collect_nodes processed candidates in
  NoDup (map nd_id exported)
  /\ Forall (fun nd => nd_elementId nd = None) exported
  /\ (forall e,
        In (Some e) (map nd_id exported) <->
        (~ In e processed
         /\ exists node, In (Some node) candidates /\ rn_props node <> []
                         /\ rn_element_id node = Some e)).
Proof.
  cbv zeta. revert processed.
  induction candidates as [|c candidates IH]; intros processed.
  - cbn. split; [constructor|]. split; [constructor|].
    intros e. split; [intros [] | intros (_ & node & [] & _)].
  - assert (Hskip:
      collect_nodes processed (c :: candidates) = collect_nodes processed candidates ->
      (forall e node, c = Some node -> rn_props node <> [] ->
                      rn_element_id node = Some e -> In e processed) ->
      NoDup (map nd_id (collect_nodes processed (c :: candidates)))
      /\ Forall (fun nd => nd_elementId nd = None)
           (collect_nodes processed (c :: candidates))
      /\ (forall e,
            In (Some e) (map nd_id (collect_nodes processed (c :: candidates))) <->
            (~ In e processed
             /\ exists node, In (Some node) (c :: candidates) /\ rn_props node <> []
                             /\ rn_element_id node = Some e))).
    { intros E Hhead. rewrite E. destruct (IH processed) as (H1 & H2 & H3).
      split; [exact H1|]. split; [exact H2|]. intros e. rewrite H3. split.
      - intros (Hn & n & Hin & Hp & He). split; [exact Hn|].
        exists n. split; [right; exact Hin | split; assumption].
      - intros (Hn & n & [Hin|Hin] & Hp & He).
        + exfalso. apply Hn. eapply Hhead; eauto.
        + split; [exact Hn|]. eauto. }
    destruct c as [node|].
    2:{ apply Hskip; [reflexivity | discriminate]. }
    destruct (rn_props node) as [|kv props] eqn:Ep.
    { apply Hskip; [cbn; now rewrite Ep|].
      intros e n E Hp _. inversion E; subst. congruence. }
    destruct (rn_element_id node) as [eid|] eqn:Eid.
    2:{ apply Hskip; [cbn; now rewrite Ep, Eid|].
        intros e n E _ He. inversion E; subst. congruence. }
    destruct (Py.mem eid processed) eqn:Em.
    { apply mem_in in Em. apply Hskip; [cbn; now rewrite Ep, Eid, (proj2 (mem_in _ _) Em)|].
      intros e n E _ He. inversion E; subst. rewrite Eid in He.
      inversion He; subst. exact Em. }
    clear Hskip.
    assert (E: collect_nodes processed (Some node :: candidates)
               = export_node eid node :: collect_nodes (eid :: processed) candidates)
      by (cbn; now rewrite Ep, Eid, Em).
    rewrite E. apply mem_false in Em.
    destruct (IH (eid :: processed)) as (H1 & H2 & H3).
    cbn [map nd_id export_node]. split; [|split].
    + constructor; [|exact H1]. intros Hin. apply H3 in Hin.
      destruct Hin as [Hn _]. apply Hn. left. reflexivity.
    + constructor; [reflexivity | exact H2].
    + intros e. cbn [In]. rewrite H3. split.
      * intros [He | (Hn & n & Hin & Hp & He)].
        -- inversion He; subst. split; [exact Em|].
           exists node. split; [left; reflexivity|]. split; [congruence | exact Eid].
        -- split; [intros Hq; apply Hn; right; exact Hq|].
           exists n. split; [right; exact Hin | split; assumption].
      * intros (Hn & n & Hin & Hp & He).
        destruct (String.eqb_spec e eid) as [->|Hne]; [left; reflexivity|].
        right. split.
        -- intros [Eq|Hq]; [congruence | contradiction].
        -- destruct Hin as [Hin|Hin].
           ++ inversion Hin; subst. congruence.
           ++ eauto.
Qed.

(** The nodes exported from the result records have pairwise distinct ids;
    each of them is a candidate that is truthy, that is, has a property, and
    has an [element_id] that had not been processed, and every such
    candidate is exported. *)
Theorem exported_nodes_have_distinct_ids processed candidates :
  let exported := collect_nodes processed candidates in
  NoDup (map nd_id exported)
  /\ Forall (fun nd => nd_elementId nd = None) exported
  /\ (forall e,
        In (Some e) (map nd_id exported) <->
        (~ In e processed
         /\ exists node, In (Some node) candidates /\ rn_props node <> []
                         /\ rn_element_id node = Some e)).
Proof.
  apply collect_nodes_ids.
Qed.

(** Every exported node is the export of a candidate under its
    [element_id]. *)
Lemma collect_nodes_exports processed candidates :
  Forall (fun nd => exists eid node,
                      In (Some node) candidates /\ nd = export_node eid node)
    (collect_nodes processed candidates).
Proof.
  revert processed. induction candidates as [|c candidates IH]; intros processed;
    [constructor|].
  assert (Hrest: forall p,
            Forall (fun nd => exists eid node,
                                In (Some node) (c :: candidates)
                                /\ nd = export_node eid node)
              (collect_nodes p candidates)).
  { intros p. eapply Forall_impl; [|apply IH].
    intros nd (eid & node & Hin & E). exists eid, node. split; [right|]; assumption. }
  cbn [collect_nodes]. destruct (falsy c); [apply Hrest|].
  destruct c as [node|]; [|apply Hrest].
  destruct (rn_element_id node) as [eid|]; [|apply Hrest].
  destruct (Py.mem eid processed); [apply Hrest|].
  constructor; [|apply Hrest]. exists eid, node. split; [left|]; reflexivity.
Qed.

Lemma collect_nodes_named processed candidates :
  Forall (fun nd => exists e, nd_id nd = Some e) (collect_nodes processed candidates).
Proof.
  eapply Forall_impl; [|apply collect_nodes_exports].
  intros nd (eid & node & _ & ->). exists eid. reflexivity.
Qed.

Lemma dict_set_keys_same {V} k (v : V) d :
  In k (map fst d) -> map fst (Py.dict_set k v d) = map fst d.
Proof.
  induction d as [|[k1 v1] d IH]; cbn; [intros []|].
  destruct (String.eqb_spec k k1) as [->|Hne]; cbn; [reflexivity|].
  intros [E|Hin]; [congruence|]. f_equal. apply IH. exact Hin.
Qed.

(** The export keeps the keys of the properties and every property but
    [embedding], which it sets to [None] when the node has one. *)
Theorem export_nulls_embedding_only (node_props : Py.dict prop_value) :
  Py.keys (null_embedding node_props) = Py.keys node_props
  /\ (forall k, k <> "embedding" ->
                Py.dict_get k (null_embedding node_props) = Py.dict_get k node_props)
  /\ Py.dict_get "embedding" (null_embedding node_props)
     = (if Py.dict_mem "embedding" node_props then Some None else None)
  /\ (NoDup (Py.keys node_props) ->
      forall v, In ("embedding", v) (null_embedding node_props) -> v = None).
Proof.
  unfold null_embedding.
  destruct (Py.dict_mem "embedding" node_props) eqn:E.
  - split; [|split; [|split]].
    + apply dict_set_keys_same. apply dict_mem_in. exact E.
    + intros k Hk. rewrite dict_get_set.
      destruct (String.eqb_spec k "embedding"); [contradiction | reflexivity].
    + rewrite dict_get_set. reflexivity.
    + intros Hnd v. apply dict_set_in_same. exact Hnd.
  - split; [reflexivity|]. split; [reflexivity|]. split.
    + unfold Py.dict_mem in E. destruct (Py.dict_get "embedding" node_props);
        [discriminate E | reflexivity].
    + intros _ v Hin. apply (in_map fst) in Hin. apply dict_mem_in in Hin.
      cbn [fst] in Hin. congruence.
Qed.

(** No exported node carries an embedding value, when the properties of the
    nodes of the store have distinct keys. *)
Theorem exported_nodes_carry_no_embedding processed candidates :
  Forall (fun c => match c with
                   | Some node => NoDup (Py.keys (rn_props node))
                   | None => True
                   end) candidates ->
  Forall (fun nd => forall v, In ("embedding", v) (nd_properties nd) -> v = None)
    (collect_nodes processed candidates).
Proof.
  intros H. pose proof (collect_nodes_exports processed candidates) as Hex.
  eapply Forall_impl; [|exact Hex].
  intros nd (eid & node & Hin & ->) v. cbn [export_node nd_properties].
  apply null_embedding_values.
  exact (proj1 (Forall_forall _ _) H (Some node) Hin).
Qed.

End GraphExport.

Lemma exported_nodes_carry_no_embedding_witness :
  map nd_id (Neo4jAgent.collect_nodes [] Mock.two_records)
  = [Some "4:abc:1"; Some "4:abc:2"]
  /\ Forall (fun nd => forall v, In ("embedding", v) (nd_properties nd) -> v = None)
       (Neo4jAgent.collect_nodes [] Mock.two_records).
Proof.
  split; [reflexivity|].
  apply (exported_nodes_carry_no_embedding [] Mock.two_records).
  repeat constructor; cbn; intuition discriminate.
Defined.

(* ===================================================================== *)
(** * The recorder: supplementary lists, relationships and sources *)
(* ===================================================================== *)

Section RecorderGraph.
Import Audit.
Import Spec.
Variable rejects : list StoreOp -> StoreOp -> option exn.

Lemma session_run_cases op log :
  (exists e, session_run rejects op log = (Raise e, log))
  \/ session_run rejects op log = (Ret tt, (log ++ [op])%list).
Proof.
  unfold session_run. destruct (rejects log op); eauto.
Qed.

Lemma dict_get_set_fresh {V} k k' (v v' : V) d :
  Py.dict_mem k' d = false -> Py.dict_get k d = Some v ->
  Py.dict_get k (Py.dict_set k' v' d) = Some v.
Proof.
  intros Hf Hk. rewrite dict_get_set.
  destruct (String.eqb_spec k k') as [->|_]; [|exact Hk].
  unfold Py.dict_mem in Hf. rewrite Hk in Hf. discriminate Hf.
Qed.

(** One turn of the loop over a supplementary list: nothing is bound unless
    the node and its link were both accepted, and then under a new key. *)
Lemma materialize_additional_cases name graphrag_id timestamp m entry log :
  exists m' ops,
    materialize_additional rejects name graphrag_id timestamp m entry log
    = (Ret m', (log ++ ops)%list)
    /\ Forall (fun op => additional_op op = true) ops
    /\ (m' = m
        \/ exists k,
             Py.dict_mem k m = false
             /\ m' = Py.dict_set k (additional_node_id name graphrag_id (fst entry)) m
             /\ In (LinkRetrievedAdditional graphrag_id
                      (additional_node_id name graphrag_id (fst entry))) ops).
Proof.
  unfold materialize_additional.
  destruct (Py.or_else _ _) as [k|].
  2:{ exists m, []. rewrite app_nil_r. repeat split; auto. }
  destruct (Py.dict_mem k m) eqn:Em.
  { exists m, []. rewrite app_nil_r. repeat split; auto. }
  unfold try_except, bind.
  destruct (session_run_cases
              (additional_create name graphrag_id timestamp (fst entry) k (snd entry)) log)
    as [[e H1] | H1]; rewrite H1.
  { exists m, []. rewrite app_nil_r. cbn. repeat split; auto. }
  destruct (session_run_cases
              (LinkRetrievedAdditional graphrag_id
                 (additional_node_id name graphrag_id (fst entry)))
              (log ++ [additional_create name graphrag_id timestamp (fst entry) k
                         (snd entry)])%list)
    as [[e H2] | H2]; rewrite H2.
  - eexists m, [_]. cbn. split; [reflexivity|]. split; [|left; reflexivity].
    repeat constructor.
  - eexists _, [_; _]. cbn. split; [now rewrite <- app_assoc|]. split.
    + repeat constructor.
    + right. exists k. split; [exact Em|]. split; [reflexivity|]. cbn. auto.
Qed.

Lemma additional_list_cases name graphrag_id timestamp entries m log :
  exists m' ops,
    for_fold entries m (materialize_additional rejects name graphrag_id timestamp) log
    = (Ret m', (log ++ ops)%list)
    /\ Forall (fun op => additional_op op = true) ops
    /\ (forall k v, Py.dict_get k m = Some v -> Py.dict_get k m' = Some v)
    /\ (forall k a, Py.dict_get k m = None -> Py.dict_get k m' = Some a ->
                    In (LinkRetrievedAdditional graphrag_id a) ops).
Proof.
  revert m log. induction entries as [|entry entries IH]; intros m log.
  - exists m, []. cbn. rewrite app_nil_r. repeat split; auto. congruence.
  - destruct (materialize_additional_cases name graphrag_id timestamp m entry log)
      as (m1 & ops1 & H1 & F1 & C1).
    destruct (IH m1 (log ++ ops1)%list) as (m2 & ops2 & H2 & F2 & K2 & N2).
    exists m2, (ops1 ++ ops2)%list. cbn [for_fold]. unfold bind. rewrite H1, H2.
    split; [now rewrite app_assoc|]. split; [apply Forall_app; auto|]. split.
    + intros k v Hk. apply K2. destruct C1 as [-> | (k' & Hf & -> & _)]; [exact Hk|].
      now apply dict_get_set_fresh.
    + intros k a Hn Ha. apply in_or_app.
      destruct C1 as [-> | (k' & Hf & -> & Hin)]; [right; now apply (N2 k)|].
      destruct (Py.dict_get k (Py.dict_set k' (additional_node_id name graphrag_id
                                                 (fst entry)) m)) as [b|] eqn:Eb.
      * left. pose proof (K2 _ _ Eb) as Hb. rewrite Hb in Ha.
        rewrite dict_get_set in Eb.
        destruct (String.eqb_spec k k') as [->|_]; [|congruence].
        inversion Eb; subst. inversion Ha; subst. exact Hin.
      * right. now apply (N2 k).
Qed.

Lemma supplementary_loop_cases graphrag_id timestamp graph_data m log :
  exists m' ops,
    supplementary_loop rejects graphrag_id timestamp graph_data m log
    = (Ret m', (log ++ ops)%list)
    /\ Forall (fun op => additional_op op = true) ops
    /\ (forall k v, Py.dict_get k m = Some v -> Py.dict_get k m' = Some v)
    /\ (forall k a, Py.dict_get k m = None -> Py.dict_get k m' = Some a ->
                    In (LinkRetrievedAdditional graphrag_id a) ops).
Proof.
  unfold supplementary_loop.
  generalize (supplementary_lists graph_data). intros lists. revert m log.
  induction lists as [|named lists IH]; intros m log.
  - exists m, []. cbn. rewrite app_nil_r. repeat split; auto. congruence.
  - destruct (additional_list_cases (fst named) graphrag_id timestamp
                (enumerate (snd named)) m log) as (m1 & ops1 & H1 & F1 & K1 & N1).
    destruct (IH m1 (log ++ ops1)%list) as (m2 & ops2 & H2 & F2 & K2 & N2).
    exists m2, (ops1 ++ ops2)%list. cbn [for_fold]. unfold bind. rewrite H1, H2.
    split; [now rewrite app_assoc|]. split; [apply Forall_app; auto|]. split.
    + intros k v Hk. apply K2, K1, Hk.
    + intros k a Hn Ha. apply in_or_app.
      destruct (Py.dict_get k m1) as [b|] eqn:Eb.
      * left. pose proof (K2 _ _ Eb) as Hb. rewrite Hb in Ha. inversion Ha; subst.
        now apply (N1 k).
      * right. now apply (N2 k).
Qed.

(** The loops over the three supplementary lists never raise, whatever the
    store refuses; they send only statements that create or link additional
    nodes, keep every binding of the map they are given, and bind a new
    external id only to a node whose link the store accepted. *)
Theorem supplementary_loop_only_adds_bindings graphrag_id timestamp graph_data m log :
  exists m' ops,
    supplementary_loop rejects graphrag_id timestamp graph_data m log
    = (Ret m', (log ++ ops)%list)
    /\ Forall (fun op => additional_op op = true) ops
    /\ (forall k v, Py.dict_get k m = Some v -> Py.dict_get k m' = Some v)
    /\ (forall k a, Py.dict_get k m = None -> Py.dict_get k m' = Some a ->
                    In (LinkRetrievedAdditional graphrag_id a) ops).
Proof.
  apply supplementary_loop_cases.
Qed.

Lemma relationship_loop_cases timestamp entity_map
  (entries : list (nat * RelData)) (counts : nat * nat) log :
  exists created failed ops,
    for_fold entries counts (materialize_relationship rejects timestamp entity_map) log
    = (Ret (fst counts + created, snd counts + failed), (log ++ ops)%list)
    /\ created + failed = length entries
    /\ length ops = created
    /\ Forall (fun op => relationship_creation op = true) ops.
Proof.
  revert counts log. induction entries as [|entry entries IH]; intros counts log.
  - exists 0, 0, []. cbn. rewrite !Nat.add_0_r, app_nil_r.
    destruct counts; repeat split; auto.
  - assert (Hturn:
      (materialize_relationship rejects timestamp entity_map counts entry log
       = (Ret (fst counts, S (snd counts)), log))
      \/ exists op,
           relationship_creation op = true
           /\ materialize_relationship rejects timestamp entity_map counts entry log
              = (Ret (S (fst counts), snd counts), (log ++ [op])%list)).
    { unfold materialize_relationship.
      destruct (Py.nonempty (Py.dict_get _ entity_map)) as [a|]; [|left; reflexivity].
      destruct (Py.nonempty (Py.dict_get _ entity_map)) as [b|]; [|left; reflexivity].
      unfold try_except, bind.
      match goal with
      | |- context [session_run rejects ?op log] =>
          destruct (session_run_cases op log) as [[e H1] | H1]; rewrite H1;
          [left; reflexivity | right; exists op; split; reflexivity]
      end. }
    destruct Hturn as [H1 | (op & Hop & H1)].
    + destruct (IH (fst counts, S (snd counts)) log) as (c & f & ops & H2 & Hs & Hl & HF).
      exists c, (S f), ops. cbn [for_fold]. unfold bind. rewrite H1, H2.
      cbn [fst snd].
      replace (snd counts + S f) with (S (snd counts) + f) by lia.
      split; [reflexivity|].
      split; [cbn; lia|]. split; assumption.
    + destruct (IH (S (fst counts), snd counts) (log ++ [op])%list)
        as (c & f & ops & H2 & Hs & Hl & HF).
      exists (S c), f, (op :: ops). cbn [for_fold]. unfold bind. rewrite H1, H2.
      cbn [fst snd].
      replace (fst counts + S c) with (S (fst counts) + c) by lia.
      split; [rewrite <- app_assoc; reflexivity|].
      split; [cbn; lia|]. split; [cbn; lia|]. constructor; assumption.
Qed.

(** The loop over the relationships never raises; every relationship is
    counted once, as created or as failed; the statements sent are the
    created relationships, one per count. *)
Theorem relationship_counters_account_for_every_entry timestamp entity_map
  (entries : list (nat * RelData)) (counts : nat * nat) log :
  exists created failed ops,
    for_fold entries counts (materialize_relationship rejects timestamp entity_map) log
    = (Ret (fst counts + created, snd counts + failed), (log ++ ops)%list)
    /\ created + failed = length entries
    /\ length ops = created
    /\ Forall (fun op => relationship_creation op = true) ops.
Proof.
  apply relationship_loop_cases.
Qed.

Variable py_int : string -> option Z.

Lemma first_result_in p table r :
  first_result p table = Some r -> In r (Py.values table).
Proof.
  induction table as [|[k v] table IH]; cbn; [discriminate|].
  destruct (p k); intros H; [inversion H; auto | right; auto].
Qed.

Lemma last_in {A} (l : list A) (d : A) : In (last l d) (d :: l).
Proof.
  induction l as [|a l IH]; [left; reflexivity|].
  destruct l as [|b l]; [right; left; reflexivity|].
  change (last (a :: b :: l) d) with (last (b :: l) d).
  destruct IH as [E|Hin]; [left; exact E | right; right; exact Hin].
Qed.

Lemma nonempty_some o s : Py.nonempty o = Some s -> o = Some s.
Proof.
  destruct o as [[|c t]|]; cbn; intros H; inversion H; reflexivity.
Qed.

(** The result a sub-graph is attached to is taken from the handle table:
    with an empty table there is none, with any other table there is one and
    it is a handle of the table, whatever the task id and the responder
    name. *)
Theorem resolve_result_id_picks_a_handle table neo4j_agent_name task_id :
  match table with
  | [] => resolve_result_id py_int table neo4j_agent_name task_id = None
  | _ :: _ =>
      exists r, resolve_result_id py_int table neo4j_agent_name task_id = Some r
                /\ In r (Py.values table)
  end.
Proof.
  destruct table as [|kv table].
  - unfold resolve_result_id, result_by_index. cbn.
    destruct (Py.nonempty neo4j_agent_name); reflexivity.
  - set (t := kv :: table). unfold resolve_result_id.
    assert (Hidx: forall r, Py.nonempty (result_by_index py_int t task_id) = Some r ->
                            In r (Py.values t)).
    { intros r Hr. apply nonempty_some in Hr. unfold result_by_index in Hr.
      subst t. cbv beta iota in Hr.
      destruct (Py.nonempty task_id) as [tid|]; [|discriminate].
      destruct (Py.startswith "task_" tid); [|discriminate].
      destruct (py_int _); [|discriminate].
      now apply first_result_in in Hr. }
    destruct (Py.nonempty (result_by_index py_int t task_id)) as [r|] eqn:Ei.
    + exists r. split; [|now apply Hidx]. subst t. reflexivity.
    + destruct (Py.nonempty neo4j_agent_name) as [name|].
      * destruct (Py.nonempty (first_result (Py.startswith name) t)) as [r|] eqn:En.
        -- exists r. split; [subst t; reflexivity|].
           apply nonempty_some in En. now apply first_result_in in En.
        -- subst t. eexists. split; [reflexivity|].
           apply (in_map snd), last_in.
      * subst t. eexists. split; [reflexivity|].
        apply (in_map snd), last_in.
Qed.

Lemma length_enumerate {A} (l : list A) : length (enumerate l) = length l.
Proof.
  unfold enumerate. rewrite <- (length_map fst), enumerate_from_indices.
  apply length_seq.
Qed.

Lemma filter_none {A} (p : A -> bool) (l : list A) :
  Forall (fun x => p x = false) l -> filter p l = [].
Proof.
  induction 1 as [|x l Hx _ IH]; cbn; [reflexivity | now rewrite Hx].
Qed.

Lemma filter_all {A} (p : A -> bool) (l : list A) :
  Forall (fun x => p x = true) l -> filter p l = l.
Proof.
  induction 1 as [|x l Hx _ IH]; cbn; [reflexivity | now rewrite Hx, IH].
Qed.

(** When the recording of a sub-graph returns, the two counters it reports
    add up to the number of relationships written on the retrieval node,
    which is the first statement it sent, and the statements that create a
    relationship are as many as the first counter says. *)
Theorem sub_graph_counters_match_the_statements question_id graph_data timestamp
  retrieval_suffix neo4j_agent_name task_id agent_results log created failed log' :
  create_graph_data rejects py_int question_id graph_data timestamp retrieval_suffix
    neo4j_agent_name task_id agent_results log
  = (Ret (created, failed), log') ->
  created + failed = length (gd_retrieved_relationships graph_data)
  /\ exists ops,
       log' = (log
               ++ CreateGraphRAGRetrieval ("graphrag_" ++ question_id ++ retrieval_suffix)
                    timestamp (gd_query graph_data) (gd_answer graph_data)
                    (gd_executed_cypher graph_data)
                    (length (gd_retrieved_nodes graph_data)) (created + failed)
               :: ops)%list
       /\ length (filter relationship_creation ops) = created.
Proof.
  unfold create_graph_data. intros H.
  apply bind_ret_inv in H. destruct H as (u1 & l1 & H1 & H).
  apply (session_run_inv rejects) in H1.
  apply bind_ret_inv in H. destruct H as (u2 & l2 & H2 & H).
  apply bind_ret_inv in H. destruct H as (m1 & l3 & H3 & H).
  apply bind_ret_inv in H. destruct H as (m2 & l4 & H4 & H).
  assert (E2: exists ops2, l2 = (l1 ++ ops2)%list
                           /\ Forall (fun op => relationship_creation op = false) ops2).
  { destruct (Py.nonempty _) as [r|].
    - apply (session_run_inv rejects) in H2. eexists.
      split; [exact H2 | repeat constructor].
    - inversion H2; subst. exists []. split; [now rewrite app_nil_r | constructor]. }
  destruct E2 as (ops2 & -> & F2).
  unfold primary_loop in H3.
  apply (for_fold_inv
           (fun _ ops => Forall (fun op => relationship_creation op = false) ops)
           (fun m entry =>
              Py.dict_set (external_id entry)
                (primary_node_id ("graphrag_" ++ question_id ++ retrieval_suffix)
                   (fst entry)) m)) in H3.
  2:{ intros s entry log0 s' log1 Hb.
      apply materialize_primary_inv in Hb. destruct Hb as (-> & op & -> & Hop).
      split; [reflexivity|]. eexists. split; [reflexivity|].
      destruct Hop as [-> | ->]; repeat constructor. }
  destruct H3 as (_ & opss & -> & F3).
  assert (F3': Forall (fun op => relationship_creation op = false) (concat opss)).
  { clear - F3. induction F3 as [|x ops l opss Hx _ IH]; cbn; [constructor|].
    apply Forall_app. split; assumption. }
  destruct (supplementary_loop_cases ("graphrag_" ++ question_id ++ retrieval_suffix)
              timestamp graph_data m1 ((l1 ++ ops2) ++ concat opss)%list)
    as (m2' & ops4 & E4 & F4 & _).
  rewrite E4 in H4.
  assert (Hm: m2 = m2' /\ l4 = (((l1 ++ ops2) ++ concat opss) ++ ops4)%list)
    by (inversion H4; split; reflexivity).
  destruct Hm as [-> ->]. clear H4.
  destruct (relationship_loop_cases timestamp m2'
              (enumerate (gd_retrieved_relationships graph_data)) (0, 0)
              (((l1 ++ ops2) ++ concat opss) ++ ops4)%list)
    as (c & f & ops5 & E5 & Hsum & Hlen & F5).
  rewrite E5 in H. cbn [fst snd Nat.add] in H.
  assert (Hc: created = c /\ failed = f
              /\ log' = ((((l1 ++ ops2) ++ concat opss) ++ ops4) ++ ops5)%list)
    by (inversion H; repeat split; reflexivity).
  destruct Hc as (-> & -> & ->). clear H.
  rewrite length_enumerate in Hsum. split; [exact Hsum|].
  exists (ops2 ++ concat opss ++ ops4 ++ ops5)%list. split.
  - rewrite H1, Hsum, <- !app_assoc. reflexivity.
  - rewrite !filter_app.
    rewrite (filter_none _ ops2 F2), (filter_none _ (concat opss) F3').
    rewrite (filter_none _ ops4), (filter_all _ ops5 F5); [exact Hlen|].
    eapply Forall_impl; [|exact F4]. intros op Hop. destruct op; try discriminate Hop;
      reflexivity.
Qed.

End RecorderGraph.

(* ===================================================================== *)
(** * Numerals and separators *)
(* ===================================================================== *)

Section Numerals.

Lemma to_uint_of_nat n : N.to_uint (N.of_nat n) = Nat.to_uint n.
Proof.
  rewrite DecimalNat.Unsigned.to_uint_alt.
  assert (H: forall x, N.to_uint x = Decimal.rev (DecimalPos.Unsigned.to_lu x)).
  { intros [|p]; reflexivity. }
  rewrite H. f_equal. induction n as [|n IH]; [reflexivity|].
  rewrite Nnat.Nat2N.inj_succ, DecimalPos.Unsigned.to_lu_succ,
    DecimalNat.Unsigned.to_lu_succ, IH. reflexivity.
Qed.

Lemma str_of_Z_of_nat n : Py.str_of_Z (Z.of_nat n) = Py.str_of_nat n.
Proof.
  unfold Py.str_of_Z, Py.str_of_nat. rewrite <- to_uint_of_nat.
  destruct n; reflexivity.
Qed.

Lemma to_uint_nonnil n : Nat.to_uint n <> Decimal.Nil.
Proof.
  rewrite <- (DecimalNat.Unsigned.of_to n) at 1.
  rewrite DecimalNat.Unsigned.to_of. apply DecimalFacts.unorm_nonnil.
Qed.

Lemma str_of_nat_inj a b : Py.str_of_nat a = Py.str_of_nat b -> a = b.
Proof.
  unfold Py.str_of_nat. intros H.
  apply DecimalNat.Unsigned.to_uint_inj.
  assert (E: NilZero.uint_of_string (NilZero.string_of_uint (Nat.to_uint a))
             = NilZero.uint_of_string (NilZero.string_of_uint (Nat.to_uint b)))
    by now rewrite H.
  rewrite !NilZero.usu in E by apply to_uint_nonnil. now inversion E.
Qed.

Lemma digits_no_underscore d :
  Py.contains_char "_" (NilEmpty.string_of_uint d) = false.
Proof.
  induction d; cbn; auto.
Qed.

Lemma str_of_nat_no_underscore n : Py.contains_char "_" (Py.str_of_nat n) = false.
Proof.
  unfold Py.str_of_nat, NilZero.string_of_uint.
  destruct (Nat.to_uint n) eqn:E; try (rewrite <- E; apply digits_no_underscore).
  reflexivity.
Qed.

Lemma contains_char_append c a b :
  Py.contains_char c (a ++ b) = Py.contains_char c a || Py.contains_char c b.
Proof.
  induction a as [|d a IH]; cbn; [reflexivity|]. now rewrite IH, orb_assoc.
Qed.

(** The last underscore of a text splits it in one way only. *)
Lemma append_underscore_inj a b u v :
  Py.contains_char "_" u = false -> Py.contains_char "_" v = false ->
  a ++ "_" ++ u = b ++ "_" ++ v -> a = b /\ u = v.
Proof.
  intros Hu Hv. revert b. induction a as [|c a IH]; intros [|d b] H; cbn in H.
  - inversion H. auto.
  - inversion H as [[Hc E]]. rewrite E, contains_char_append in Hu. cbn in Hu.
    rewrite orb_true_r in Hu. discriminate Hu.
  - inversion H as [[Hc E]]. rewrite <- E, contains_char_append in Hv. cbn in Hv.
    rewrite orb_true_r in Hv. discriminate Hv.
  - inversion H as [[Hc E]]. apply IH in E. destruct E as [-> ->]. auto.
Qed.

Lemma substring_suffix (x p : string) :
  substring (String.length x) (String.length p) (x ++ p) = p.
Proof.
  induction x as [|c x IH]; cbn; [|exact IH].
  induction p as [|c p IH]; cbn; [reflexivity | now rewrite IH].
Qed.

Lemma substring_split n (s : string) :
  n <= String.length s ->
  s = substring 0 n s ++ substring n (String.length s - n) s.
Proof.
  revert s. induction n as [|n IH]; intros s Hn.
  - cbn. rewrite Nat.sub_0_r. destruct s; cbn; [reflexivity|].
    f_equal. clear. induction s as [|c s IH]; cbn; [reflexivity | now rewrite <- IH].
  - destruct s as [|c s]; cbn in *; [lia|]. f_equal. apply IH. lia.
Qed.

Lemma endswith_iff p s : Py.endswith p s = true <-> exists x, s = x ++ p.
Proof.
  unfold Py.endswith. split.
  - intros H. apply andb_prop in H. destruct H as [Hl He].
    apply Nat.leb_le in Hl. apply String.eqb_eq in He.
    exists (substring 0 (String.length s - String.length p) s).
    pose proof (substring_split (String.length s - String.length p) s) as E.
    replace (String.length s - (String.length s - String.length p))
      with (String.length p) in E by lia.
    rewrite He in E. apply E. lia.
  - intros [x ->]. rewrite length_append.
    replace (String.length x + String.length p - String.length p)
      with (String.length x) by lia.
    rewrite substring_suffix, String.eqb_refl, andb_true_r.
    apply Nat.leb_le. lia.
Qed.

Lemma rev_string_rev_string u a b :
  Py.rev_string a (Py.rev_string b u) = Py.rev_string (u ++ a) b.
Proof.
  revert a b. induction u as [|c u IH]; intros a b; cbn; [reflexivity|].
  now rewrite IH.
Qed.

Lemma split_without_separator cur u :
  Py.contains_char "_" u = false ->
  Py.split_go "_" 0 cur u = [Py.rev_string EmptyString (Py.rev_string cur u)].
Proof.
  revert cur. induction u as [|c u IH]; intros cur H; [reflexivity|].
  cbn [Py.contains_char] in H. apply orb_false_elim in H. destruct H as [Hc Hu].
  cbn [Py.split_go String.prefix Py.rev_string].
  destruct (ascii_dec "_" c) as [E|_].
  - subst c. rewrite Ascii.eqb_refl in Hc. discriminate Hc.
  - now apply IH.
Qed.

Lemma split_task_id u :
  Py.contains_char "_" u = false -> Py.split "_" ("task_" ++ u) = ["task"; u].
Proof.
  intros H. unfold Py.split. cbn.
  rewrite (split_without_separator EmptyString u H).
  rewrite rev_string_rev_string. cbn.
  replace (String.prefix EmptyString u) with true by (destruct u; reflexivity).
  now rewrite append_nil_r.
Qed.

Lemma startswith_append p s : Py.startswith p (p ++ s) = true.
Proof.
  unfold Py.startswith. induction p as [|c p IH]; cbn [append String.prefix].
  - destruct s; reflexivity.
  - destruct (ascii_dec c c) as [_|Hn]; [exact IH | contradiction].
Qed.

End Numerals.

(* ===================================================================== *)
(** * The recorder: the handle table *)
(* ===================================================================== *)

Section HandleTable.
Import Audit.
Import Spec.
Variable rejects : list StoreOp -> StoreOp -> option exn.

Lemma handle_key_inj name1 i1 name2 i2 :
  handle_key name1 i1 = handle_key name2 i2 -> name1 = name2 /\ i1 = i2.
Proof.
  unfold handle_key. intros H.
  apply append_underscore_inj in H; try apply str_of_nat_no_underscore.
  destruct H as [-> H]. split; [reflexivity | now apply str_of_nat_inj].
Qed.

Lemma handle_keys_distinct (details : list TaskDetail) :
  NoDup (map td_index details) -> NoDup (map fst (map (handle_of "q") details)).
Proof.
  induction details as [|d details IH]; cbn; intros H; [constructor|].
  inversion H as [|i l Hn Hd]; subst. constructor; [|now apply IH].
  intros Hin. apply Hn. rewrite map_map in Hin. apply in_map_iff in Hin.
  destruct Hin as (d' & E & Hin'). cbn in E. apply handle_key_inj in E.
  destruct E as [_ E]. rewrite <- E. now apply in_map.
Qed.

Lemma dict_set_fresh {V} k (v : V) d :
  ~ In k (map fst d) -> Py.dict_set k v d = (d ++ [(k, v)])%list.
Proof.
  induction d as [|[k1 v1] d IH]; cbn; intros Hn; [reflexivity|].
  destruct (String.eqb_spec k k1) as [->|Hne].
  - exfalso. apply Hn. left. reflexivity.
  - f_equal. apply IH. intros H. apply Hn. right. exact H.
Qed.

Lemma fold_dict_set_fresh {A V} (f : A -> string * V) (l : list A) (d : Py.dict V) :
  NoDup (map fst d ++ map fst (map f l)) ->
  fold_left (fun t x => Py.dict_set (fst (f x)) (snd (f x)) t) l d
  = (d ++ map f l)%list.
Proof.
  revert d. induction l as [|x l IH]; intros d Hnd; cbn.
  - now rewrite app_nil_r.
  - cbn in Hnd. rewrite dict_set_fresh.
    + rewrite IH.
      * rewrite <- app_assoc. cbn. now destruct (f x).
      * rewrite map_app. cbn. rewrite <- app_assoc. exact Hnd.
    + apply NoDup_remove_2 in Hnd. intros Hin. apply Hnd.
      apply in_or_app. left. exact Hin.
Qed.

Lemma create_tasks_table question_id timestamp agents_by_type details log table log' :
  create_tasks rejects question_id timestamp agents_by_type details log
  = (Ret table, log') ->
  table = fold_left (fun t d => Py.dict_set (fst (handle_of question_id d))
                                  (snd (handle_of question_id d)) t) details [].
Proof.
  intros H. unfold create_tasks in H.
  apply (for_fold_inv (fun _ _ => True)
           (fun t d => Py.dict_set (fst (handle_of question_id d))
                         (snd (handle_of question_id d)) t)) in H.
  - destruct H as [H _]. exact H.
  - intros t d log0 t' log1 Hb.
    apply bind_ret_inv in Hb. destruct Hb as (a & l0 & Ha & Hb).
    apply lift_ret_inv in Ha. destruct Ha as [Ha ->].
    apply bind_ret_inv in Hb. destruct Hb as (u1 & l1 & H1 & Hb).
    apply bind_ret_inv in Hb. destruct Hb as (u2 & l2 & H2 & Hb).
    apply bind_ret_inv in Hb. destruct Hb as (u3 & l3 & H3 & Hb).
    apply bind_ret_inv in Hb. destruct Hb as (u4 & l4 & H4 & Hb).
    apply (session_run_inv rejects) in H1, H2, H3, H4. inversion Hb; subst.
    split; [reflexivity|].
    eexists. split; [|exact I]. rewrite <- !app_assoc. reflexivity.
Qed.

Lemma handle_table_of_run question_id orchestrator_id agent_tasks
  timestamp log table log' :
  create_agents_and_workflow rejects question_id orchestrator_id agent_tasks timestamp log
  = (Ret table, log') ->
  table = map (handle_of question_id) (task_details agent_tasks).
Proof.
  intros H. unfold create_agents_and_workflow in H.
  apply bind_ret_inv in H. destruct H as (u & l1 & _ & H).
  apply bind_ret_inv in H. destruct H as (t & l2 & H2 & H).
  apply bind_ret_inv in H. destruct H as (u3 & l3 & _ & H).
  assert (E: table = t) by (inversion H; reflexivity). subst t. clear H.
  apply create_tasks_table in H2. rewrite H2.
  apply (fold_dict_set_fresh (handle_of question_id) (task_details agent_tasks) []).
  cbn [map app].
  assert (G: map fst (map (handle_of question_id) (task_details agent_tasks))
             = map fst (map (handle_of "q") (task_details agent_tasks))).
  { rewrite !map_map. reflexivity. }
  rewrite G. apply handle_keys_distinct.
  rewrite task_details_indices. apply seq_NoDup.
Qed.

(** The handle table of a run that did not raise has one entry per task, in
    the order of the tasks: the key is the responder's name, an underscore
    and the position of the task, the value the id of the task's result. *)
Theorem handle_table_has_one_entry_per_task question_id orchestrator_id agent_tasks
  timestamp log table log' :
  create_agents_and_workflow rejects question_id orchestrator_id agent_tasks timestamp log
  = (Ret table, log') ->
  table = map (handle_of question_id) (task_details agent_tasks).
Proof.
  apply handle_table_of_run.
Qed.

Variable py_int : string -> option Z.

Lemma first_result_by_index question_id n (details : list TaskDetail) :
  In n (map td_index details) ->
  first_result (Py.endswith ("_" ++ Py.str_of_nat n)) (map (handle_of question_id) details)
  = Some (result_node_id question_id n).
Proof.
  induction details as [|d details IH]; cbn [map In first_result handle_of];
    [intros []|].
  intros Hin.
  destruct (Py.endswith ("_" ++ Py.str_of_nat n)
              (handle_key (td_agent_name d) (td_index d))) eqn:E.
  - apply endswith_iff in E. destruct E as [x E]. unfold handle_key in E.
    apply append_underscore_inj in E; try apply str_of_nat_no_underscore.
    destruct E as [_ E]. apply str_of_nat_inj in E. now rewrite E.
  - destruct Hin as [Hd | Hin]; [|now apply IH].
    exfalso. rewrite Hd in E.
    assert (T: Py.endswith ("_" ++ Py.str_of_nat n)
                 (handle_key (td_agent_name d) n) = true).
    { apply endswith_iff. exists (td_agent_name d). reflexivity. }
    congruence.
Qed.

Lemma resolve_by_task_index question_id agent_tasks n neo4j_agent_name :
  n < length agent_tasks ->
  py_int (Py.str_of_nat n) = Some (Z.of_nat n) ->
  resolve_result_id py_int (map (handle_of question_id) (task_details agent_tasks))
    neo4j_agent_name (Some ("task_" ++ Py.str_of_nat n))
  = Some (result_node_id question_id n).
Proof.
  intros Hn Hint.
  assert (Hin: In n (map td_index (task_details agent_tasks))).
  { rewrite task_details_indices. apply in_seq. lia. }
  pose proof (first_result_by_index question_id n _ Hin) as Hfirst.
  assert (Hidx: result_by_index py_int
                  (map (handle_of question_id) (task_details agent_tasks))
                  (Some ("task_" ++ Py.str_of_nat n))
                = Some (result_node_id question_id n)).
  { unfold result_by_index.
    destruct (map (handle_of question_id) (task_details agent_tasks)) as [|kv t] eqn:Et;
      [discriminate Hfirst|].
    change (Py.nonempty (Some ("task_" ++ Py.str_of_nat n)))
      with (Some ("task_" ++ Py.str_of_nat n)).
    cbv beta iota. rewrite startswith_append.
    rewrite split_task_id by apply str_of_nat_no_underscore.
    cbn [nth]. rewrite Hint, str_of_Z_of_nat. exact Hfirst. }
  unfold resolve_result_id. rewrite Hidx.
  change (Py.nonempty (Some (result_node_id question_id n)))
    with (Some (result_node_id question_id n)).
  cbv beta iota zeta. destruct (Py.nonempty neo4j_agent_name); reflexivity.
Qed.

(** A sub-graph reported under the task id [task_<n>] is attached to the
    result of the run record at position [n], counted from zero, whichever
    responder produced it and whatever responder name comes with the
    sub-graph. *)
Theorem sub_graph_of_task_n_goes_to_record_n question_id agent_tasks n neo4j_agent_name :
  n < length agent_tasks ->
  py_int (Py.str_of_nat n) = Some (Z.of_nat n) ->
  resolve_result_id py_int (map (handle_of question_id) (task_details agent_tasks))
    neo4j_agent_name (Some ("task_" ++ Py.str_of_nat n))
  = Some (result_node_id question_id n).
Proof.
  apply resolve_by_task_index.
Qed.

End HandleTable.

Lemma handle_table_has_one_entry_per_task_witness :
  [("Planner_0", "result_q_0"); ("Neo4J Agent_1", "result_q_1");
   ("Llm Agent_2", "result_q_2")]
  = map (Spec.handle_of "q") (Audit.task_details Mock.planner_graph_llm).
Proof.
  exact (handle_table_has_one_entry_per_task Spec.accept_all "q" "orchestrator_q"
           Mock.planner_graph_llm "T" []
           [("Planner_0", "result_q_0"); ("Neo4J Agent_1", "result_q_1");
            ("Llm Agent_2", "result_q_2")]
           (snd (Audit.create_agents_and_workflow Spec.accept_all "q"
                   "orchestrator_q" Mock.planner_graph_llm "T" []))
           eq_refl).
Defined.

Lemma sub_graph_of_task_n_goes_to_record_n_witness :
  Audit.resolve_result_id Mock.int_of_digits
    [("Planner_0", "result_q_0"); ("Neo4J Agent_1", "result_q_1");
     ("Llm Agent_2", "result_q_2")]
    (Some "Llm Agent") (Some "task_1")
  = Some "result_q_1".
Proof.
  apply (sub_graph_of_task_n_goes_to_record_n Mock.int_of_digits "q"
           Mock.planner_graph_llm 1 (Some "Llm Agent")); [cbn; lia | reflexivity].
Defined.

(* ===================================================================== *)
(** * From the engine's response to the recorder *)
(* ===================================================================== *)

Section Pipeline.
Import Audit.
Import Spec.

Lemma title_char_no_underscore (c : ascii) (prev_cased : bool) :
  Ascii.eqb "_" c = false ->
  Ascii.eqb "_" (if Py.is_lower c then (if prev_cased then c else Py.to_upper c)
                 else if Py.is_upper c then (if prev_cased then Py.to_lower c else c)
                 else c) = false.
Proof.
  destruct prev_cased;
    destruct c as [[] [] [] [] [] [] [] []]; intros H; try reflexivity; exact H.
Qed.

Lemma title_go_no_underscore prev_cased s :
  Py.contains_char "_" s = false ->
  Py.contains_char "_" (Py.title_go prev_cased s) = false.
Proof.
  revert prev_cased. induction s as [|c s IH]; intros prev_cased H; [reflexivity|].
  cbn [Py.contains_char] in H. apply orb_false_elim in H. destruct H as [Hc Hs].
  pose proof (title_char_no_underscore c prev_cased Hc) as Hc'.
  cbn [Py.title_go].
  destruct (Py.is_lower c); [|destruct (Py.is_upper c)];
    cbn [Py.contains_char]; rewrite Hc', IH; auto.
Qed.

Lemma replace_underscore_no_underscore s :
  Py.contains_char "_" (Py.replace_char "_" " " s) = false.
Proof.
  unfold Py.replace_char. induction s as [|c s IH]; [reflexivity|].
  cbn [Py.map_chars Py.contains_char]. rewrite IH, orb_false_r.
  destruct (Ascii.eqb c "_") eqn:E; [reflexivity|].
  rewrite Ascii.eqb_sym. exact E.
Qed.

(** The display name of a responder contains no underscore; for a
    responder id written in ASCII it has the length of the id. *)
Theorem display_name_has_no_underscore (a : string) :
  Py.contains_char "_" (display_name a) = false
  /\ (Py.is_ascii a = true ->
      String.length (display_name a) = String.length a).
Proof.
  unfold display_name, Py.title. split.
  - apply title_go_no_underscore, replace_underscore_no_underscore.
  - intros _. transitivity (String.length (Py.replace_char "_" " " a)).
    + assert (L: forall s b, String.length (Py.title_go b s) = String.length s).
      { induction s as [|c s IH]; intros b; [reflexivity|].
        cbn [Py.title_go]. destruct (Py.is_lower c); [|destruct (Py.is_upper c)];
          cbn [String.length]; now rewrite IH. }
      apply L.
    + unfold Py.replace_char. induction a as [|c a IH]; [reflexivity|].
      cbn [Py.map_chars String.length]. now rewrite IH.
Qed.

Lemma split_at_first_separator cur u rest :
  Py.contains_char "_" u = false ->
  Py.split_go "_" 0 cur (u ++ "_" ++ rest)
  = Py.rev_string EmptyString (Py.rev_string cur u)
    :: Py.split_go "_" 0 EmptyString rest.
Proof.
  revert cur. induction u as [|c u IH]; intros cur H.
  - cbn [append Py.split_go String.prefix Py.rev_string String.length Nat.sub].
    destruct (ascii_dec "_" "_") as [_|Hn]; [|contradiction].
    replace (String.prefix EmptyString rest) with true by (destruct rest; reflexivity).
    reflexivity.
  - cbn [Py.contains_char] in H. apply orb_false_elim in H. destruct H as [Hc Hu].
    cbn [append Py.split_go String.prefix Py.rev_string].
    destruct (ascii_dec "_" c) as [E|_].
    + subst c. rewrite Ascii.eqb_refl in Hc. discriminate Hc.
    + now apply IH.
Qed.

(** The responder a handle key is read as is the responder of the handle,
    when its name has no underscore. *)
Lemma key_prefix_of_handle_key name i :
  Py.contains_char "_" name = false -> key_prefix (handle_key name i) = name.
Proof.
  intros H. unfold key_prefix, handle_key, Py.split.
  rewrite split_at_first_separator by exact H. cbn [nth].
  rewrite rev_string_rev_string. cbn [Py.rev_string]. apply append_nil_r.
Qed.

Variable rejects : list StoreOp -> StoreOp -> option exn.

Lemma in_used_input_links a r ops :
  In (a, r) (used_input_links ops) <-> In (LinkUsedInputFrom a r) ops.
Proof.
  unfold used_input_links. rewrite in_flat_map. split.
  - intros (op & Hin & Hop). destruct op; cbn in Hop; try contradiction.
    destruct Hop as [E|[]]. inversion E; subst. exact Hin.
  - intros Hin. exists (LinkUsedInputFrom a r). split; [exact Hin | left; reflexivity].
Qed.

(** When no responder name contains an underscore, the USED_INPUT_FROM links
    of a run that did not raise are these: the agent of every task but the
    first is linked to the result of every task of a responder of another
    name, whether that task comes earlier or later. *)
Theorem used_input_links_join_other_responders question_id orchestrator_id agent_tasks
  timestamp log table log' :
  create_agents_and_workflow rejects question_id orchestrator_id agent_tasks timestamp log
  = (Ret table, log') ->
  Forall (fun d => Py.contains_char "_" (td_agent_name d) = false)
    (task_details agent_tasks) ->
  let details := task_details agent_tasks in
  exists ops,
    log' = (log ++ ops)%list
    /\ forall a r,
         In (a, r) (used_input_links ops) <->
         exists d d',
           In d details /\ In d' details
           /\ agent_id_for (group_by_type question_id details) (td_agent_type d) = inr a
           /\ r = result_node_id question_id (td_index d')
           /\ td_agent_name d' <> td_agent_name d
           /\ 0 < td_index d.
Proof.
  intros H Hnames details.
  pose proof (handle_table_of_run rejects _ _ _ _ _ _ _ H) as Ht.
  apply used_input_links_of_run in H. cbv zeta in H.
  destruct H as (ops & Hlog & Hlinks). exists ops. split; [exact Hlog|].
  intros a r. rewrite Hlinks, in_used_input_links, in_flat_map.
  fold details in Ht. fold details. subst table.
  assert (Huse: forall d d', In d' details ->
            uses_input d (handle_of question_id d') = true
            <-> td_agent_name d' <> td_agent_name d /\ 0 < td_index d).
  { intros d d' Hd'. unfold uses_input, handle_of. cbn [fst snd].
    rewrite key_prefix_of_handle_key
      by (apply (proj1 (Forall_forall _ _) Hnames); exact Hd').
    change (String.eqb (result_node_id question_id (td_index d')) EmptyString)
      with false.
    cbn [negb]. rewrite andb_true_r, andb_true_iff, negb_true_iff.
    rewrite Nat.ltb_lt. split.
    - intros [Hne Hi]. split; [|exact Hi].
      intros E. rewrite E, String.eqb_refl in Hne. discriminate Hne.
    - intros [Hne Hi]. split; [|exact Hi].
      destruct (String.eqb_spec (td_agent_name d') (td_agent_name d)); congruence. }
  split.
  - intros (d & Hd & Hin). unfold input_ops in Hin.
    destruct (agent_id_for _ _) as [e|a'] eqn:Ea; [destruct Hin|].
    apply in_map_iff in Hin. destruct Hin as (prev & E & Hprev).
    apply filter_In in Hprev. destruct Hprev as [Hprev Hu].
    apply in_map_iff in Hprev. destruct Hprev as (d' & <- & Hd').
    inversion E; subst. apply Huse in Hu; [|exact Hd'].
    exists d, d'. intuition.
  - intros (d & d' & Hd & Hd' & Ea & -> & Hne & Hi).
    exists d. split; [exact Hd|]. unfold input_ops. rewrite Ea.
    apply in_map_iff. exists (handle_of question_id d'). split; [reflexivity|].
    apply filter_In. split; [now apply in_map|]. apply Huse; auto.
Qed.

Context {W : Type} (X : Externals W).

Lemma task_details_names agent_tasks :
  map td_agent_name (task_details agent_tasks)
  = map (fun task => get_or (rt_agent task) "Unknown") agent_tasks.
Proof.
  unfold task_details, enumerate. generalize 0.
  induction agent_tasks as [|task l IH]; intros i; cbn; [reflexivity|].
  f_equal. apply IH.
Qed.

(** The run records the chat endpoint builds from the engine's task summaries
    name their responders without an underscore. *)
Theorem pipeline_responder_names_have_no_underscore cfg planning_completed tasks plan :
  Forall (fun d => Py.contains_char "_" (td_agent_name d) = false)
    (task_details
       (Main.audit_tasks
          (Orchestrator.convert_tasks_to_agent_tasks X cfg planning_completed tasks plan))).
Proof.
  apply Forall_forall. intros d Hd.
  apply (in_map td_agent_name) in Hd. rewrite task_details_names in Hd.
  unfold Main.audit_tasks in Hd. rewrite map_map in Hd. cbn [rt_agent get_or] in Hd.
  unfold Orchestrator.convert_tasks_to_agent_tasks in Hd. cbn [map] in Hd.
  destruct Hd as [E | Hd].
  - rewrite <- E. reflexivity.
  - rewrite map_map in Hd. apply in_map_iff in Hd. destruct Hd as (t & E & _).
    rewrite <- E. cbn. unfold display_name, Py.title.
    apply title_go_no_underscore, replace_underscore_no_underscore.
Qed.

Lemma nth_error_enumerate_from {A} (l : list A) i k :
  nth_error (enumerate_from i l) k = option_map (fun x => (i + k, x)) (nth_error l k).
Proof.
  revert i k. induction l as [|x l IH]; intros i [|k]; cbn; try reflexivity.
  - now rewrite Nat.add_0_r.
  - rewrite IH. destruct (nth_error l k); cbn; [|reflexivity].
    do 2 f_equal. lia.
Qed.

Variable py_int : string -> option Z.

(** When the task at position [k] of the plan, counted from one, has the id
    [task_<k>], its record stands at position [k] of the run records, behind
    the planner's, and the sub-graph it retrieved is attached to the result
    of that very record. *)
Theorem pipeline_sub_graph_reaches_own_result cfg planning_completed tasks plan
  question_id k t gd :
  nth_error (Py.values tasks) k = Some t ->
  id t = "task_" ++ Py.str_of_nat (S k) ->
  graph_data t = Some gd ->
  py_int (Py.str_of_nat (S k)) = Some (Z.of_nat (S k)) ->
  let agentTasks :=
    Orchestrator.convert_tasks_to_agent_tasks X cfg planning_completed tasks plan in
  let table := map (handle_of question_id) (task_details (Main.audit_tasks agentTasks)) in
  nth_error table (S k)
  = Some (handle_key (display_name (agent t)) (S k), result_node_id question_id (S k))
  /\ In (mkRetrieval (Some (display_name (agent t))) (Some (id t)) (Some gd))
        (Main.graph_retrievals agentTasks)
  /\ resolve_result_id py_int table (Some (display_name (agent t))) (Some (id t))
     = Some (result_node_id question_id (S k)).
Proof.
  intros Hk Hid Hgd Hint agentTasks table. split; [|split].
  - subst table agentTasks. unfold task_details, enumerate.
    rewrite !nth_error_map, nth_error_enumerate_from.
    unfold Main.audit_tasks, Orchestrator.convert_tasks_to_agent_tasks.
    rewrite nth_error_map. cbn [nth_error]. rewrite nth_error_map, Hk.
    reflexivity.
  - subst agentTasks. unfold Main.graph_retrievals. apply in_flat_map.
    exists (Orchestrator.agent_task_of X cfg t). split.
    + right. apply in_map. eapply nth_error_In. exact Hk.
    + cbn. rewrite Hgd. left. reflexivity.
  - rewrite Hid. subst table.
    apply resolve_by_task_index; [|exact Hint].
    subst agentTasks. unfold Main.audit_tasks, Orchestrator.convert_tasks_to_agent_tasks.
    rewrite length_map. cbn [length]. rewrite length_map.
    apply -> Nat.succ_lt_mono. apply nth_error_Some. congruence.
Qed.

End Pipeline.

Lemma used_input_links_join_other_responders_witness :
  let run := Audit.create_agents_and_workflow Spec.accept_all "q" "orchestrator_q"
               Mock.planner_graph_llm "T" [] in
  exists ops,
    snd run = ([] ++ ops)%list
    /\ In ("neo4j_agent_q", "result_q_2") (Spec.used_input_links ops).
Proof.
  intros run.
  destruct (used_input_links_join_other_responders Spec.accept_all "q" "orchestrator_q"
              Mock.planner_graph_llm "T" []
              [("Planner_0", "result_q_0"); ("Neo4J Agent_1", "result_q_1");
               ("Llm Agent_2", "result_q_2")]
              (snd run) eq_refl)
    as (ops & Hlog & Hlinks).
  - repeat constructor.
  - exists ops. split; [exact Hlog|]. apply Hlinks.
    exists (Audit.task_detail 1 (Mock.run_task_of "Neo4J Agent" (Some "graph answer"))),
           (Audit.task_detail 2 (Mock.run_task_of "Llm Agent" (Some "text answer"))).
    split; [right; left; reflexivity|].
    split; [right; right; left; reflexivity|].
    split; [reflexivity|]. split; [reflexivity|].
    split; [discriminate | cbn; lia].
Defined.

Lemma pipeline_sub_graph_reaches_own_result_witness :
  let agentTasks :=
    Orchestrator.convert_tasks_to_agent_tasks (Mock.llm_up "A summary.")
      Mock.default_config true Mock.graph_then_text Mock.graph_then_text_plan in
  Audit.resolve_result_id Mock.int_of_digits
    (map (Spec.handle_of "q") (Audit.task_details (Main.audit_tasks agentTasks)))
    (Some "Neo4J Agent") (Some "task_1")
  = Some "result_q_1".
Proof.
  intros agentTasks.
  apply (pipeline_sub_graph_reaches_own_result (Mock.llm_up "A summary.")
           Mock.int_of_digits Mock.default_config true Mock.graph_then_text
           Mock.graph_then_text_plan "q" 0
           (mkTask "task_1" "Who directed Heat?" "neo4j_agent" completed
              "Heat was directed by Michael Mann." "2025-01-01T00:00:00" None None
              (Some "Who directed Heat?") (Some Mock.small_graph))
           Mock.small_graph eq_refl eq_refl eq_refl eq_refl).
Defined.

(* ===================================================================== *)
(** * The recorder: sources *)
(* ===================================================================== *)

Section RecorderSources.
Import Audit.
Import Spec.
Variable rejects : list StoreOp -> StoreOp -> option exn.
Variable url_hostname : string -> exn + option string.

(** One source: either its one node was accepted, or nothing was. *)
Lemma create_source_cases question_id timestamp entry log :
  (exists op,
     create_source rejects url_hostname question_id timestamp entry log
     = (Ret tt, (log ++ [op])%list)
     /\ records_source question_id timestamp entry op)
  \/ exists e,
       create_source rejects url_hostname question_id timestamp entry log
       = (Raise e, log).
Proof.
  unfold create_source.
  set (source_id := "source_" ++ question_id ++ "_" ++ Py.str_of_nat (fst entry)).
  set (plain := CreateSource question_id source_id (snd entry) timestamp).
  assert (Hplain:
    (exists op, session_run rejects plain log = (Ret tt, (log ++ [op])%list)
                /\ records_source question_id timestamp entry op)
    \/ exists e, session_run rejects plain log = (Raise e, log)).
  { destruct (session_run_cases rejects plain log) as [[e H] | H].
    - right. eauto.
    - left. exists plain. split; [exact H | left; reflexivity]. }
  destruct (Py.startswith "Source: " (snd entry)) eqn:Es; [|exact Hplain].
  unfold try_except, bind, lift.
  destruct (url_hostname _) as [e|domain]; [exact Hplain|].
  unfold ret. cbv beta iota.
  match goal with
  | |- context [session_run rejects ?op log] =>
      destruct (session_run_cases rejects op log) as [[e H] | H]; rewrite H;
      [exact Hplain|]
  end.
  left. eexists. split; [reflexivity|]. right. split; [exact Es|].
  exists domain. reflexivity.
Qed.

(** The loop over the sources records each source by one node that carries
    its text, in the order of the sources; when the store refuses a node the
    loop stops there, and the sources before it stay recorded. *)
Theorem every_source_is_recorded_by_one_node question_id timestamp
  (entries : list (nat * string)) log :
  exists ops,
    snd (for_each entries (create_source rejects url_hostname question_id timestamp) log)
    = (log ++ ops)%list
    /\ Forall2 (records_source question_id timestamp) (firstn (length ops) entries) ops
    /\ match fst (for_each entries
                    (create_source rejects url_hostname question_id timestamp) log) with
       | Ret _ => length ops = length entries
       | Raise _ => length ops < length entries
       end.
Proof.
  revert log. induction entries as [|entry entries IH]; intros log.
  - exists []. cbn. rewrite app_nil_r. repeat split; constructor.
  - cbn [for_each]. unfold bind.
    destruct (create_source_cases question_id timestamp entry log)
      as [(op & H & Hop) | (e & H)]; rewrite H.
    + destruct (IH (log ++ [op])%list) as (ops & Hlog & HF & Hlen).
      exists (op :: ops). split; [rewrite Hlog, <- app_assoc; reflexivity|]. split.
      * cbn. constructor; assumption.
      * destruct (fst (for_each entries _ _)); cbn; lia.
    + exists []. cbn. rewrite app_nil_r. repeat split; [constructor | lia].
Qed.

End RecorderSources.

(* ===================================================================== *)
(** * The push channel *)
(* ===================================================================== *)

Section PushChannel.
Import ConnectionManager.
Variable send_raises : list (WebSocket * string) -> WebSocket -> string -> option exn.

Lemma dict_get_del_same {V} k (d : Py.dict V) : Py.dict_get k (Py.dict_del k d) = None.
Proof.
  unfold Py.dict_del. induction d as [|[k1 v1] d IH]; cbn; [reflexivity|].
  destruct (String.eqb_spec k k1) as [->|Hne]; cbn; [exact IH|].
  destruct (String.eqb_spec k k1); [contradiction | exact IH].
Qed.

Lemma dict_get_del_other {V} k k' (d : Py.dict V) :
  k' <> k -> Py.dict_get k' (Py.dict_del k d) = Py.dict_get k' d.
Proof.
  intros Hne. unfold Py.dict_del. induction d as [|[k1 v1] d IH]; cbn; [reflexivity|].
  destruct (String.eqb_spec k k1) as [->|Hk]; cbn.
  - destruct (String.eqb_spec k' k1); [contradiction | exact IH].
  - now rewrite IH.
Qed.

Lemma sends_agree session_id message_json st :
  send_task_update send_raises session_id message_json st
  = send_multi_task_update send_raises session_id message_json st
  /\ send_json_message send_raises session_id message_json st
     = send_multi_task_update send_raises session_id message_json st.
Proof. split; reflexivity. Qed.

Lemma send_cases session_id message_json st :
  let st' := send_multi_task_update send_raises session_id message_json st in
  (Py.dict_get session_id (active_connections st) = None /\ st' = st)
  \/ (exists websocket text,
        Py.dict_get session_id (active_connections st) = Some websocket
        /\ message_json = inr text
        /\ st' = mkState (active_connections st)
                   (delivered st ++ [(websocket, text)])%list)
  \/ (exists websocket,
        Py.dict_get session_id (active_connections st) = Some websocket
        /\ st' = mkState (Py.dict_del session_id (active_connections st))
                   (delivered st)).
Proof.
  cbv zeta. unfold send_multi_task_update.
  destruct (Py.dict_get session_id (active_connections st)) as [ws|] eqn:Eg;
    [|left; split; reflexivity].
  right.
  assert (Hd: disconnect session_id st
              = mkState (Py.dict_del session_id (active_connections st)) (delivered st)).
  { unfold disconnect, Py.dict_mem. now rewrite Eg. }
  destruct message_json as [e|text]; cbn.
  - right. exists ws. split; [reflexivity | exact Hd].
  - unfold send_text. destruct (send_raises (delivered st) ws text).
    + right. exists ws. split; [reflexivity | exact Hd].
    + left. exists ws, text. repeat split.
Qed.

(** A push to a session leaves every other session's socket in place; to a
    session that is not connected it does nothing; otherwise the text goes
    to the session's socket and to no other, or the session is dropped and
    nothing is delivered. It is the same for the three kinds of message. *)
Theorem push_concerns_one_session session_id message_json st :
  let st' := send_multi_task_update send_raises session_id message_json st in
  send_task_update send_raises session_id message_json st = st'
  /\ send_json_message send_raises session_id message_json st = st'
  /\ (forall other, other <> session_id ->
        Py.dict_get other (active_connections st')
        = Py.dict_get other (active_connections st))
  /\ match Py.dict_get session_id (active_connections st) with
     | None => st' = st
     | Some websocket =>
         (exists text,
            message_json = inr text
            /\ active_connections st' = active_connections st
            /\ delivered st' = (delivered st ++ [(websocket, text)])%list)
         \/ (Py.dict_get session_id (active_connections st') = None
             /\ delivered st' = delivered st)
     end.
Proof.
  cbv zeta. split; [reflexivity|]. split; [reflexivity|].
  destruct (send_cases session_id message_json st)
    as [[Hg ->] | [(ws & text & Hg & Hm & ->) | (ws & Hg & ->)]]; rewrite Hg.
  - split; reflexivity.
  - split; [reflexivity|]. left. exists text. repeat split. exact Hm.
  - split.
    + intros other Hne. cbn. now apply dict_get_del_other.
    + right. cbn. split; [apply dict_get_del_same | reflexivity].
Qed.

(** Once a push to a connected session has failed, later pushes to that
    session do nothing. *)
Theorem failed_push_silences_the_session session_id message_json websocket st :
  Py.dict_get session_id (active_connections st) = Some websocket ->
  delivered (send_multi_task_update send_raises session_id message_json st)
  = delivered st ->
  forall later,
    send_multi_task_update send_raises session_id later
      (send_multi_task_update send_raises session_id message_json st)
    = send_multi_task_update send_raises session_id message_json st.
Proof.
  intros Hg Hd later.
  destruct (send_cases session_id message_json st)
    as [[Hn _] | [(ws & text & _ & _ & E) | (ws & _ & E)]].
  - congruence.
  - cbv zeta in E. rewrite E in Hd. cbn in Hd.
    apply (f_equal (@length _)) in Hd. rewrite length_app in Hd. cbn in Hd. lia.
  - cbv zeta in E. rewrite E. unfold send_multi_task_update at 1.
    cbn [active_connections]. now rewrite dict_get_del_same.
Qed.

End PushChannel.

Lemma failed_push_silences_the_session_witness :
  let closed := fun (_ : list (nat * string)) (_ : nat) (_ : string) =>
                  Some "WebSocket is not connected." in
  let st := ConnectionManager.mkState [("s1", 7); ("s2", 8)] [] in
  ConnectionManager.send_multi_task_update closed "s1" (inr "{}")
    (ConnectionManager.send_multi_task_update closed "s1" (inr "{}") st)
  = ConnectionManager.mkState [("s2", 8)] [].
Proof.
  intros closed st.
  rewrite (failed_push_silences_the_session closed "s1" (inr "{}") 7 st eq_refl eq_refl
             (inr "{}")).
  reflexivity.
Defined.

(* ===================================================================== *)
(** * From the graph responder's export to the recorder *)
(* ===================================================================== *)

Section ExportToRecorder.
Import Audit.
Import Spec.
Variable rejects : list StoreOp -> StoreOp -> option exn.

Lemma primary_loop_map graphrag_id timestamp nodes log m log' :
  primary_loop rejects graphrag_id timestamp nodes log = (Ret m, log') ->
  m = primary_entity_map graphrag_id nodes.
Proof.
  intros H. unfold primary_loop in H.
  apply (for_fold_inv (fun _ _ => True)
           (fun m entry =>
              Py.dict_set (external_id entry)
                (primary_node_id graphrag_id (fst entry)) m)) in H.
  - destruct H as [H _]. exact H.
  - intros s entry log0 s' log1 Hb.
    apply materialize_primary_inv in Hb. destruct Hb as (-> & op & -> & _).
    split; [reflexivity|]. eexists. split; [reflexivity | exact I].
Qed.

Lemma dict_get_nth {V} (l : Py.dict V) i k v :
  NoDup (map fst l) -> nth_error l i = Some (k, v) -> Py.dict_get k l = Some v.
Proof.
  revert i. induction l as [|[k1 v1] l IH]; intros i Hnd Hi.
  - destruct i; discriminate Hi.
  - inversion Hnd as [|x xs Hn Hnd']; subst. destruct i as [|i]; cbn in Hi |- *.
    + inversion Hi; subst. now rewrite String.eqb_refl.
    + destruct (String.eqb_spec k k1) as [->|_]; [|eapply IH; eauto].
      exfalso. apply Hn. apply nth_error_In in Hi.
      apply (in_map fst) in Hi. exact Hi.
Qed.

Lemma external_ids_of_exported (nodes : list NodeData) i :
  Forall (fun nd => nd_elementId nd = None) nodes ->
  Forall (fun nd => exists e, nd_id nd = Some e) nodes ->
  map Some (map external_id (enumerate_from i nodes)) = map nd_id nodes.
Proof.
  intros H1 H2. revert i. induction nodes as [|nd nodes IH]; intros i; [reflexivity|].
  inversion H1 as [|x xs Hx H1']; inversion H2 as [|y ys [e Hy] H2']; subst.
  cbn [enumerate_from map]. rewrite IH by assumption. f_equal.
  unfold external_id, element_id_or. cbn [fst snd]. rewrite Hx, Hy. reflexivity.
Qed.

Lemma NoDup_map_Some {A} (l : list A) : NoDup (map Some l) -> NoDup l.
Proof.
  induction l as [|x l IH]; cbn; intros H; [constructor|].
  inversion H as [|y ys Hn Hd]; subst. constructor; [|now apply IH].
  intros Hin. apply Hn. now apply in_map.
Qed.

Lemma Forall2_nth {A B} (P : A -> B -> Prop) l l' :
  Forall2 P l l' ->
  forall i x, nth_error l i = Some x ->
              exists y, nth_error l' i = Some y /\ P x y.
Proof.
  induction 1 as [|a b l l' Hab _ IH]; intros i x Hi.
  - destruct i; discriminate Hi.
  - destruct i as [|i]; cbn in Hi |- *.
    + inversion Hi; subst. eauto.
    + apply IH. exact Hi.
Qed.

(** The statement that creates the node of an entry, or its fallback, is
    one for that entry. *)
Lemma creates_entry_materializes graphrag_id timestamp entry op :
  creates_entry graphrag_id timestamp entry op ->
  materializes graphrag_id timestamp entry op.
Proof.
  intros [-> | ->]; [|cbn; repeat split].
  unfold primary_create, materializes. cbn [fst snd].
  split; [apply labels_str_spec|].
  split; [rewrite node_statement_get, no_property_cleans_to_timestamp; reflexivity|].
  split; intros Hn; rewrite node_statement_get; destruct entry as [i nd];
    cbn [fst snd] in *; rewrite Hn; reflexivity.
Qed.

Lemma primary_loop_materializes graphrag_id timestamp nodes log m log' :
  primary_loop rejects graphrag_id timestamp nodes log = (Ret m, log') ->
  exists ops,
    log' = (log ++ ops)%list
    /\ Forall2 (materializes graphrag_id timestamp) (enumerate nodes)
         (node_creations ops)
    /\ retrieved_entity_links ops
       = map (fun i => (graphrag_id, primary_node_id graphrag_id i))
           (seq 0 (length nodes)).
Proof.
  intros H. apply primary_loop_creates_every_entry in H.
  destruct H as ((ops & Hlog & HF & Hl) & _).
  exists ops. split; [exact Hlog|]. split; [|exact Hl].
  eapply Forall2_impl; [|exact HF]. intros entry op. apply creates_entry_materializes.
Qed.

(** The external ids of an export are pairwise distinct, and the map of the
    primary loop over it lists them in order, each with the audit id of its
    position. *)
Lemma exported_entity_map processed candidates graphrag_id :
  let nodes := Neo4jAgent.collect_nodes processed candidates in
  NoDup (map external_id (enumerate nodes))
  /\ primary_entity_map graphrag_id nodes
     = map (fun entry => (external_id entry, primary_node_id graphrag_id (fst entry)))
         (enumerate nodes).
Proof.
  intros nodes.
  destruct (collect_nodes_ids processed candidates) as (Hnd & Hel & _).
  pose proof (collect_nodes_named processed candidates) as Hid.
  fold nodes in Hnd, Hel, Hid.
  pose proof (external_ids_of_exported nodes 0 Hel Hid) as Hext.
  fold (enumerate nodes) in Hext.
  assert (Hnd': NoDup (map external_id (enumerate nodes))).
  { apply NoDup_map_Some. rewrite Hext. exact Hnd. }
  split; [exact Hnd'|].
  unfold primary_entity_map.
  apply (fold_dict_set_fresh
           (fun entry : nat * NodeData =>
              (external_id entry, primary_node_id graphrag_id (fst entry)))
           (enumerate nodes) []).
  cbn [map app]. rewrite map_map. exact Hnd'.
Qed.

(** When the primary list is what the graph responder exported, the loop
    over it binds the id of every node to the audit id of that node's
    position: no binding is overwritten, and the map has one entry per
    node. The statement that created the node, at the same position among
    the creations, is one for that node: the fallback statement carries this
    audit id, and so does the statement under the node's own labels unless
    a property of the node, cleaned, is named [node_id]. *)
Theorem exported_nodes_resolve_to_their_own_audit_nodes processed candidates
  graphrag_id timestamp log m log' :
  let nodes := Neo4jAgent.collect_nodes processed candidates in
  primary_loop rejects graphrag_id timestamp nodes log = (Ret m, log') ->
  length m = length nodes
  /\ exists ops,
       log' = (log ++ ops)%list
       /\ forall i node,
            nth_error nodes i = Some node ->
            exists e op,
              nd_id node = Some e
              /\ Py.dict_get e m = Some (primary_node_id graphrag_id i)
              /\ nth_error (node_creations ops) i = Some op
              /\ materializes graphrag_id timestamp (i, node) op.
Proof.
  intros nodes H.
  destruct (primary_loop_materializes _ _ _ _ _ _ H) as (ops & Hlog & HF & _).
  apply primary_loop_map in H. subst m.
  destruct (exported_entity_map processed candidates graphrag_id) as [Hnd' Hmap].
  fold nodes in Hnd', Hmap.
  destruct (collect_nodes_ids processed candidates) as (_ & Hel & _).
  pose proof (collect_nodes_named processed candidates) as Hid.
  fold nodes in Hel, Hid.
  rewrite Hmap. split.
  - rewrite length_map. apply length_enumerate.
  - exists ops. split; [exact Hlog|]. intros i node Hi.
    destruct (proj1 (Forall_forall _ _) Hid node (nth_error_In _ _ Hi)) as [e He].
    assert (Hentry: nth_error (enumerate nodes) i = Some (i, node)).
    { unfold enumerate. rewrite nth_error_enumerate_from, Hi. reflexivity. }
    assert (Hop: exists op, nth_error (node_creations ops) i = Some op
                            /\ materializes graphrag_id timestamp (i, node) op).
    { exact (Forall2_nth _ _ _ HF i (i, node) Hentry). }
    destruct Hop as (op & Hop & Hmat).
    exists e, op. split; [exact He|]. split; [|split; assumption].
    apply (dict_get_nth _ i).
    + rewrite map_map. exact Hnd'.
    + rewrite nth_error_map, Hentry. cbn.
      unfold external_id, element_id_or. cbn [fst snd].
      rewrite (proj1 (Forall_forall _ _) Hel node (nth_error_In _ _ Hi)), He.
      reflexivity.
Qed.

(** ** Each retrieved node is materialized once *)

Lemma materialize_additional_skips name graphrag_id timestamp m0 m entry log :
  (forall k v, Py.dict_get k m0 = Some v -> Py.dict_get k m = Some v) ->
  exists m' ops,
    materialize_additional rejects name graphrag_id timestamp m entry log
    = (Ret m', (log ++ ops)%list)
    /\ skipped_if_bound m0 entry ops
    /\ (forall k v, Py.dict_get k m0 = Some v -> Py.dict_get k m' = Some v).
Proof.
  intros Hext.
  destruct (materialize_additional_cases rejects name graphrag_id timestamp m entry log)
    as (m' & ops & H & _ & C).
  exists m', ops. split; [exact H|]. split.
  - intros eid He Hm0. unfold materialize_additional in H. rewrite He in H.
    assert (Hm: Py.dict_mem eid m = true).
    { unfold Py.dict_mem in Hm0 |- *.
      destruct (Py.dict_get eid m0) as [v|] eqn:E; [|discriminate Hm0].
      now rewrite (Hext _ _ E). }
    rewrite Hm in H. inversion H as [[Hm' Hlog]].
    rewrite <- (app_nil_r log) in Hlog at 1.
    apply app_inv_head in Hlog. symmetry. exact Hlog.
  - intros k v Hk. apply Hext in Hk.
    destruct C as [-> | (k' & Hf & -> & _)]; [exact Hk|].
    now apply dict_get_set_fresh.
Qed.

Lemma additional_list_skips name graphrag_id timestamp m0 entries m log :
  (forall k v, Py.dict_get k m0 = Some v -> Py.dict_get k m = Some v) ->
  exists m' opss,
    for_fold entries m (materialize_additional rejects name graphrag_id timestamp) log
    = (Ret m', (log ++ concat opss)%list)
    /\ Forall2 (skipped_if_bound m0) entries opss
    /\ (forall k v, Py.dict_get k m0 = Some v -> Py.dict_get k m' = Some v).
Proof.
  revert m log. induction entries as [|entry entries IH]; intros m log Hext.
  - exists m, []. cbn. rewrite app_nil_r. repeat split; [constructor | exact Hext].
  - destruct (materialize_additional_skips name graphrag_id timestamp m0 m entry log Hext)
      as (m1 & ops1 & H1 & S1 & E1).
    destruct (IH m1 (log ++ ops1)%list E1) as (m2 & opss & H2 & S2 & E2).
    exists m2, (ops1 :: opss). cbn [for_fold concat]. unfold bind. rewrite H1, H2.
    split; [now rewrite app_assoc|]. split; [constructor; assumption | exact E2].
Qed.

Lemma supplementary_loop_skips graphrag_id timestamp graph_data m0 m log :
  (forall k v, Py.dict_get k m0 = Some v -> Py.dict_get k m = Some v) ->
  exists m' opsss,
    supplementary_loop rejects graphrag_id timestamp graph_data m log
    = (Ret m', (log ++ concat (map (@concat StoreOp) opsss))%list)
    /\ Forall2 (fun named opss =>
                  Forall2 (skipped_if_bound m0) (enumerate (snd named)) opss)
         (supplementary_lists graph_data) opsss
    /\ (forall k v, Py.dict_get k m0 = Some v -> Py.dict_get k m' = Some v).
Proof.
  unfold supplementary_loop. generalize (supplementary_lists graph_data).
  intros lists. revert m log.
  induction lists as [|named lists IH]; intros m log Hext.
  - exists m, []. cbn. rewrite app_nil_r. repeat split; [constructor | exact Hext].
  - destruct (additional_list_skips (fst named) graphrag_id timestamp m0
                (enumerate (snd named)) m log Hext) as (m1 & opss & H1 & S1 & E1).
    destruct (IH m1 (log ++ concat opss)%list E1) as (m2 & opsss & H2 & S2 & E2).
    exists m2, (opss :: opsss). cbn [for_fold map concat]. unfold bind.
    rewrite H1, H2.
    split; [now rewrite app_assoc|]. split; [constructor; assumption | exact E2].
Qed.

(** C6. The primary list the recorder is handed is the export of the graph
    responder, whose nodes have pairwise distinct ids. When the loop over it
    returns, every node of the list has been materialized once: the
    statements that create an audit node are as many as the nodes and stand
    in their order, each one for the node at its position, and the map is
    keyed by the external ids, one key per node, bound to the audit id of the
    node's position. From then on a node whose external id is in the map is
    skipped: the loops over the supplementary lists never raise, send no
    statement for an entry whose external id the primary loop has bound, and
    keep the bindings of the primary loop. *)
Theorem retrieved_node_is_materialized_once processed candidates graph_data
  graphrag_id timestamp log m log' :
  gd_retrieved_nodes graph_data = Neo4jAgent.collect_nodes processed candidates ->
  primary_loop rejects graphrag_id timestamp (gd_retrieved_nodes graph_data) log
  = (Ret m, log') ->
  let entries := enumerate (gd_retrieved_nodes graph_data) in
  NoDup (map external_id entries)
  /\ (exists ops,
        log' = (log ++ ops)%list
        /\ length (node_creations ops) = length (gd_retrieved_nodes graph_data)
        /\ Forall2 (materializes graphrag_id timestamp) entries (node_creations ops))
  /\ m = map (fun entry => (external_id entry, primary_node_id graphrag_id (fst entry)))
           entries
  /\ (forall entry,
        In entry entries ->
        Py.dict_get (external_id entry) m
        = Some (primary_node_id graphrag_id (fst entry)))
  /\ exists m' opsss,
       supplementary_loop rejects graphrag_id timestamp graph_data m log'
       = (Ret m', (log' ++ concat (map (@concat StoreOp) opsss))%list)
       /\ Forall2 (fun named opss =>
                     Forall2 (skipped_if_bound m) (enumerate (snd named)) opss)
            (supplementary_lists graph_data) opsss
       /\ (forall k v, Py.dict_get k m = Some v -> Py.dict_get k m' = Some v).
Proof.
  intros Hexp H entries. subst entries. rewrite Hexp in *.
  destruct (primary_loop_materializes _ _ _ _ _ _ H) as (ops & Hlog & HF & _).
  apply primary_loop_map in H.
  destruct (exported_entity_map processed candidates graphrag_id) as [Hnd Hmap].
  cbv zeta in Hnd, Hmap. rewrite Hmap in H.
  split; [exact Hnd|]. split; [|split; [exact H|split]].
  - exists ops. split; [exact Hlog|]. split; [|exact HF].
    apply Forall2_length in HF. rewrite <- HF. apply length_enumerate.
  - intros entry Hin. apply In_nth_error in Hin. destruct Hin as [i Hi].
    rewrite H. apply (dict_get_nth _ i).
    + rewrite map_map. exact Hnd.
    + rewrite nth_error_map, Hi. reflexivity.
  - apply supplementary_loop_skips. auto.
Qed.

End ExportToRecorder.

Lemma exported_nodes_resolve_to_their_own_audit_nodes_witness :
  Py.dict_get "4:abc:2"
    [("4:abc:1", "entity_graphrag_q_0_0"); ("4:abc:2", "entity_graphrag_q_0_1")]
  = Some (Audit.primary_node_id "graphrag_q_0" 1).
Proof.
  destruct (exported_nodes_resolve_to_their_own_audit_nodes Spec.accept_all []
              Mock.two_records "graphrag_q_0" "T" []
              [("4:abc:1", "entity_graphrag_q_0_0"); ("4:abc:2", "entity_graphrag_q_0_1")]
              (snd (Audit.primary_loop Spec.accept_all "graphrag_q_0" "T"
                      (Neo4jAgent.collect_nodes [] Mock.two_records) []))
              eq_refl) as (_ & ops & _ & H).
  destruct (H 1 _ eq_refl) as (e & op & He & Hm & _).
  cbn in He. inversion He; subst e. exact Hm.
Defined.

(** The export of three records, recorded: two nodes, two creations, and the
    supplementary entry that brings the first node again sends nothing. *)
Lemma retrieved_node_is_materialized_once_witness :
  let run := Audit.primary_loop Spec.accept_all "graphrag_q_0" "T"
               (gd_retrieved_nodes Mock.exported_graph) [] in
  map Spec.external_id (Audit.enumerate (gd_retrieved_nodes Mock.exported_graph))
  = ["4:abc:1"; "4:abc:2"]
  /\ exists ops,
       snd run = ([] ++ ops)%list
       /\ length (Spec.node_creations ops) = 2.
Proof.
  intros run. split; [reflexivity|].
  destruct (retrieved_node_is_materialized_once Spec.accept_all [] Mock.two_records
              Mock.exported_graph "graphrag_q_0" "T" []
              [("4:abc:1", "entity_graphrag_q_0_0"); ("4:abc:2", "entity_graphrag_q_0_1")]
              (snd run) eq_refl eq_refl)
    as (_ & (ops & Hlog & Hlen & _) & _).
  exists ops. split; [exact Hlog | exact Hlen].
Defined.

(* ===================================================================== *)
(** * The recorder: links come after the nodes they join *)
(* ===================================================================== *)

Section LinkOrder.
Import Audit.
Import Spec.
Variable rejects : list StoreOp -> StoreOp -> option exn.

Lemma links_follow_mono known known' ops :
  (forall x, In x known -> In x known') ->
  links_follow_creations known ops -> links_follow_creations known' ops.
Proof.
  revert known known'. induction ops as [|op ops IH]; intros known known' Hinc H;
    [exact I|].
  destruct H as [H1 H2]. split; [intros x Hx; auto|].
  eapply IH; [|exact H2]. intros x Hx. apply in_app_or in Hx. apply in_or_app.
  destruct Hx; auto.
Qed.

Lemma links_follow_app known ops1 ops2 :
  links_follow_creations known ops1 ->
  (forall known',
      (forall x, In x known -> In x known') ->
      (forall x, In x (flat_map created_by ops1) -> In x known') ->
      links_follow_creations known' ops2) ->
  links_follow_creations known (ops1 ++ ops2)%list.
Proof.
  revert known. induction ops1 as [|op ops1 IH]; intros known H1 H2.
  - apply H2; [auto | intros x []].
  - destruct H1 as [Ha Hb]. split; [exact Ha|]. apply IH; [exact Hb|].
    intros known' Hk Hc. apply H2.
    + intros x Hx. apply Hk. apply in_or_app. right. exact Hx.
    + intros x Hx. cbn in Hx. apply in_app_or in Hx. destruct Hx as [Hx|Hx].
      * apply Hk. apply in_or_app. left. exact Hx.
      * apply Hc. exact Hx.
Qed.

Lemma agent_links_follow orchestrator_id timestamp agents_by_type known :
  In orchestrator_id known ->
  links_follow_creations known
    (flat_map (agent_ops orchestrator_id timestamp) agents_by_type).
Proof.
  revert known. induction agents_by_type as [|kv l IH]; intros known Ho; [exact I|].
  cbn. split; [intros x []|]. split.
  - intros x [<- | [<- | []]]; [right; exact Ho | left; reflexivity].
  - apply IH. right. exact Ho.
Qed.

Lemma task_links_follow question_id timestamp agents_by_type details known :
  (forall d a, In d details ->
               agent_id_for agents_by_type (td_agent_type d) = inr a -> In a known) ->
  links_follow_creations known
    (flat_map (task_ops question_id timestamp agents_by_type) details).
Proof.
  revert known. induction details as [|d details IH]; intros known Ha; [exact I|].
  cbn [flat_map]. apply links_follow_app.
  - unfold task_ops.
    destruct (agent_id_for agents_by_type (td_agent_type d)) as [e|a] eqn:Ea; [exact I|].
    cbn. split; [intros x []|]. split; [intros x []|]. split.
    + intros x [<- | [<- | []]]; auto.
    + split; [|exact I]. intros x [<- | [<- | []]].
      * right. right. apply (Ha d); [left; reflexivity | exact Ea].
      * right. left. reflexivity.
  - intros known' Hk _. apply IH. intros d' a Hd' Ea. apply Hk.
    apply (Ha d'); [right; exact Hd' | exact Ea].
Qed.

Lemma input_links_follow agents_by_type table details known :
  (forall d a, In d details ->
               agent_id_for agents_by_type (td_agent_type d) = inr a -> In a known) ->
  (forall r, In r (Py.values table) -> In r known) ->
  links_follow_creations known (flat_map (input_ops agents_by_type table) details).
Proof.
  intros Ha Hr. induction details as [|d details IH]; [exact I|].
  cbn [flat_map]. apply links_follow_app.
  - unfold input_ops.
    destruct (agent_id_for agents_by_type (td_agent_type d)) as [e|a] eqn:Ea; [exact I|].
    assert (Hin: In a known) by (apply (Ha d); [left; reflexivity | exact Ea]).
    assert (G: forall l known',
               (forall x, In x known -> In x known') ->
               (forall prev, In prev l -> In prev table) ->
               links_follow_creations known'
                 (map (fun prev => LinkUsedInputFrom a (snd prev)) l)).
    { induction l as [|prev l IHl]; intros known' Hk Hl; [exact I|].
      cbn. split.
      - intros x [<- | [<- | []]]; apply Hk; [exact Hin|].
        apply Hr. apply in_map. apply Hl. left. reflexivity.
      - apply IHl; [exact Hk | intros p Hp; apply Hl; right; exact Hp]. }
    apply G; [auto|]. intros prev Hp. apply filter_In in Hp. tauto.
  - intros known' Hk _. eapply links_follow_mono; [exact Hk|].
    apply IH. intros d' a Hd' Ea. apply (Ha d'); [right; exact Hd' | exact Ea].
Qed.

Lemma created_agent_of agents_by_type orchestrator_id timestamp ty a :
  agent_id_for agents_by_type ty = inr a ->
  In a (flat_map created_by
          (flat_map (agent_ops orchestrator_id timestamp) agents_by_type)).
Proof.
  unfold agent_id_for. destruct (Py.dict_get ty agents_by_type) as [info|] eqn:Eg;
    [|discriminate].
  intros E. inversion E; subst a. apply dict_get_in in Eg.
  apply in_flat_map. exists (CreateAgent (ai_agent_id info) (ai_agent_name info) ty
                               timestamp (length (ai_tasks info))).
  split; [|left; reflexivity].
  apply in_flat_map. exists (ty, info). split; [exact Eg | left; reflexivity].
Qed.

(** In a run of the workflow part that did not raise, every link statement
    comes after the statements that create the two nodes it joins, the
    orchestrator node being there from the start. *)
Theorem workflow_links_follow_creations question_id orchestrator_id agent_tasks
  timestamp log table log' :
  create_agents_and_workflow rejects question_id orchestrator_id agent_tasks timestamp log
  = (Ret table, log') ->
  exists ops,
    log' = (log ++ ops)%list
    /\ links_follow_creations [orchestrator_id] ops.
Proof.
  intros H.
  pose proof (handle_table_of_run rejects _ _ _ _ _ _ _ H) as Ht.
  apply create_agents_and_workflow_inv in H. cbv zeta in H.
  destruct H as [-> HF]. eexists. split; [reflexivity|].
  set (details := task_details agent_tasks) in *.
  set (agents_by_type := group_by_type question_id details) in *.
  apply links_follow_app; [apply agent_links_follow; left; reflexivity|].
  intros known1 _ Hagents.
  assert (Ha: forall d a, In d details ->
                agent_id_for agents_by_type (td_agent_type d) = inr a -> In a known1).
  { intros d a _ Ea. apply Hagents. eapply created_agent_of. exact Ea. }
  apply links_follow_app; [apply task_links_follow; exact Ha|].
  intros known2 Hk Htasks. apply input_links_follow.
  - intros d a Hd Ea. apply Hk. eapply Ha; eauto.
  - intros r Hr. apply Htasks. subst table. unfold Py.values in Hr.
    rewrite map_map in Hr. apply in_map_iff in Hr. destruct Hr as (d & <- & Hd).
    apply in_flat_map.
    destruct (proj1 (Forall_forall _ _) HF d Hd) as [a Ea].
    exists (CreateResult (result_node_id question_id (td_index d)) (td_task_result d)
              (td_agent_name d) timestamp (td_index d)).
    split; [|left; reflexivity].
    apply in_flat_map. exists d. split; [exact Hd|].
    unfold task_ops. rewrite Ea. right. left. reflexivity.
Qed.

End LinkOrder.

Lemma workflow_links_follow_creations_witness :
  exists ops,
    snd (Audit.create_agents_and_workflow Spec.accept_all "q" "orchestrator_q"
           Mock.planner_graph_llm "T" [])
    = ([] ++ ops)%list
    /\ Spec.links_follow_creations ["orchestrator_q"] ops.
Proof.
  exact (workflow_links_follow_creations Spec.accept_all "q" "orchestrator_q"
           Mock.planner_graph_llm "T" []
           [("Planner_0", "result_q_0"); ("Neo4J Agent_1", "result_q_1");
            ("Llm Agent_2", "result_q_2")]
           (snd (Audit.create_agents_and_workflow Spec.accept_all "q"
                   "orchestrator_q" Mock.planner_graph_llm "T" []))
           eq_refl).
Defined.

Lemma sub_graph_counters_match_the_statements_witness :
  let table := [("Planner_0", "result_q_0"); ("Neo4J Agent_1", "result_q_1")] in
  let run := Audit.create_graph_data Spec.accept_all Mock.int_of_digits "q"
               Mock.small_graph "T" "_0" (Some "Neo4J Agent") (Some "task_1") table [] in
  fst run = Ret (1, 1) /\ 1 + 1 = length (gd_retrieved_relationships Mock.small_graph).
Proof.
  intros table run. split; [reflexivity|].
  exact (proj1 (sub_graph_counters_match_the_statements Spec.accept_all
                  Mock.int_of_digits "q" Mock.small_graph "T" "_0" (Some "Neo4J Agent")
                  (Some "task_1") table [] 1 1 (snd run) eq_refl)).
Defined.
